(** * Favorite-products API: a shallow embedding of the endpoints, the
      product helper and the sync command, with the properties of the
      specification stated over it.

    Layout
    - Python values as the JSON decoder produces them, [Decimal], exceptions;
    - the tables of [core/models.py] and the store;
    - [api/utils.py], [api/common/endpoints.py],
      [api/management/endpoints.py], [core/management/commands/sync_products.py];
    - the properties.

    Modelling boundary.  The database is a record of tables (lists of rows in
    insertion order) with the constraints the models declare: primary keys,
    [unique], [unique_together], NOT NULL and cascading foreign keys.  A
    column keeps a value as the framework prepares it on [save()]:
    [IntegerField] through [int()] and within the 64 bits of the default
    backend (SQLite), [CharField] through [str()], [DecimalField] rounded
    to its [decimal_places] and refused when it is not finite or has more
    than [max_digits] digits.  A length limit ([max_length]) is not
    enforced by that backend and is not modelled.  An instance in memory
    keeps what was assigned to it, whatever the column made of it.  Time is
    a number handed to each request; [date_changed] and [active] of
    [AuditedModel] play no part in any property below and are left out of
    the rows. *)

From Stdlib Require Import ZArith List String Ascii Bool Lia Permutation Sorted
  DecimalString.
Import ListNotations.
Local Open Scope Z_scope.
Set Warnings "-register-all".

(* ------------------------------------------------------------------ *)
(** ** Python values *)

(** [decimal.Decimal]: a finite value [m * 10^e], an infinity or a NaN
    (signalling NaNs are not told apart from quiet ones). *)
Inductive Decimal : Type :=
| Dfin (m e : Z)
| Dinf (negative : bool)
| Dnan.

(** A value decoded from JSON.  A float is kept as the decimal that
    [repr] prints for it, which is all the code ever asks of a float
    (its truth value, [str] and [int]). *)
Inductive pyval : Type :=
| PyNone
| PyBool (b : bool)
| PyInt (z : Z)
| PyFloat (d : Decimal)
| PyStr (s : string)
| PyList (l : list pyval)
| PyDict (kvs : list (string * pyval)).

(** The exceptions that can travel through the modelled code. *)
Inductive exn : Type :=
| RequestException
| KeyError
| ValueError
| TypeError
| AttributeError
| InvalidOperation
| OverflowError
| ValidationError
| IntegrityError.

(** A computation that returns or raises. *)
Inductive result (A : Type) : Type :=
| Ok (a : A)
| Raise (e : exn).
Arguments Ok {A} a.
Arguments Raise {A} e.

Definition bind {A B : Type} (r : result A) (k : A -> result B) : result B :=
  match r with
  | Ok a => k a
  | Raise e => Raise e
  end.

Notation "x <- r ;; k" := (bind r (fun x => k))
  (at level 100, r at next level, right associativity).

(** [bool(v)] *)
Definition truthy (v : pyval) : bool :=
  match v with
  | PyNone => false
  | PyBool b => b
  | PyInt z => negb (z =? 0)
  | PyFloat (Dfin m _) => negb (m =? 0)
  | PyFloat _ => true
  | PyStr s => negb (String.eqb s EmptyString)
  | PyList l => match l with [] => false | _ => true end
  | PyDict kvs => match kvs with [] => false | _ => true end
  end.

Fixpoint dict_get (kvs : list (string * pyval)) (k : string) : option pyval :=
  match kvs with
  | [] => None
  | (k', v) :: rest => if String.eqb k k' then Some v else dict_get rest k
  end.

(** [v[k]] for a string key [k]: [KeyError] on a dict without the key,
    [TypeError] on anything that is not a dict. *)
Definition getitem (v : pyval) (k : string) : result pyval :=
  match v with
  | PyDict kvs =>
      match dict_get kvs k with
      | Some x => Ok x
      | None => Raise KeyError
      end
  | _ => Raise TypeError
  end.

(** [v.get(k)]: [None] for a missing key; only a dict has the method. *)
Definition get (v : pyval) (k : string) : result pyval :=
  match v with
  | PyDict kvs =>
      match dict_get kvs k with
      | Some x => Ok x
      | None => Ok PyNone
      end
  | _ => Raise AttributeError
  end.

(** [a == b] on decimals: by value, and a NaN equals nothing. *)
Definition Decimal_eq (a b : Decimal) : bool :=
  match a, b with
  | Dfin m1 e1, Dfin m2 e2 =>
      let e := Z.min e1 e2 in
      (m1 * 10 ^ (e1 - e) =? m2 * 10 ^ (e2 - e))
  | Dinf s1, Dinf s2 => Bool.eqb s1 s2
  | _, _ => false
  end.

Definition Decimal_ne (a b : Decimal) : bool := negb (Decimal_eq a b).

(** [s != v] where [s] is a [str]: a string differs from every value of
    another type. *)
Definition str_ne (s : string) (v : pyval) : bool :=
  match v with
  | PyStr s' => negb (String.eqb s s')
  | _ => true
  end.

(** [int(f)] on a float: truncation towards zero. *)
Definition int_of_float (d : Decimal) : result Z :=
  match d with
  | Dfin m e => Ok (if 0 <=? e then m * 10 ^ e else Z.quot m (10 ^ (- e)))
  | Dinf _ => Raise OverflowError
  | Dnan => Raise ValueError
  end.

(* ------------------------------------------------------------------ *)
(** ** [core/models.py]: the rows *)

Inductive Role : Type := ADMIN | CUSTOMER.

Module User.
Record t : Type := mk {
  id : Z;
  name : string;
  email : string;
  password : string;
  role : Role
}.
End User.

(** Modelled from the spec: [api/models.py] (class [AuthToken]) is not part
    of the sources.  The data model gives a token an opaque key and the user
    it belongs to, and has it deleted together with that user. *)
Module AuthToken.
Record t : Type := mk {
  key : string;
  user : Z
}.
End AuthToken.

Module Product.
Record t : Type := mk {
  id : Z;
  date_created : Z;
  api_id : Z;
  title : string;
  price : Decimal;
  description : string;
  category : string;
  image : string;
  rating_rate : option Decimal;
  rating_count : option Z
}.
End Product.

Module FavoriteProducts.
Record t : Type := mk {
  id : Z;
  date_created : Z;
  user : Z;
  product : Z
}.
End FavoriteProducts.

Record Store : Type := mkStore {
  users : list User.t;
  tokens : list AuthToken.t;
  products : list Product.t;
  favorites : list FavoriteProducts.t
}.

(** The key an [AutoField] gives to a new row: any unused one would do. *)
Definition fresh (ids : list Z) : Z := 1 + fold_right Z.max 0 ids.

(** A [Product] instance in memory: the attributes hold whatever was
    assigned to them; [pk] is [None] until the first [save()]. *)
Module ProductObj.
Record t : Type := mk {
  pk : option Z;
  date_created : Z;
  api_id : pyval;
  title : pyval;
  price : Decimal;
  description : pyval;
  category : pyval;
  image : pyval;
  rating_rate : option Decimal;
  rating_count : pyval
}.
End ProductObj.

(** A [User] instance in memory; [setattr] may put [None] in a field. *)
Module UserObj.
Record t : Type := mk {
  pk : Z;
  name : option string;
  email : option string;
  password : string;
  role : Role
}.
End UserObj.

(** [api/management/schemas.py], [UserSchemaUpdate]: every field is
    optional.  The outer [option] tells whether the request set the field at
    all ([exclude_unset]); a field that was set holds a string or [None]
    (JSON null). *)
Module UserSchemaUpdate.
Record t : Type := mk {
  name : option (option string);
  email : option (option string);
  password : option (option string)
}.
End UserSchemaUpdate.

(** [api/management/schemas.py], [UserSchemaIn]: the three fields are
    required strings. *)
Module UserSchemaIn.
Record t : Type := mk {
  name : string;
  email : string;
  password : string
}.
End UserSchemaIn.

(** What an [authenticate] method of [api/utils.py] comes to: the user it
    returns, [None] (the framework answers 401), or the
    [MultipleObjectsReturned] that [get] raises and nothing catches. *)
Inductive AuthOutcome : Type :=
| Authenticated (user : User.t)
| Denied
| MultipleObjectsReturned.

(** What an endpoint hands back to the framework.  For a product it is
    the instance the handler holds: the one it read from the table, or the
    one it built and saved. *)
Inductive Body : Type :=
| ProductOut (p : ProductObj.t)
| UserOut (u : User.t)
| ErrorDict (error : string)
| Message (msg : string)
| NoContent
| Page (items : list Product.t) (count : nat)
| ValidationErrors.

(** A reply with its status code, or an exception no handler caught. *)
Inductive Response : Type :=
| Reply (status : Z) (body : Body)
| Unhandled (e : exn).

(* ------------------------------------------------------------------ *)
(** ** The code *)

Section Runtime.

(** Builtins of the Python runtime that read or print text, and Django's
    password hasher, are parameters: every property below holds whatever
    they compute.
    - [int_of_string s] is [int(s)], [None] when it raises [ValueError];
    - [Decimal_of_string s] is [Decimal(s)], [None] when it raises
      [decimal.InvalidOperation];
    - [py_str v] is [str(v)];
    - [make_password salt raw] is the hasher, with the salt it draws made
      explicit. *)
Variable int_of_string : string -> option Z.
Variable Decimal_of_string : string -> option Decimal.
Variable py_str : pyval -> string.
Variable make_password : string -> string -> string.

(** [Decimal(str(v))].  [str] of [None], of a bool, of a list or of a dict
    is no numeral, and [decimal.InvalidOperation] is an [ArithmeticError],
    not a [ValueError]. *)
Definition Decimal_str (v : pyval) : result Decimal :=
  match v with
  | PyInt z => Ok (Dfin z 0)
  | PyFloat d => Ok d
  | PyStr s =>
      match Decimal_of_string s with
      | Some d => Ok d
      | None => Raise InvalidOperation
      end
  | PyNone | PyBool _ | PyList _ | PyDict _ => Raise InvalidOperation
  end.

(** [IntegerField.get_prep_value]: [None] stays [None], anything else goes
    through [int()], whose [TypeError] or [ValueError] is raised again. *)
Definition IntegerField (v : pyval) : result (option Z) :=
  match v with
  | PyNone => Ok None
  | PyBool b => Ok (Some (if b then 1 else 0))
  | PyInt z => Ok (Some z)
  | PyFloat d => z <- int_of_float d ;; Ok (Some z)
  | PyStr s =>
      match int_of_string s with
      | Some z => Ok (Some z)
      | None => Raise ValueError
      end
  | PyList _ | PyDict _ => Raise TypeError
  end.

(** [CharField.to_python] (also [TextField], [URLField]): a string or
    [None] as it is, anything else through [str()]. *)
Definition CharField (v : pyval) : option string :=
  match v with
  | PyNone => None
  | PyStr s => Some s
  | _ => Some (py_str v)
  end.

(** [m / 10^k] rounded to the nearest integer, a tie going to the even
    one ([ROUND_HALF_EVEN], the rounding of the default context). *)
Definition round_half_even (m k : Z) : Z :=
  let q := m / 10 ^ k in
  let r := m mod 10 ^ k in
  if 2 * r <? 10 ^ k then q
  else if 10 ^ k <? 2 * r then q + 1
  else if Z.even q then q else q + 1.

(** The coefficient of [m * 10^e] brought to the exponent
    [- decimal_places]: [Decimal.quantize]. *)
Definition quantize (decimal_places m e : Z) : Z :=
  if - decimal_places <=? e then m * 10 ^ (e + decimal_places)
  else round_half_even m (- decimal_places - e).

(** What a [DecimalField(max_digits, decimal_places)] stores for a decimal:
    [to_python] refuses a value that is not finite, and [format_number]
    quantises within a context of [max_digits] digits, which raises
    [decimal.InvalidOperation] when the result needs more. *)
Definition DecimalField (max_digits decimal_places : Z) (d : Decimal)
  : result Decimal :=
  match d with
  | Dfin m e =>
      let c := quantize decimal_places m e in
      if Z.abs c <? 10 ^ max_digits then Ok (Dfin c (- decimal_places))
      else Raise InvalidOperation
  | Dinf _ | Dnan => Raise ValidationError
  end.

(** The same for a column with [null=True]. *)
Definition DecimalField_null (max_digits decimal_places : Z) (d : option Decimal)
  : result (option Decimal) :=
  match d with
  | None => Ok None
  | Some x => y <- DecimalField max_digits decimal_places x ;; Ok (Some y)
  end.

(** An integer that the backend can bind: 64 bits, signed. *)
Definition integer_in_range (z : option Z) : bool :=
  match z with
  | None => true
  | Some z => (- 2 ^ 63 <=? z) && (z <? 2 ^ 63)
  end.

(** *** Queries *)

(** [Product.objects.filter(api_id=p_id).first()] *)
Definition Product_by_api_id (st : Store) (p_id : Z) : option Product.t :=
  find (fun p => Product.api_id p =? p_id) (products st).

(** [User.objects.get(pk=user_id)]; [None] stands for [DoesNotExist]. *)
Definition User_get (st : Store) (user_id : Z) : option User.t :=
  find (fun u => User.id u =? user_id) (users st).

Definition option_string_eqb (a : option string) (s : string) : bool :=
  match a with
  | Some a' => String.eqb a' s
  | None => false
  end.

(** [User.objects.filter(email=e).first()]; a filter on [None] asks for a
    NULL column, which the NOT NULL [email] never is. *)
Definition User_by_email (st : Store) (e : option string) : option User.t :=
  find (fun u => option_string_eqb e (User.email u)) (users st).

(** *** [Model.save()] and [Manager.create()] *)

Definition ProductObj_of_row (p : Product.t) : ProductObj.t :=
  ProductObj.mk (Some (Product.id p)) (Product.date_created p)
    (PyInt (Product.api_id p)) (PyStr (Product.title p)) (Product.price p)
    (PyStr (Product.description p)) (PyStr (Product.category p))
    (PyStr (Product.image p)) (Product.rating_rate p)
    (match Product.rating_count p with Some z => PyInt z | None => PyNone end).

Definition replace_product (row : Product.t) (l : list Product.t) : list Product.t :=
  map (fun p => if Product.id p =? Product.id row then row else p) l.

(** The row that [save()] writes for an instance, with the given key and
    creation time.  The values are prepared column by column, in the order
    of the fields ([int()] and the decimal columns can raise here); an
    integer beyond the backend's range is refused when the statement is
    bound ([OverflowError]); a NULL in a NOT NULL column is an
    [IntegrityError] of the statement itself. *)
Definition Product_row (k created : Z) (o : ProductObj.t) : result Product.t :=
  api <- IntegerField (ProductObj.api_id o) ;;
  price <- DecimalField 10 2 (ProductObj.price o) ;;
  rate <- DecimalField_null 3 1 (ProductObj.rating_rate o) ;;
  cnt <- IntegerField (ProductObj.rating_count o) ;;
  if negb (integer_in_range api && integer_in_range cnt) then Raise OverflowError
  else
    match api, CharField (ProductObj.title o), CharField (ProductObj.description o),
          CharField (ProductObj.category o), CharField (ProductObj.image o) with
    | Some a, Some t, Some d, Some c, Some i =>
        Ok (Product.mk k created a t price d c i rate cnt)
    | _, _, _, _, _ => Raise IntegrityError
    end.

(** The instance after its first [save()]: it has its key and its creation
    time ([auto_now_add]); the other attributes stay as they were assigned. *)
Definition saved_as (k created : Z) (o : ProductObj.t) : ProductObj.t :=
  ProductObj.mk (Some k) created (ProductObj.api_id o) (ProductObj.title o)
    (ProductObj.price o) (ProductObj.description o) (ProductObj.category o)
    (ProductObj.image o) (ProductObj.rating_rate o) (ProductObj.rating_count o).

(** [product.save()]: INSERT of the prepared row with a new key and
    [date_created = now] for an instance without a key, UPDATE of the row
    with that key otherwise (the code only saves a keyed instance that it
    has just read, so that row is there).  A second row with the same
    [api_id] is an [IntegrityError].  The result is the instance, which is
    what the caller goes on with, and the store with the row in it. *)
Definition Product_save (o : ProductObj.t) (now : Z) (st : Store)
  : result (ProductObj.t * Store) :=
  match ProductObj.pk o with
  | None =>
      let k := fresh (map Product.id (products st)) in
      row <- Product_row k now o ;;
      if existsb (fun p => Product.api_id p =? Product.api_id row) (products st)
      then Raise IntegrityError
      else Ok (saved_as k now o,
               mkStore (users st) (tokens st) (products st ++ [row]) (favorites st))
  | Some k =>
      row <- Product_row k (ProductObj.date_created o) o ;;
      if existsb (fun p => (Product.api_id p =? Product.api_id row)
                           && negb (Product.id p =? k)) (products st)
      then Raise IntegrityError
      else Ok (o, mkStore (users st) (tokens st) (replace_product row (products st))
                    (favorites st))
  end.

(** [FavoriteProducts.objects.create(user=..., product=...)]: the pair is
    [unique_together]. *)
Definition FavoriteProducts_create (user product : Z) (now : Z) (st : Store)
  : result (FavoriteProducts.t * Store) :=
  if existsb (fun l => (FavoriteProducts.user l =? user)
                       && (FavoriteProducts.product l =? product)) (favorites st)
  then Raise IntegrityError
  else
    let row := FavoriteProducts.mk (fresh (map FavoriteProducts.id (favorites st)))
                 now user product in
    Ok (row, mkStore (users st) (tokens st) (products st) (favorites st ++ [row])).

(** *** [api/utils.py] *)

(** [data.get("rating") and data["rating"].get(key)], as a truth value. *)
Definition rating_has (data : pyval) (key : string) : result bool :=
  r <- get data "rating" ;;
  if truthy r then
    r' <- getitem data "rating" ;;
    x <- get r' key ;;
    Ok (truthy x)
  else Ok false.

Definition create_product_from_api_data (data : pyval) (now : Z) (st : Store)
  : result (ProductObj.t * Store) :=
  api_id <- getitem data "id" ;;
  title <- getitem data "title" ;;
  price <- (v <- getitem data "price" ;; Decimal_str v) ;;
  description <- getitem data "description" ;;
  category <- getitem data "category" ;;
  image <- getitem data "image" ;;
  rating_rate <-
    (c <- rating_has data "rate" ;;
     if c then
       r <- getitem data "rating" ;;
       v <- getitem r "rate" ;;
       d <- Decimal_str v ;;
       Ok (Some d)
     else Ok None) ;;
  rating_count <-
    (c <- rating_has data "count" ;;
     if c then
       r <- getitem data "rating" ;;
       getitem r "count"
     else Ok PyNone) ;;
  Product_save
    (ProductObj.mk None now api_id title price description category image
       rating_rate rating_count)
    now st.

(** *** [api/common/endpoints.py] *)

Definition product_not_fetched : string :=
  "Product not found or could not be fetched from the API.".
Definition already_favorited : string :=
  "The product selected is already on user's favorites.".
Definition not_on_favorites : string :=
  "This product is not on your favorites.".

(** The [except (requests.RequestException, KeyError, ValueError)] clause. *)
Definition add_favorite_catches (e : exn) : bool :=
  match e with
  | RequestException | KeyError | ValueError => true
  | _ => false
  end.

(** [FavoriteProducts.objects.create(user=request.auth, product=product)]
    for an instance: the link points to the key of the instance, and an
    instance that was never saved is refused ([ValueError]). *)
Definition FavoriteProducts_create_for (user : Z) (product : ProductObj.t) (now : Z)
  (st : Store) : result (FavoriteProducts.t * Store) :=
  match ProductObj.pk product with
  | Some k => FavoriteProducts_create user k now st
  | None => Raise ValueError
  end.

(** [client] is [ProductAPIClient().get_product]: what the catalog service
    answers for an id, decoded, or the exception of the request or of the
    decoding.  [auth] is the key of [request.auth].  The product of the
    reply is the instance the handler holds: the row it found, or the
    instance that [create_product_from_api_data] built. *)
Definition add_favorite (client : Z -> result pyval) (now : Z) (auth : Z) (p_id : Z)
  (st : Store) : Response * Store :=
  let found :=
    match Product_by_api_id st p_id with
    | Some product => Ok (ProductObj_of_row product, st)
    | None =>
        product_data <- client p_id ;;
        create_product_from_api_data product_data now st
    end in
  match found with
  | Raise e =>
      if add_favorite_catches e
      then (Reply 400 (ErrorDict product_not_fetched), st)
      else (Unhandled e, st)
  | Ok (product, st1) =>
      match FavoriteProducts_create_for auth product now st1 with
      | Raise IntegrityError => (Reply 400 (ErrorDict already_favorited), st1)
      | Raise e => (Unhandled e, st1)
      | Ok (_, st2) => (Reply 201 (ProductOut product), st2)
      end
  end.

(** [FavoriteProducts.objects.filter(user=..., product__api_id=p_id).first()] *)
Definition favorite_of (st : Store) (auth p_id : Z) : option FavoriteProducts.t :=
  find (fun l => (FavoriteProducts.user l =? auth)
                 && existsb (fun p => (Product.id p =? FavoriteProducts.product l)
                                      && (Product.api_id p =? p_id)) (products st))
       (favorites st).

Definition delete_favorite (auth : Z) (p_id : Z) (st : Store) : Response * Store :=
  match favorite_of st auth p_id with
  | None => (Reply 400 (Message not_on_favorites), st)
  | Some product_in_favorite =>
      (Reply 204 NoContent,
       mkStore (users st) (tokens st) (products st)
         (filter (fun l => negb (FavoriteProducts.id l
                                 =? FavoriteProducts.id product_in_favorite))
                 (favorites st)))
  end.

(** [order_by("date_created")] on products.  The database is free in how
    it orders rows of equal time; here they keep the order of the table
    (a stable insertion sort). *)
Fixpoint insert_by_date (p : Product.t) (l : list Product.t) : list Product.t :=
  match l with
  | [] => [p]
  | q :: l' =>
      if Product.date_created p <=? Product.date_created q
      then p :: q :: l'
      else q :: insert_by_date p l'
  end.

Definition order_by_date_created (l : list Product.t) : list Product.t :=
  fold_right insert_by_date [] l.

(** [Product.objects.filter(favoriteproducts__user=request.auth)]: the join
    gives a product once for each link of the user that points to it. *)
Definition favorited_by (st : Store) (auth : Z) : list Product.t :=
  flat_map
    (fun p =>
       map (fun _ => p)
         (filter (fun l => (FavoriteProducts.product l =? Product.id p)
                           && (FavoriteProducts.user l =? auth)) (favorites st)))
    (products st).

Definition get_favorites (auth : Z) (st : Store) : list Product.t :=
  order_by_date_created (favorited_by st auth).

(** *** The paginator of the framework

    [PageNumberPagination.Input] reads two query parameters: [page], an
    integer of at least 1 (default 1), and, in django-ninja 1.4 and later,
    [page_size], an integer of at least 1 that the request may leave out.
    [requested_page_size] is [None] for a request that leaves it out; under
    an earlier version of the framework every request is such a request.
    The size a request asks for is capped by the setting
    [NINJA_PAGINATION_MAX_PER_PAGE_SIZE] (100 unless the project sets it),
    which is a parameter. *)
Variable PAGINATION_MAX_PER_PAGE_SIZE : nat.

(** [PageNumberPagination._get_page_size] *)
Definition get_page_size (page_size : nat) (requested_page_size : option Z) : nat :=
  match requested_page_size with
  | None => page_size
  | Some requested => Nat.min (Z.to_nat requested) PAGINATION_MAX_PER_PAGE_SIZE
  end.

(** The validation of the two query parameters; a failure is a 422. *)
Definition valid_page_input (page : Z) (requested_page_size : option Z) : bool :=
  (1 <=? page)
  && match requested_page_size with
     | None => true
     | Some requested => 1 <=? requested
     end.

(** [@paginate(PageNumberPagination, page_size=...)]: the reply carries the
    slice [offset : offset + page_size] and the size of the whole queryset. *)
Definition PageNumberPagination (page_size : nat) (queryset : list Product.t)
  (page : Z) (requested_page_size : option Z) : Response :=
  if negb (valid_page_input page requested_page_size)
  then Reply 422 ValidationErrors
  else
    let page_size := get_page_size page_size requested_page_size in
    let offset := (Z.to_nat (page - 1) * page_size)%nat in
    Reply 200 (Page (firstn page_size (skipn offset queryset)) (List.length queryset)).

Definition get_favorites_page (auth : Z) (page : Z) (requested_page_size : option Z)
  (st : Store) : Response :=
  PageNumberPagination 20 (get_favorites auth st) page requested_page_size.

(** *** [api/management/errors.py] *)

Definition UserNotFound : string := "No user was found with the provided ID.".
Definition EmailInUse : string := "The provided email is already in use.".

(** [payload.<field>]: a field the request did not set reads as [None]. *)
Definition attr (f : option (option string)) : option string :=
  match f with
  | Some v => v
  | None => None
  end.

(** *** [api/management/endpoints.py] *)

Definition UserObj_of_row (u : User.t) : UserObj.t :=
  UserObj.mk (User.id u) (Some (User.name u)) (Some (User.email u))
    (User.password u) (User.role u).

Definition replace_user (row : User.t) (l : list User.t) : list User.t :=
  map (fun u => if User.id u =? User.id row then row else u) l.

(** [user.save()] on a stored user: UPDATE of its row; [name] and [email]
    are NOT NULL and [email] is unique. *)
Definition User_save (o : UserObj.t) (st : Store) : result (User.t * Store) :=
  match UserObj.name o, UserObj.email o with
  | Some n, Some e =>
      if existsb (fun u => String.eqb (User.email u) e
                           && negb (User.id u =? UserObj.pk o)) (users st)
      then Raise IntegrityError
      else
        let row := User.mk (UserObj.pk o) n e (UserObj.password o) (UserObj.role o) in
        Ok (row, mkStore (replace_user row (users st)) (tokens st) (products st)
                   (favorites st))
  | _, _ => Raise IntegrityError
  end.

(** [setattr(user, attr, value)] for the entries of [updated_fields], from
    which ["password"] has been popped. *)
Definition setattrs (payload : UserSchemaUpdate.t) (user : UserObj.t) : UserObj.t :=
  UserObj.mk (UserObj.pk user)
    (match UserSchemaUpdate.name payload with
     | Some v => v
     | None => UserObj.name user
     end)
    (match UserSchemaUpdate.email payload with
     | Some v => v
     | None => UserObj.email user
     end)
    (UserObj.password user) (UserObj.role user).

(** [user.set_password(raw)] *)
Definition set_password (salt raw : string) (user : UserObj.t) : UserObj.t :=
  UserObj.mk (UserObj.pk user) (UserObj.name user) (UserObj.email user)
    (make_password salt raw) (UserObj.role user).

(** [if password:] on [updated_fields.pop("password", None)] *)
Definition password_given (password : option string) : option string :=
  match password with
  | Some raw => if String.eqb raw EmptyString then None else Some raw
  | None => None
  end.

Definition update_user (salt : string) (user_id : Z) (payload : UserSchemaUpdate.t)
  (st : Store) : Response * Store :=
  let password := attr (UserSchemaUpdate.password payload) in
  match User_get st user_id with
  | None => (Reply 400 (Message UserNotFound), st)
  | Some row =>
      match User_by_email st (attr (UserSchemaUpdate.email payload)) with
      | Some email_check => (Reply 400 (Message EmailInUse), st)
      | None =>
          let user := setattrs payload (UserObj_of_row row) in
          let user :=
            match password_given password with
            | Some raw => set_password salt raw user
            | None => user
            end in
          match User_save user st with
          | Ok (saved, st') => (Reply 200 (UserOut saved), st')
          | Raise e => (Unhandled e, st)
          end
      end
  end.

(** [user.delete()]: the row goes, and with it, by [on_delete=CASCADE], the
    favorite links of the user and (from the data model) the tokens. *)
Definition User_delete (user : User.t) (st : Store) : Store :=
  mkStore
    (filter (fun u => negb (User.id u =? User.id user)) (users st))
    (filter (fun t => negb (AuthToken.user t =? User.id user)) (tokens st))
    (products st)
    (filter (fun l => negb (FavoriteProducts.user l =? User.id user)) (favorites st)).

Definition delete_user (user_id : Z) (st : Store) : Response * Store :=
  match User_get st user_id with
  | None => (Reply 400 (Message UserNotFound), st)
  | Some user => (Reply 204 NoContent, User_delete user st)
  end.

(** *** [core/management/commands/sync_products.py] *)

(** The [has_changes] expression; [or] stops at the first operand that
    holds, so a later key is only looked up when the earlier fields agree. *)
Definition has_changes (product : Product.t) (product_data : pyval) : result bool :=
  title <- getitem product_data "title" ;;
  if str_ne (Product.title product) title then Ok true else
  price <- (v <- getitem product_data "price" ;; Decimal_str v) ;;
  if Decimal_ne (Product.price product) price then Ok true else
  description <- getitem product_data "description" ;;
  if str_ne (Product.description product) description then Ok true else
  category <- getitem product_data "category" ;;
  if str_ne (Product.category product) category then Ok true else
  image <- getitem product_data "image" ;;
  Ok (str_ne (Product.image product) image).

(** The assignments of the [if has_changes:] branch, up to [product.save()]. *)
Definition assign_from (product : Product.t) (product_data : pyval)
  : result ProductObj.t :=
  let o := ProductObj_of_row product in
  title <- getitem product_data "title" ;;
  price <- (v <- getitem product_data "price" ;; Decimal_str v) ;;
  description <- getitem product_data "description" ;;
  category <- getitem product_data "category" ;;
  image <- getitem product_data "image" ;;
  rating <- get product_data "rating" ;;
  if truthy rating then
    rating_rate <- (r <- getitem product_data "rating" ;;
                    v <- getitem r "rate" ;; Decimal_str v) ;;
    rating_count <- (r <- getitem product_data "rating" ;; getitem r "count") ;;
    Ok (ProductObj.mk (ProductObj.pk o) (ProductObj.date_created o) (ProductObj.api_id o)
          title price description category image (Some rating_rate) rating_count)
  else
    Ok (ProductObj.mk (ProductObj.pk o) (ProductObj.date_created o) (ProductObj.api_id o)
          title price description category image
          (ProductObj.rating_rate o) (ProductObj.rating_count o)).

(** [Product.objects.get(api_id=api_id)]: the value is prepared as for the
    column ([None] asks for a NULL [api_id], which no row has); the result
    [None] stands for [Product.DoesNotExist]. *)
Definition Product_get (st : Store) (api_id : pyval) : result (option Product.t) :=
  key <- IntegerField api_id ;;
  match key with
  | Some a => Ok (Product_by_api_id st a)
  | None => Ok None
  end.

(** One turn of the [for product_data in api_products] loop: the store
    after it and whether the item was counted as updated ([true]) or as
    skipped ([false]). *)
Definition sync_product (product_data : pyval) (st : Store) : result (Store * bool) :=
  api_id <- getitem product_data "id" ;;
  found <- Product_get st api_id ;;
  match found with
  | Some product =>
      changed <- has_changes product product_data ;;
      if changed then
        o <- assign_from product product_data ;;
        saved <- Product_save o (ProductObj.date_created o) st ;;
        Ok (snd saved, true)
      else Ok (st, false)
  | None => Ok (st, false)
  end.

(** The loop with its two counters.  An exception leaves the loop; what
    earlier turns saved stays saved. *)
Fixpoint sync_loop (api_products : list pyval) (st : Store)
  (updated_count skipped_count : nat) : Store * result (nat * nat) :=
  match api_products with
  | [] => (st, Ok (updated_count, skipped_count))
  | product_data :: rest =>
      match sync_product product_data st with
      | Raise e => (st, Raise e)
      | Ok (st', true) => sync_loop rest st' (S updated_count) skipped_count
      | Ok (st', false) => sync_loop rest st' updated_count (S skipped_count)
      end
  end.

(** What [for ... in v] runs over: the items of a list, the keys of a dict,
    the characters of a string; other JSON values are not iterable. *)
Definition iterate (v : pyval) : result (list pyval) :=
  match v with
  | PyList l => Ok l
  | PyDict kvs => Ok (map (fun kv => PyStr (fst kv)) kvs)
  | PyStr s => Ok (map (fun c => PyStr (String c EmptyString)) (list_ascii_of_string s))
  | _ => Raise TypeError
  end.

Inductive SyncReport : Type :=
| FetchFailed
| SyncComplete (updated skipped : nat).

(** [Command.handle]; [response] is what [requests.get(...).json()] gives. *)
Definition handle (response : result pyval) (st : Store) : Store * result SyncReport :=
  match response with
  | Raise RequestException => (st, Ok FetchFailed)
  | Raise e => (st, Raise e)
  | Ok api_products =>
      match iterate api_products with
      | Raise e => (st, Raise e)
      | Ok items =>
          match sync_loop items st 0 0 with
          | (st', Ok (updated_count, skipped_count)) =>
              (st', Ok (SyncComplete updated_count skipped_count))
          | (st', Raise e) => (st', Raise e)
          end
      end
  end.

(** *** [api/utils.py]: the two gates *)

(** The rows of [AuthToken.objects.select_related("user")] with the given
    key: each token of that key with the user it points to. *)
Definition tokens_with_key (st : Store) (key : string) : list (AuthToken.t * User.t) :=
  flat_map
    (fun t =>
       if String.eqb (AuthToken.key t) key
       then map (fun u => (t, u))
              (filter (fun u => User.id u =? AuthToken.user t) (users st))
       else [])
    (tokens st).

(** [ApiKey.authenticate]: [get(key=key)] wants exactly one row. *)
Definition ApiKey_authenticate (st : Store) (key : string) : AuthOutcome :=
  match tokens_with_key st key with
  | [] => Denied
  | [(token, user)] => Authenticated user
  | _ => MultipleObjectsReturned
  end.

(** [User.is_admin], [User.is_customer] of [core/models.py] *)
Definition is_admin (u : User.t) : bool :=
  match User.role u with ADMIN => true | CUSTOMER => false end.

Definition is_customer (u : User.t) : bool :=
  match User.role u with CUSTOMER => true | ADMIN => false end.

(** [AdminApiKey.authenticate]: as above, and the user must have the role
    [ADMIN]; any other user falls through to [return None]. *)
Definition AdminApiKey_authenticate (st : Store) (key : string) : AuthOutcome :=
  match tokens_with_key st key with
  | [] => Denied
  | [(token, user)] =>
      match User.role user with
      | ADMIN => Authenticated user
      | CUSTOMER => Denied
      end
  | _ => MultipleObjectsReturned
  end.

(** *** [core/models.py]: [UserManager] and [User.token] *)

(** [BaseUserManager.normalize_email] of the framework (it lowers the case
    of the domain part) is a parameter, as is the collation by which the
    database compares names. *)
Variable normalize_email : string -> string.
Variable name_le : string -> string -> bool.

(** [User.token]: [self.tokens.first()], the key of the user's first token. *)
Definition token (st : Store) (u : User.t) : option string :=
  option_map AuthToken.key
    (find (fun t => AuthToken.user t =? User.id u) (tokens st)).

(** [UserManager.create_user], called with a string for the password.  An
    empty email is refused; the new row takes a new key, the normalised
    email, the hash of the password and the given role ([**extra_fields];
    the column's default is [CUSTOMER]); [save()] is an INSERT under the
    unique constraint on [email]. *)
Definition UserManager_create_user (salt : string) (email name password : string)
  (role : Role) (st : Store) : result (User.t * Store) :=
  if String.eqb email EmptyString then Raise ValueError
  else
    let email := normalize_email email in
    let user := User.mk (fresh (map User.id (users st))) name email
                  (make_password salt password) role in
    if existsb (fun u => String.eqb (User.email u) email) (users st)
    then Raise IntegrityError
    else Ok (user, mkStore (users st ++ [user]) (tokens st) (products st) (favorites st)).

(** Modelled from the spec: [AuthToken.objects.create(user=user)]; the class
    is in [api/models.py], which is not part of the sources.  A token is
    issued for the user, with an opaque key that the environment draws. *)
Definition AuthToken_create (key : string) (user : Z) (st : Store) : Store :=
  mkStore (users st) (tokens st ++ [AuthToken.mk key user]) (products st) (favorites st).

(** [UserManager.create_superuser]: the role is [ADMIN] unless the caller
    gives another one, and a token is issued. *)
Definition UserManager_create_superuser (salt key : string)
  (email name password : string) (role : option Role) (st : Store)
  : result (User.t * Store) :=
  let role := match role with Some r => r | None => ADMIN end in
  saved <- UserManager_create_user salt email name password role st ;;
  Ok (fst saved, AuthToken_create key (User.id (fst saved)) (snd saved)).

(** *** [api/management/endpoints.py]: list, create, get *)

(** [create_user]: only [IntegrityError] is caught. *)
Definition create_user (salt key : string) (payload : UserSchemaIn.t) (st : Store)
  : Response * Store :=
  match UserManager_create_user salt (UserSchemaIn.email payload)
          (UserSchemaIn.name payload) (UserSchemaIn.password payload) CUSTOMER st with
  | Raise IntegrityError => (Reply 400 (Message EmailInUse), st)
  | Raise e => (Unhandled e, st)
  | Ok (user, st1) =>
      (Reply 201 (UserOut user), AuthToken_create key (User.id user) st1)
  end.

Definition get_user (user_id : Z) (st : Store) : Response :=
  match User_get st user_id with
  | Some user => Reply 200 (UserOut user)
  | None => Reply 400 (Message UserNotFound)
  end.






(** No two tokens have the same key. *)
Definition unique_keys (st : Store) : Prop :=
  NoDup (map AuthToken.key (tokens st)).


(* ------------------------------------------------------------------ *)
(** ** The constraints of the schema *)

(** What the database enforces on every store it holds: primary keys,
    [User.email] and [Product.api_id] unique, [unique_together] on the
    links, and foreign keys that point to existing rows. *)
Record constraints (st : Store) : Prop := {
  user_pk : NoDup (map User.id (users st));
  email_unique : NoDup (map User.email (users st));
  product_pk : NoDup (map Product.id (products st));
  api_id_unique : NoDup (map Product.api_id (products st));
  favorite_pk : NoDup (map FavoriteProducts.id (favorites st));
  unique_together :
    NoDup (map (fun l => (FavoriteProducts.user l, FavoriteProducts.product l))
             (favorites st));
  token_user_fk :
    Forall (fun t => In (AuthToken.user t) (map User.id (users st))) (tokens st);
  favorite_user_fk :
    Forall (fun l => In (FavoriteProducts.user l) (map User.id (users st)))
      (favorites st);
  favorite_product_fk :
    Forall (fun l => In (FavoriteProducts.product l) (map Product.id (products st)))
      (favorites st)
}.

(** The constraints as a check that can be run on a given store. *)
Fixpoint distinct {A : Type} (eqb : A -> A -> bool) (l : list A) : bool :=
  match l with
  | [] => true
  | x :: rest => negb (existsb (eqb x) rest) && distinct eqb rest
  end.

Definition pair_eqb (a b : Z * Z) : bool :=
  (fst a =? fst b) && (snd a =? snd b).

Definition check_constraints (st : Store) : bool :=
  distinct Z.eqb (map User.id (users st))
  && distinct String.eqb (map User.email (users st))
  && distinct Z.eqb (map Product.id (products st))
  && distinct Z.eqb (map Product.api_id (products st))
  && distinct Z.eqb (map FavoriteProducts.id (favorites st))
  && distinct pair_eqb
       (map (fun l => (FavoriteProducts.user l, FavoriteProducts.product l))
          (favorites st))
  && forallb (fun t => existsb (Z.eqb (AuthToken.user t)) (map User.id (users st)))
       (tokens st)
  && forallb (fun l => existsb (Z.eqb (FavoriteProducts.user l))
                         (map User.id (users st))) (favorites st)
  && forallb (fun l => existsb (Z.eqb (FavoriteProducts.product l))
                         (map Product.id (products st))) (favorites st).

(** A favorite link of user [auth] to the product with catalog id [p_id]. *)
Definition linked (st : Store) (auth p_id : Z) : Prop :=
  exists l p,
    In l (favorites st) /\ In p (products st) /\
    FavoriteProducts.user l = auth /\
    FavoriteProducts.product l = Product.id p /\
    Product.api_id p = p_id.

(** User [auth] has a link to the row [p]. *)
Definition favorited (st : Store) (auth : Z) (p : Product.t) : Prop :=
  exists l,
    In l (favorites st) /\
    FavoriteProducts.user l = auth /\
    FavoriteProducts.product l = Product.id p.

Definition by_date_created (p q : Product.t) : Prop :=
  Product.date_created p <= Product.date_created q.

(** The order the specification's sentence is read as asking for: the
    user's products in the order of the creation time of the links. *)
Fixpoint insert_link (l : FavoriteProducts.t) (ls : list FavoriteProducts.t)
  : list FavoriteProducts.t :=
  match ls with
  | [] => [l]
  | l' :: rest =>
      if FavoriteProducts.date_created l <=? FavoriteProducts.date_created l'
      then l :: l' :: rest
      else l' :: insert_link l rest
  end.

Definition favorites_in_link_order (auth : Z) (st : Store) : list Product.t :=
  flat_map
    (fun l => filter (fun p => Product.id p =? FavoriteProducts.product l) (products st))
    (fold_right insert_link []
       (filter (fun l => FavoriteProducts.user l =? auth) (favorites st))).

(** [row] is [local] with the values of the fetched item written over it,
    each as its column keeps it (the price rounded to two places, the rate
    to one): the five compared fields always, the two rating fields when
    the item has a rating object that is not empty, the old ones otherwise;
    key, catalog id and creation time stay. *)
Definition overwritten_with (product_data : pyval) (local row : Product.t) : Prop :=
  Product.id row = Product.id local /\
  Product.api_id row = Product.api_id local /\
  Product.date_created row = Product.date_created local /\
  (exists v, getitem product_data "title" = Ok v /\ CharField v = Some (Product.title row)) /\
  (exists v d, getitem product_data "price" = Ok v /\ Decimal_str v = Ok d
               /\ DecimalField 10 2 d = Ok (Product.price row)) /\
  (exists v, getitem product_data "description" = Ok v
             /\ CharField v = Some (Product.description row)) /\
  (exists v, getitem product_data "category" = Ok v
             /\ CharField v = Some (Product.category row)) /\
  (exists v, getitem product_data "image" = Ok v /\ CharField v = Some (Product.image row)) /\
  (exists rating,
     get product_data "rating" = Ok rating /\
     if truthy rating then
       (exists v d, getitem rating "rate" = Ok v /\ Decimal_str v = Ok d
                    /\ DecimalField_null 3 1 (Some d) = Ok (Product.rating_rate row)) /\
       (exists v, getitem rating "count" = Ok v
                  /\ IntegerField v = Ok (Product.rating_count row))
     else
       DecimalField_null 3 1 (Product.rating_rate local) = Ok (Product.rating_rate row) /\
       Product.rating_count row = Product.rating_count local).

(** The rating that the update branch would save can be stored.  With a
    rating object that is not empty, its [rate] reads as a decimal that the
    column [DecimalField(max_digits=3, decimal_places=1)] takes and its
    [count] is one that an integer column takes; without one, the rating of
    the local row is saved again, and it is one that the columns take. *)
Definition rating_storable (product_data : pyval) (local : Product.t) : Prop :=
  exists rating,
    get product_data "rating" = Ok rating /\
    if truthy rating then
      exists rv d r cv c,
        getitem rating "rate" = Ok rv /\ Decimal_str rv = Ok d /\
        DecimalField 3 1 d = Ok r /\
        getitem rating "count" = Ok cv /\ IntegerField cv = Ok c /\
        integer_in_range c = true
    else
      (exists r, DecimalField_null 3 1 (Product.rating_rate local) = Ok r) /\
      integer_in_range (Product.rating_count local) = true.

(** The value under [data["rating"][key]], when there is one. *)
Definition rating_field (data : pyval) (key : string) : option pyval :=
  match data with
  | PyDict kvs =>
      match dict_get kvs "rating" with
      | Some (PyDict r) => dict_get r key
      | _ => None
      end
  | _ => None
  end.

(** The item carries a rating that is not the rating of the local row: a
    [rate] of another value, or a [count] of another value. *)
Definition rating_differs (product_data : pyval) (local : Product.t) : Prop :=
  (exists v d,
     rating_field product_data "rate" = Some v /\ Decimal_str v = Ok d /\
     forall r, Product.rating_rate local = Some r -> Decimal_ne r d = true) \/
  (exists v c,
     rating_field product_data "count" = Some v /\ IntegerField v = Ok (Some c) /\
     Product.rating_count local <> Some c).

(** The number zero, as an int or as a float. *)
Definition is_zero (v : pyval) : bool :=
  match v with
  | PyInt z => z =? 0
  | PyFloat (Dfin m _) => m =? 0
  | _ => false
  end.

(** [data] is a dict without a rating object: no ["rating"] key, or null. *)
Definition rating_missing (data : pyval) : bool :=
  match data with
  | PyDict kvs =>
      match dict_get kvs "rating" with
      | None | Some PyNone => true
      | _ => false
      end
  | _ => false
  end.

(* ------------------------------------------------------------------ *)
(** ** Sample data *)

(** A stand-in runtime to run the code on sample requests: it reads plain
    ASCII numerals ([-12], [109.95]) and prints only what the samples need. *)
Fixpoint split_point (s : string) : string * option string :=
  match s with
  | EmptyString => (EmptyString, None)
  | String c rest =>
      if Ascii.eqb c "."%char then (EmptyString, Some rest)
      else let (a, b) := split_point rest in (String c a, b)
  end.

Definition demo_int_of_string (s : string) : option Z :=
  if String.eqb s EmptyString then None
  else option_map Z.of_int (NilZero.int_of_string s).

Definition demo_Decimal_of_string (s : string) : option Decimal :=
  match split_point s with
  | (whole, None) => option_map (fun m => Dfin m 0) (demo_int_of_string whole)
  | (whole, Some frac) =>
      option_map (fun m => Dfin m (- Z.of_nat (String.length frac)))
        (demo_int_of_string (whole ++ frac))
  end.

Definition demo_py_str (v : pyval) : string :=
  match v with
  | PyNone => "None"
  | PyBool true => "True"
  | PyBool false => "False"
  | PyInt z => NilZero.string_of_int (Z.to_int z)
  | PyStr s => s
  | _ => EmptyString
  end.

Definition demo_make_password (salt raw : string) : string :=
  ("pbkdf2_sha256$" ++ salt ++ "$" ++ raw)%string.

Definition entry (k : string) (v : pyval) : string * pyval := (k, v).

(** An item of the catalog as the service sends it. *)
Definition catalog_item (id : Z) (title : string) (rate count : pyval) : pyval :=
  PyDict [entry "id" (PyInt id); entry "title" (PyStr title);
          entry "price" (PyFloat (Dfin 10995 (-2)));
          entry "description" (PyStr "Your perfect pack for everyday use");
          entry "category" (PyStr "men's clothing");
          entry "image" (PyStr "https://fakestoreapi.com/img/81fPKd-2AYL.png");
          entry "rating" (PyDict [entry "rate" rate; entry "count" count])].

(** The T-shirt (catalog id 2) as the catalog could send it, with a price
    and a rating of the caller's choice. *)
Definition priced_item (price rate count : pyval) : pyval :=
  PyDict [entry "id" (PyInt 2); entry "title" (PyStr "T-Shirt");
          entry "price" price;
          entry "description" (PyStr "Slim-fitting style");
          entry "category" (PyStr "men's clothing");
          entry "image" (PyStr "https://fakestoreapi.com/img/71-3HjGNDUL.png");
          entry "rating" (PyDict [entry "rate" rate; entry "count" count])].

(** A catalog answer with everything in place but the price, which is null. *)
Definition priceless_item (p_id : Z) : pyval :=
  PyDict [entry "id" (PyInt p_id); entry "title" (PyStr "Backpack");
          entry "price" PyNone;
          entry "description" (PyStr "Your perfect pack for everyday use");
          entry "category" (PyStr "men's clothing");
          entry "image" (PyStr "https://fakestoreapi.com/img/81fPKd-2AYL.png")].

Definition catalog (p_id : Z) : result pyval :=
  if (1 <=? p_id) && (p_id <=? 20)
  then Ok (catalog_item p_id "Backpack" (PyFloat (Dfin 39 (-1))) (PyInt 120))
  else Raise ValueError.

Definition alice : User.t :=
  User.mk 1 "Alice" "alice@test.com" "pbkdf2_sha256$s0$alice-secret" ADMIN.
Definition bob : User.t :=
  User.mk 2 "Bob" "bob@test.com" "pbkdf2_sha256$s0$bob-secret" CUSTOMER.
Definition carol : User.t :=
  User.mk 3 "Carol" "carol@test.com" "pbkdf2_sha256$s0$carol-secret" CUSTOMER.

Definition backpack : Product.t :=
  Product.mk 1 100 1 "Backpack" (Dfin 10995 (-2)) "Your perfect pack for everyday use"
    "men's clothing" "https://fakestoreapi.com/img/81fPKd-2AYL.png"
    (Some (Dfin 39 (-1))) (Some 120).
Definition tshirt : Product.t :=
  Product.mk 2 200 2 "T-Shirt" (Dfin 2230 (-2)) "Slim-fitting style"
    "men's clothing" "https://fakestoreapi.com/img/71-3HjGNDUL.png"
    (Some (Dfin 41 (-1))) (Some 259).

(** Three users with a token each, no product yet. *)
Definition people : Store :=
  mkStore [alice; bob; carol]
    [AuthToken.mk "key-alice" 1; AuthToken.mk "key-bob" 2; AuthToken.mk "key-carol" 3]
    [] [].

(** Bob favorited the backpack and then the T-shirt; Carol favorited the
    T-shirt first and the backpack afterwards. *)
Definition shop : Store :=
  mkStore [alice; bob; carol]
    [AuthToken.mk "key-alice" 1; AuthToken.mk "key-bob" 2; AuthToken.mk "key-carol" 3]
    [backpack; tshirt]
    [FavoriteProducts.mk 1 100 2 1; FavoriteProducts.mk 2 200 2 2;
     FavoriteProducts.mk 3 300 3 2; FavoriteProducts.mk 4 400 3 1].

(** A user with [n] favorites: product [k] was created at time [k]. *)
Definition numbered_product (k : nat) : Product.t :=
  Product.mk (Z.of_nat k) (Z.of_nat k) (Z.of_nat k) "Product" (Dfin 9999 (-2))
    "Test description" "test" "https://example.com/image.png" None None.



Definition collector (n : nat) : Store :=
  mkStore [bob] [AuthToken.mk "key-bob" 2]
    (map numbered_product (seq 1 n))
    (map (fun k => FavoriteProducts.mk (Z.of_nat k) (Z.of_nat k) 2 (Z.of_nat k))
       (seq 1 n)).

(* ------------------------------------------------------------------ *)
(** ** Properties *)

(** *** Lists, keys and the error monad *)

Lemma fold_max_ge (ids : list Z) (x : Z) :
  In x ids -> x <= fold_right Z.max 0 ids.
Proof.
  induction ids as [|y ids IH]; simpl; [tauto|].
  intros [->|H]; [lia|]. specialize (IH H). lia.
Qed.

Lemma fresh_above (ids : list Z) (x : Z) : In x ids -> x < fresh ids.
Proof. intros H. apply fold_max_ge in H. unfold fresh. lia. Qed.

Lemma fresh_not_in (ids : list Z) : ~ In (fresh ids) ids.
Proof. intros H. apply fresh_above in H. lia. Qed.

Lemma NoDup_map_eq {A B : Type} (f : A -> B) (l : list A) (x y : A) :
  NoDup (map f l) -> In x l -> In y l -> f x = f y -> x = y.
Proof.
  induction l as [|a l IH]; simpl; [tauto|].
  intros Hnd Hx Hy Hf. inversion Hnd as [|? ? Hnotin Hnd']; subst.
  destruct Hx as [->|Hx], Hy as [->|Hy]; auto.
  - exfalso. apply Hnotin. rewrite Hf. now apply in_map.
  - exfalso. apply Hnotin. rewrite <- Hf. now apply in_map.
Qed.

Lemma bind_Ok {A B : Type} (r : result A) (k : A -> result B) (b : B) :
  bind r k = Ok b -> exists a, r = Ok a /\ k a = Ok b.
Proof. destruct r as [a|e]; simpl; [eauto|discriminate]. Qed.

(** Splits an equation [x <- r ;; k = Ok b] into its two steps. *)
Tactic Notation "unbind" hyp(H) "as" ident(a) ident(Ha) :=
  apply bind_Ok in H; destruct H as (a & Ha & H).

(** *** Deleting a user *)

Lemma User_get_Some (st : Store) (user_id : Z) (u : User.t) :
  User_get st user_id = Some u -> In u (users st) /\ User.id u = user_id.
Proof.
  unfold User_get. intros H. apply find_some in H. destruct H as [Hin Heq].
  split; [assumption|]. now apply Z.eqb_eq.
Qed.

Lemma User_get_None (st : Store) (user_id : Z) :
  User_get st user_id = None ->
  forall u, In u (users st) -> User.id u <> user_id.
Proof.
  unfold User_get. intros H u Hin. apply (find_none _ _ H) in Hin.
  now apply Z.eqb_neq.
Qed.

(** C9. Deleting an existing user answers 204 with an empty body and
    removes the user row, every token of that user and every favorite link
    of that user, and nothing else: the other users, tokens and links stay
    and the product table is the same, favorited products included.  For an
    id that no user has, the answer is 400 with the fixed message and the
    store is unchanged. *)
Theorem delete_user_cascades (user_id : Z) (st st' : Store) (resp : Response) :
  delete_user user_id st = (resp, st') ->
  ((exists u, In u (users st) /\ User.id u = user_id) ->
     resp = Reply 204 NoContent /\
     (forall u, In u (users st') <-> In u (users st) /\ User.id u <> user_id) /\
     (forall t, In t (tokens st') <-> In t (tokens st) /\ AuthToken.user t <> user_id) /\
     (forall l, In l (favorites st') <->
                In l (favorites st) /\ FavoriteProducts.user l <> user_id) /\
     products st' = products st) /\
  ((forall u, In u (users st) -> User.id u <> user_id) ->
     resp = Reply 400 (Message UserNotFound) /\ st' = st).
Proof.
  unfold delete_user. intros H.
  destruct (User_get st user_id) as [user|] eqn:Hget.
  - apply User_get_Some in Hget. destruct Hget as [Hin Hid].
    injection H as <- <-. split.
    + intros _. split; [reflexivity|]. unfold User_delete; simpl. rewrite Hid.
      split; [|split; [|split; [|reflexivity]]]; intros x;
        rewrite filter_In, negb_true_iff, Z.eqb_neq; reflexivity.
    + intros Hnone. exfalso. now apply (Hnone user).
  - injection H as <- <-. split.
    + intros (u & Hin & Hid). exfalso.
      now apply (User_get_None _ _ Hget u Hin).
    + intros _. split; reflexivity.
Qed.

(** *** Removing a favorite *)

Lemma favorite_of_Some (st : Store) (auth p_id : Z) (l : FavoriteProducts.t) :
  favorite_of st auth p_id = Some l ->
  In l (favorites st) /\ FavoriteProducts.user l = auth /\
  exists p, In p (products st) /\ FavoriteProducts.product l = Product.id p /\
            Product.api_id p = p_id.
Proof.
  unfold favorite_of. intros H. apply find_some in H. destruct H as [Hin Hb].
  apply andb_true_iff in Hb. destruct Hb as [Hu Hp].
  apply existsb_exists in Hp. destruct Hp as (p & Hpin & Hp).
  apply andb_true_iff in Hp. destruct Hp as [Hid Hapi].
  apply Z.eqb_eq in Hu, Hid, Hapi. eauto 8.
Qed.

Lemma favorite_of_None (st : Store) (auth p_id : Z) :
  favorite_of st auth p_id = None -> ~ linked st auth p_id.
Proof.
  unfold favorite_of. intros H (l & p & Hl & Hp & Hu & Hlp & Hapi).
  apply (find_none _ _ H) in Hl. apply andb_false_iff in Hl.
  destruct Hl as [Hl|Hl].
  - apply Z.eqb_neq in Hl. contradiction.
  - assert (Ht : existsb (fun q => (Product.id q =? FavoriteProducts.product l)
                                   && (Product.api_id q =? p_id)) (products st) = true).
    { apply existsb_exists. exists p. split; [assumption|].
      apply andb_true_iff. split; apply Z.eqb_eq; congruence. }
    congruence.
Qed.

(** Under the constraints, the links of [auth] to catalog id [p_id] are one
    row at most. *)
Lemma link_unique (st : Store) (auth p_id : Z) (l l' : FavoriteProducts.t)
  (p p' : Product.t) :
  constraints st ->
  In l (favorites st) -> In l' (favorites st) ->
  In p (products st) -> In p' (products st) ->
  FavoriteProducts.user l = auth -> FavoriteProducts.user l' = auth ->
  FavoriteProducts.product l = Product.id p ->
  FavoriteProducts.product l' = Product.id p' ->
  Product.api_id p = p_id -> Product.api_id p' = p_id ->
  l = l'.
Proof.
  intros C Hl Hl' Hp Hp' Hu Hu' Hlp Hlp' Ha Ha'.
  assert (p = p').
  { apply (NoDup_map_eq Product.api_id (products st)); try assumption.
    - apply (api_id_unique st C).
    - congruence. }
  subst p'.
  apply (NoDup_map_eq
           (fun l => (FavoriteProducts.user l, FavoriteProducts.product l))
           (favorites st)); try assumption.
  - apply (unique_together st C).
  - simpl. congruence.
Qed.

(** C6. Removing a favorite: when the user has no link to catalog id
    [p_id] (the product may exist locally or not) the answer is 400 with
    the fixed message and the store is unchanged; when the link exists the
    answer is 204 with an empty body, the link is gone, and nothing else
    changed: users, tokens and products are the same and every other link
    is still there. *)
Theorem delete_favorite_removes_link (auth p_id : Z) (st st' : Store) (resp : Response) :
  constraints st ->
  delete_favorite auth p_id st = (resp, st') ->
  (~ linked st auth p_id ->
     resp = Reply 400 (Message not_on_favorites) /\ st' = st) /\
  (linked st auth p_id ->
     resp = Reply 204 NoContent /\
     ~ linked st' auth p_id /\
     users st' = users st /\ tokens st' = tokens st /\ products st' = products st /\
     (forall l, In l (favorites st') <->
                In l (favorites st) /\
                ~ (FavoriteProducts.user l = auth /\
                   exists p, In p (products st) /\
                             FavoriteProducts.product l = Product.id p /\
                             Product.api_id p = p_id))).
Proof.
  intros C H. unfold delete_favorite in H.
  destruct (favorite_of st auth p_id) as [l0|] eqn:Hfav.
  - injection H as <- <-.
    destruct (favorite_of_Some _ _ _ _ Hfav) as (Hl0 & Hu0 & p0 & Hp0 & Hlp0 & Ha0).
    assert (Hkey : forall l, In l (favorites st) ->
              (FavoriteProducts.id l = FavoriteProducts.id l0 <->
               (FavoriteProducts.user l = auth /\
                exists p, In p (products st) /\
                          FavoriteProducts.product l = Product.id p /\
                          Product.api_id p = p_id))).
    { intros l Hl. split.
      - intros Hid.
        assert (l = l0).
        { apply (NoDup_map_eq FavoriteProducts.id (favorites st)); try assumption.
          apply (favorite_pk st C). }
        subst l. eauto.
      - intros (Hu & p & Hp & Hlp & Ha).
        now rewrite (link_unique st auth p_id l l0 p p0). }
    split.
    + intros Hno. exfalso. apply Hno. exists l0, p0. auto.
    + intros _. simpl.
      split; [reflexivity|]. split; [|do 3 (split; [reflexivity|])].
      * intros (l & p & Hl & Hp & Hu & Hlp & Ha). simpl in Hl, Hp.
        apply filter_In in Hl. destruct Hl as [Hl Hne].
        apply negb_true_iff in Hne. apply Z.eqb_neq in Hne.
        apply Hne. apply (Hkey l Hl). eauto.
      * intros l. rewrite filter_In, negb_true_iff, Z.eqb_neq. split.
        -- intros [Hl Hne]. split; [assumption|].
           intros Hm. apply Hne. now apply (Hkey l Hl).
        -- intros [Hl Hnm]. split; [assumption|].
           intros Hid. apply Hnm. now apply (Hkey l Hl).
  - injection H as <- <-. split.
    + intros _. split; reflexivity.
    + intros Hl. exfalso. now apply (favorite_of_None _ _ _ Hfav).
Qed.

(** *** Listing the favorites *)

Lemma insert_by_date_perm (p : Product.t) (l : list Product.t) :
  Permutation (insert_by_date p l) (p :: l).
Proof.
  induction l as [|q l IH]; simpl; [reflexivity|].
  destruct (Product.date_created p <=? Product.date_created q).
  - reflexivity.
  - rewrite IH. apply perm_swap.
Qed.

Lemma order_by_date_created_perm (l : list Product.t) :
  Permutation (order_by_date_created l) l.
Proof.
  induction l as [|p l IH]; simpl; [reflexivity|].
  rewrite insert_by_date_perm. now constructor.
Qed.

Lemma insert_by_date_sorted (p : Product.t) (l : list Product.t) :
  StronglySorted by_date_created l ->
  StronglySorted by_date_created (insert_by_date p l).
Proof.
  induction 1 as [|q l Hs IH Hq]; simpl.
  - constructor; constructor.
  - destruct (Product.date_created p <=? Product.date_created q) eqn:Hle.
    + apply Z.leb_le in Hle. constructor.
      * now constructor.
      * constructor; [exact Hle|].
        eapply Forall_impl; [|exact Hq].
        unfold by_date_created. intros; lia.
    + apply Z.leb_gt in Hle. constructor; [exact IH|].
      apply (@Permutation_Forall _ _ (p :: l)).
      * symmetry. apply insert_by_date_perm.
      * constructor; [unfold by_date_created; lia | exact Hq].
Qed.

Lemma order_by_date_created_sorted (l : list Product.t) :
  StronglySorted by_date_created (order_by_date_created l).
Proof.
  induction l as [|p l IH]; simpl; [constructor|].
  now apply insert_by_date_sorted.
Qed.

Lemma favorited_by_In (st : Store) (auth : Z) (p : Product.t) :
  In p (favorited_by st auth) <-> In p (products st) /\ favorited st auth p.
Proof.
  unfold favorited_by, favorited. rewrite in_flat_map. split.
  - intros (q & Hq & Hin). apply in_map_iff in Hin.
    destruct Hin as (l & <- & Hl). apply filter_In in Hl.
    destruct Hl as [Hl Hb]. apply andb_true_iff in Hb.
    destruct Hb as [Hp Hu]. apply Z.eqb_eq in Hp, Hu. eauto.
  - intros (Hp & l & Hl & Hu & Hlp). exists p. split; [assumption|].
    apply in_map_iff. exists l. split; [reflexivity|].
    apply filter_In. split; [assumption|].
    apply andb_true_iff. split; now apply Z.eqb_eq.
Qed.

(** At most one row passes a filter that fixes the value of a unique key. *)
Lemma filter_unique_key {A B : Type} (f : A -> B) (g : A -> bool) (c : B)
  (l : list A) :
  NoDup (map f l) ->
  (forall x, In x l -> g x = true -> f x = c) ->
  (List.length (filter g l) <= 1)%nat.
Proof.
  induction l as [|a l IH]; simpl; intros Hnd Hg; [lia|].
  inversion Hnd as [|? ? Hnotin Hnd']; subst.
  destruct (g a) eqn:Ha.
  - assert (Hnil : filter g l = []).
    { destruct (filter g l) as [|b r] eqn:Hf; [reflexivity|].
      exfalso. assert (Hb : In b (filter g l)) by (rewrite Hf; now left).
      apply filter_In in Hb. destruct Hb as [Hb Hgb].
      apply Hnotin. rewrite (Hg a (or_introl eq_refl) Ha).
      rewrite <- (Hg b (or_intror Hb) Hgb). now apply in_map. }
    rewrite Hnil. simpl. lia.
  - apply IH; [assumption|]. intros x Hx. apply Hg. now right.
Qed.

Lemma flat_map_NoDup {A : Type} (f : A -> list A) (l : list A) :
  NoDup l ->
  (forall x, f x = [] \/ f x = [x]) ->
  NoDup (flat_map f l).
Proof.
  intros Hnd Hf. induction Hnd as [|a l Hnotin Hnd IH]; simpl; [constructor|].
  destruct (Hf a) as [-> | ->]; simpl; [exact IH|].
  constructor; [|exact IH].
  intros Hin. apply in_flat_map in Hin. destruct Hin as (x & Hx & Hax).
  destruct (Hf x) as [Hfx|Hfx]; rewrite Hfx in Hax; simpl in Hax.
  - contradiction.
  - destruct Hax as [->|[]]. contradiction.
Qed.

Lemma favorited_by_NoDup (st : Store) (auth : Z) :
  constraints st -> NoDup (favorited_by st auth).
Proof.
  intros C. unfold favorited_by. apply flat_map_NoDup.
  - apply (NoDup_map_inv Product.id). apply (product_pk st C).
  - intros p.
    assert (Hlen : Nat.le (List.length
              (filter (fun l => (FavoriteProducts.product l =? Product.id p)
                                && (FavoriteProducts.user l =? auth))
                 (favorites st))) 1).
    { apply (filter_unique_key
               (fun l => (FavoriteProducts.user l, FavoriteProducts.product l))
               _ (auth, Product.id p)).
      - apply (unique_together st C).
      - intros l _ Hb. apply andb_true_iff in Hb. destruct Hb as [Hp Hu].
        apply Z.eqb_eq in Hp, Hu. now rewrite Hp, Hu. }
    destruct (filter _ (favorites st)) as [|l [|l' r]]; simpl in *;
      [now left | now right | lia].
Qed.

(** The join has one row for each link of the user. *)
Lemma join_cons (auth : Z) (l : FavoriteProducts.t) (ls : list FavoriteProducts.t)
  (ps : list Product.t) :
  List.length
    (flat_map
       (fun p => map (fun _ : FavoriteProducts.t => p)
          (filter (fun l => (FavoriteProducts.product l =? Product.id p)
                            && (FavoriteProducts.user l =? auth)) (l :: ls))) ps)
  = Nat.add
      (List.length
         (filter (fun p => (FavoriteProducts.product l =? Product.id p)
                           && (FavoriteProducts.user l =? auth)) ps))
      (List.length
         (flat_map
            (fun p => map (fun _ : FavoriteProducts.t => p)
               (filter (fun l => (FavoriteProducts.product l =? Product.id p)
                                 && (FavoriteProducts.user l =? auth)) ls)) ps)).
Proof.
  induction ps as [|p ps IH]; [reflexivity|].
  cbn [flat_map]. rewrite !length_app, IH. simpl.
  destruct ((FavoriteProducts.product l =? Product.id p)
            && (FavoriteProducts.user l =? auth)); simpl; lia.
Qed.

Lemma one_row_per_key (k : Z) (ps : list Product.t) :
  NoDup (map Product.id ps) -> In k (map Product.id ps) ->
  List.length (filter (fun p => k =? Product.id p) ps) = 1%nat.
Proof.
  induction ps as [|p ps IH]; simpl; intros Hnd Hin; [contradiction|].
  inversion Hnd as [|? ? Hnotin Hnd']; subst.
  destruct (k =? Product.id p) eqn:Hk.
  - apply Z.eqb_eq in Hk. subst k. simpl. f_equal.
    destruct (filter (fun q => Product.id p =? Product.id q) ps) as [|q r] eqn:Hf;
      [reflexivity|].
    exfalso. assert (Hq : In q (filter (fun q => Product.id p =? Product.id q) ps))
      by (rewrite Hf; now left).
    apply filter_In in Hq. destruct Hq as [Hq Hb]. apply Z.eqb_eq in Hb.
    apply Hnotin. rewrite Hb. now apply in_map.
  - apply Z.eqb_neq in Hk. destruct Hin as [Hin|Hin]; [congruence|].
    now apply IH.
Qed.

Lemma flat_map_all_nil {A B : Type} (f : A -> list B) (l : list A) :
  (forall x, f x = []) -> flat_map f l = [].
Proof.
  intros Hf. induction l as [|a l IH]; simpl; [reflexivity|].
  now rewrite Hf, IH.
Qed.

Lemma filter_none {A : Type} (l : list A) : filter (fun _ => false) l = [].
Proof. induction l; simpl; auto. Qed.

Lemma favorited_by_length (st : Store) (auth : Z) :
  constraints st ->
  List.length (favorited_by st auth)
  = List.length (filter (fun l => FavoriteProducts.user l =? auth) (favorites st)).
Proof.
  intros C. unfold favorited_by.
  pose proof (product_pk st C) as Hpk.
  pose proof (favorite_product_fk st C) as Hfk.
  clear C. revert Hfk. generalize (favorites st) as ls.
  induction ls as [|l ls IH]; intros Hfk.
  - rewrite flat_map_all_nil; reflexivity.
  - inversion Hfk as [|? ? Hl Hls]; subst.
    rewrite join_cons, (IH Hls). simpl.
    destruct (FavoriteProducts.user l =? auth) eqn:Hu; simpl.
    + rewrite (filter_ext _ (fun p => FavoriteProducts.product l =? Product.id p))
        by (intros p; now rewrite andb_true_r).
      now rewrite one_row_per_key.
    + rewrite (filter_ext _ (fun _ => false))
        by (intros p; now rewrite andb_false_r).
      now rewrite filter_none.
Qed.

Lemma get_favorites_length (auth : Z) (st : Store) :
  constraints st ->
  List.length (get_favorites auth st)
  = List.length (filter (fun l => FavoriteProducts.user l =? auth) (favorites st)).
Proof.
  intros C. unfold get_favorites.
  rewrite (Permutation_length (order_by_date_created_perm (favorited_by st auth))).
  now apply favorited_by_length.
Qed.

(** C3, as the code has it. The list of favorites holds exactly the
    products the user has a link to, each of them once, in the order of
    the creation time of the product rows ([Product.date_created], which
    is what [order_by("date_created")] on a product queryset names), not
    of the links. *)
Theorem get_favorites_by_product_creation (auth : Z) (st : Store) :
  constraints st ->
  (forall p, In p (get_favorites auth st) <-> In p (products st) /\ favorited st auth p) /\
  NoDup (get_favorites auth st) /\
  List.length (get_favorites auth st)
  = List.length (filter (fun l => FavoriteProducts.user l =? auth) (favorites st)) /\
  StronglySorted by_date_created (get_favorites auth st).
Proof.
  intros C. unfold get_favorites.
  pose proof (order_by_date_created_perm (favorited_by st auth)) as Hperm.
  split; [|split; [|split]].
  - intros p. rewrite <- favorited_by_In. split; apply Permutation_in;
      [exact Hperm | now symmetry].
  - apply (Permutation_NoDup (l := favorited_by st auth)); [now symmetry|].
    now apply favorited_by_NoDup.
  - now apply get_favorites_length.
  - apply order_by_date_created_sorted.
Qed.



(** *** Updating a user *)

Lemma User_by_email_self (st : Store) (u : User.t) :
  In u (users st) -> User_by_email st (Some (User.email u)) <> None.
Proof.
  unfold User_by_email. intros Hin Hnone.
  apply (find_none _ _ Hnone) in Hin. simpl in Hin.
  now rewrite String.eqb_refl in Hin.
Qed.

(** C2, where the code departs from it. The email check of [update_user]
    looks at every user, the one being updated included: a request that
    carries the email this user already has is answered 400 "email in use"
    and changes nothing, although no other user holds that email. *)
Theorem update_user_rejects_own_email (salt : string) (user_id : Z)
  (payload : UserSchemaUpdate.t) (st : Store) (u : User.t) :
  User_get st user_id = Some u ->
  UserSchemaUpdate.email payload = Some (Some (User.email u)) ->
  update_user salt user_id payload st = (Reply 400 (Message EmailInUse), st).
Proof.
  intros Hget Hemail. unfold update_user. rewrite Hget, Hemail. simpl.
  apply User_get_Some in Hget. destruct Hget as [Hin _].
  destruct (User_by_email st (Some (User.email u))) eqn:Hcheck; [reflexivity|].
  exfalso. now apply (User_by_email_self st u).
Qed.

Lemma User_save_Ok (o : UserObj.t) (st : Store) (saved : User.t) (st' : Store) :
  User_save o st = Ok (saved, st') ->
  UserObj.name o = Some (User.name saved) /\
  UserObj.email o = Some (User.email saved) /\
  User.id saved = UserObj.pk o /\
  User.password saved = UserObj.password o /\
  User.role saved = UserObj.role o /\
  st' = mkStore (replace_user saved (users st)) (tokens st) (products st) (favorites st).
Proof.
  unfold User_save.
  destruct (UserObj.name o) as [n|]; [|discriminate].
  destruct (UserObj.email o) as [e|]; [|discriminate].
  destruct (existsb _ (users st)); [discriminate|].
  intros H. injection H as <- <-. simpl. repeat split.
Qed.

(** C8, as the code has it. A successful update changes, on the stored
    user, only fields that the payload carries: name and email take the
    payload's value when it has one and keep the old value otherwise; the
    password is replaced by the hash of the payload's password when that
    password is a non-empty string, and is left as it was when the payload
    has no password, a null one or the empty string; the plaintext itself
    is never assigned.  Key and role stay, the other users, the tokens, the
    products and the links are untouched.  A payload with only a name
    succeeds on an existing user and changes just the name, and any reply
    other than 200 leaves the store as it was. *)
Theorem update_user_partial (salt : string) (user_id : Z)
  (payload : UserSchemaUpdate.t) (st st' : Store) (resp : Response) :
  update_user salt user_id payload st = (resp, st') ->
  (forall saved, resp = Reply 200 (UserOut saved) ->
     exists old,
       User_get st user_id = Some old /\
       User.id saved = User.id old /\ User.role saved = User.role old /\
       User.name saved = match UserSchemaUpdate.name payload with
                         | Some (Some n) => n
                         | _ => User.name old
                         end /\
       User.email saved = match UserSchemaUpdate.email payload with
                          | Some (Some e) => e
                          | _ => User.email old
                          end /\
       User.password saved = match UserSchemaUpdate.password payload with
                             | Some (Some raw) =>
                                 if String.eqb raw EmptyString then User.password old
                                 else make_password salt raw
                             | _ => User.password old
                             end /\
       users st' = map (fun u => if User.id u =? user_id then saved else u) (users st) /\
       tokens st' = tokens st /\ products st' = products st /\
       favorites st' = favorites st) /\
  (forall old x,
     constraints st ->
     User_get st user_id = Some old ->
     payload = UserSchemaUpdate.mk (Some (Some x)) None None ->
     resp = Reply 200 (UserOut (User.mk (User.id old) x (User.email old)
                                  (User.password old) (User.role old)))) /\
  ((forall body, resp <> Reply 200 body) -> st' = st).
Proof.
  intros H. unfold update_user in H.
  destruct (User_get st user_id) as [old|] eqn:Hget.
  2:{ injection H as <- <-. split; [|split].
      - intros saved Hs. discriminate.
      - intros old x _ Ho. discriminate.
      - reflexivity. }
  pose proof (User_get_Some _ _ _ Hget) as [Hin Hid].
  destruct (User_by_email st (attr (UserSchemaUpdate.email payload))) eqn:Hcheck.
  { injection H as <- <-. split; [|split].
    - intros saved Hs. discriminate.
    - intros old' x _ Ho ->. simpl in Hcheck. unfold User_by_email in Hcheck.
      apply find_some in Hcheck. simpl in Hcheck. destruct Hcheck; discriminate.
    - reflexivity. }
  destruct (User_save _ st) as [[saved st1]|e] eqn:Hsave.
  2:{ injection H as <- <-. split; [|split].
      - intros saved Hs. discriminate.
      - intros old' x C Ho ->. simpl in Hsave. unfold User_save in Hsave.
        simpl in Hsave.
        assert (Hex : existsb (fun u => (User.email u =? User.email old)%string
                                        && negb (User.id u =? User.id old))
                        (users st) = false).
        { apply not_true_is_false. intros Ht. apply existsb_exists in Ht.
          destruct Ht as (u & Hu & Hb). apply andb_true_iff in Hb.
          destruct Hb as [He Hne]. apply String.eqb_eq in He.
          apply negb_true_iff, Z.eqb_neq in Hne. apply Hne. f_equal.
          apply (NoDup_map_eq User.email (users st)); try assumption.
          apply (email_unique st C). }
        rewrite Hex in Hsave. discriminate.
      - reflexivity. }
  injection H as <- <-.
  apply User_save_Ok in Hsave.
  destruct Hsave as (Hn & He & Hpk & Hpw & Hrole & ->).
  split; [|split].
  - intros saved' Hs. injection Hs as <-. exists old.
    split; [reflexivity|].
    destruct payload as [pn pe pp]; simpl in *.
    assert (Hpk' : User.id saved = User.id old)
      by (rewrite Hpk; destruct (password_given (attr pp)); reflexivity).
    split; [exact Hpk'|].
    split; [rewrite Hrole; destruct (password_given (attr pp)); reflexivity|].
    split.
    { destruct (password_given (attr pp)); simpl in Hn;
        destruct pn as [[n|]|]; simpl in Hn; congruence. }
    split.
    { destruct (password_given (attr pp)); simpl in He;
        destruct pe as [[e|]|]; simpl in He; congruence. }
    split.
    { rewrite Hpw. destruct pp as [[raw|]|]; simpl; try reflexivity.
      destruct (String.eqb raw EmptyString); reflexivity. }
    split; [|repeat split].
    unfold replace_user. rewrite Hpk', Hid. reflexivity.
  - intros old' x _ Ho ->. simpl in *. injection Ho as <-.
    injection Hn as Hn. injection He as He.
    destruct saved as [i n e pw r]; simpl in *. subst. reflexivity.
  - intros Hno. exfalso. now apply (Hno (UserOut saved)).
Qed.

(** *** Creating a product from the catalog's answer *)

Lemma existsb_false_find {A : Type} (f : A -> bool) (l : list A) :
  existsb f l = false -> find f l = None.
Proof.
  induction l as [|a l IH]; simpl; [reflexivity|].
  destruct (f a); simpl; [discriminate|exact IH].
Qed.

Lemma find_None_filter {A : Type} (f : A -> bool) (l : list A) :
  find f l = None -> filter f l = [].
Proof.
  induction l as [|a l IH]; simpl; [reflexivity|].
  destruct (f a); [discriminate|exact IH].
Qed.

(** The row that [Product_row] prepares, column by column. *)
Lemma Product_row_Ok (k created : Z) (o : ProductObj.t) (row : Product.t) :
  Product_row k created o = Ok row ->
  Product.id row = k /\
  Product.date_created row = created /\
  IntegerField (ProductObj.api_id o) = Ok (Some (Product.api_id row)) /\
  CharField (ProductObj.title o) = Some (Product.title row) /\
  DecimalField 10 2 (ProductObj.price o) = Ok (Product.price row) /\
  CharField (ProductObj.description o) = Some (Product.description row) /\
  CharField (ProductObj.category o) = Some (Product.category row) /\
  CharField (ProductObj.image o) = Some (Product.image row) /\
  DecimalField_null 3 1 (ProductObj.rating_rate o) = Ok (Product.rating_rate row) /\
  IntegerField (ProductObj.rating_count o) = Ok (Product.rating_count row) /\
  integer_in_range (Some (Product.api_id row)) = true /\
  integer_in_range (Product.rating_count row) = true.
Proof.
  intros H. unfold Product_row in H.
  unbind H as api Hapi. unbind H as price Hprice. unbind H as rate Hrate.
  unbind H as cnt Hcnt.
  destruct (integer_in_range api && integer_in_range cnt) eqn:Hrange;
    [|discriminate].
  apply andb_true_iff in Hrange. destruct Hrange as [Hra Hrc]. cbn [negb] in H.
  destruct api as [a|]; [|discriminate].
  destruct (CharField (ProductObj.title o)); [|discriminate].
  destruct (CharField (ProductObj.description o)); [|discriminate].
  destruct (CharField (ProductObj.category o)); [|discriminate].
  destruct (CharField (ProductObj.image o)); [|discriminate].
  injection H as <-. cbn.
  repeat (split; [first [reflexivity|assumption]|]). assumption.
Qed.

(** What a successful INSERT by [Product_save] leaves. *)
Lemma Product_save_insert (o : ProductObj.t) (now : Z) (st : Store)
  (inst : ProductObj.t) (st' : Store) :
  ProductObj.pk o = None ->
  Product_save o now st = Ok (inst, st') ->
  exists row,
    Product_row (fresh (map Product.id (products st))) now o = Ok row /\
    inst = saved_as (fresh (map Product.id (products st))) now o /\
    st' = mkStore (users st) (tokens st) (products st ++ [row]) (favorites st) /\
    Product_by_api_id st (Product.api_id row) = None.
Proof.
  intros Hpk H. unfold Product_save in H. rewrite Hpk in H.
  unbind H as row Hrow.
  destruct (existsb _ (products st)) eqn:Hex; [discriminate|].
  injection H as <- <-. exists row.
  split; [assumption|]. split; [reflexivity|]. split; [reflexivity|].
  now apply existsb_false_find.
Qed.

Lemma is_zero_falsy (v : pyval) : is_zero v = true -> truthy v = false.
Proof.
  destruct v as [| |z|d| | |]; try discriminate; simpl.
  - now intros ->.
  - destruct d; try discriminate. now intros ->.
Qed.

Lemma rating_has_zero (data : pyval) (key : string) (v : pyval) :
  rating_field data key = Some v -> is_zero v = true ->
  rating_has data key = Ok false.
Proof.
  unfold rating_field, rating_has. intros Hf Hz.
  destruct data as [| | | | | |kvs]; try discriminate. cbn [get getitem].
  destruct (dict_get kvs "rating") as [r|]; [|discriminate].
  destruct r as [| | | | | |rr]; try discriminate.
  assert (Ht : truthy (PyDict rr) = true)
    by (destruct rr; [discriminate|reflexivity]).
  cbn [bind]. rewrite Ht. cbn [bind get]. rewrite Hf. cbn [bind].
  now rewrite (is_zero_falsy v Hz).
Qed.

Lemma rating_has_missing (data : pyval) (key : string) :
  rating_missing data = true -> rating_has data key = Ok false.
Proof.
  unfold rating_missing, rating_has. intros Hm.
  destruct data as [| | | | | |kvs]; try discriminate. simpl.
  destruct (dict_get kvs "rating") as [r|]; [|reflexivity].
  destruct r; try discriminate. reflexivity.
Qed.

(** The instance that [create_product_from_api_data] builds and the row
    that its [save()] writes. *)
Lemma create_product_Ok (data : pyval) (now : Z) (st : Store)
  (inst : ProductObj.t) (st' : Store) :
  create_product_from_api_data data now st = Ok (inst, st') ->
  exists row,
    st' = mkStore (users st) (tokens st) (products st ++ [row]) (favorites st) /\
    Product.id row = fresh (map Product.id (products st)) /\
    ProductObj.pk inst = Some (Product.id row) /\
    Product.date_created row = now /\
    Product_by_api_id st (Product.api_id row) = None /\
    getitem data "id" = Ok (ProductObj.api_id inst) /\
    IntegerField (ProductObj.api_id inst) = Ok (Some (Product.api_id row)) /\
    (rating_has data "rate" = Ok false ->
       Product.rating_rate row = None /\ ProductObj.rating_rate inst = None) /\
    (rating_has data "count" = Ok false ->
       Product.rating_count row = None /\ ProductObj.rating_count inst = PyNone).
Proof.
  unfold create_product_from_api_data. intros H.
  unbind H as api_id Hid. unbind H as title Htitle. unbind H as price Hprice.
  unbind H as description Hdescription. unbind H as category Hcategory.
  unbind H as image Himage. unbind H as rating_rate Hrate.
  unbind H as rating_count Hcount.
  apply Product_save_insert in H; [|reflexivity].
  destruct H as (row & Hrow & -> & -> & Hnone).
  apply Product_row_Ok in Hrow.
  destruct Hrow as (Hk & Hcreated & Hapi & _ & _ & _ & _ & _ & Hrr & Hrc & _).
  cbn in Hapi, Hrr, Hrc.
  exists row. split; [reflexivity|]. split; [assumption|].
  split; [cbn; now rewrite Hk|]. split; [assumption|]. split; [assumption|].
  split; [assumption|]. split; [assumption|]. split.
  - intros Hr. rewrite Hr in Hrate. cbn in Hrate. injection Hrate as <-.
    cbn in Hrr. split; [congruence|reflexivity].
  - intros Hr. rewrite Hr in Hcount. cbn in Hcount. injection Hcount as <-.
    cbn in Hrc. split; [congruence|reflexivity].
Qed.

(** C10. A product created from the catalog's data gets a null rating
    field where the data has the number zero: a [rate] of 0 is stored as
    [None], a [count] of 0 is stored as [None] and not as 0, and without a
    rating object both fields are [None].  This holds of the row that is
    stored and of the instance that the function returns. *)
Theorem zero_rating_stored_as_null (data : pyval) (now : Z) (st st' : Store)
  (prod : ProductObj.t) :
  create_product_from_api_data data now st = Ok (prod, st') ->
  exists row,
    In row (products st') /\ ProductObj.pk prod = Some (Product.id row) /\
    (forall v, rating_field data "rate" = Some v -> is_zero v = true ->
               Product.rating_rate row = None /\ ProductObj.rating_rate prod = None) /\
    (forall v, rating_field data "count" = Some v -> is_zero v = true ->
               Product.rating_count row = None
               /\ ProductObj.rating_count prod = PyNone) /\
    (rating_missing data = true ->
       Product.rating_rate row = None /\ Product.rating_count row = None /\
       ProductObj.rating_rate prod = None /\ ProductObj.rating_count prod = PyNone).
Proof.
  intros H. apply create_product_Ok in H.
  destruct H as (row & -> & _ & Hpk & _ & _ & _ & _ & Hrate & Hcount).
  exists row. split; [|split; [assumption|split; [|split]]].
  - simpl. apply in_or_app. right. now left.
  - intros v Hf Hz. apply Hrate. now apply (rating_has_zero _ _ v).
  - intros v Hf Hz. apply Hcount. now apply (rating_has_zero _ _ v).
  - intros Hm.
    destruct (Hrate (rating_has_missing _ "rate" Hm)) as [H1 H2].
    destruct (Hcount (rating_has_missing _ "count" Hm)) as [H3 H4].
    split; [assumption|]. split; [assumption|]. split; assumption.
Qed.

(** *** Adding a favorite *)

Lemma FavoriteProducts_create_new (user product now : Z) (st : Store) :
  (forall l, In l (favorites st) ->
             ~ (FavoriteProducts.user l = user /\ FavoriteProducts.product l = product)) ->
  FavoriteProducts_create user product now st
  = Ok (FavoriteProducts.mk (fresh (map FavoriteProducts.id (favorites st)))
          now user product,
        mkStore (users st) (tokens st) (products st)
          (favorites st
           ++ [FavoriteProducts.mk (fresh (map FavoriteProducts.id (favorites st)))
                 now user product])).
Proof.
  intros Hnew. unfold FavoriteProducts_create.
  destruct (existsb _ (favorites st)) eqn:Hex; [|reflexivity].
  exfalso. apply existsb_exists in Hex. destruct Hex as (l & Hl & Hb).
  apply andb_true_iff in Hb. destruct Hb as [Hu Hp].
  apply Z.eqb_eq in Hu, Hp. now apply (Hnew l Hl).
Qed.

Lemma FavoriteProducts_create_duplicate (user product now : Z) (st : Store)
  (l : FavoriteProducts.t) :
  In l (favorites st) ->
  FavoriteProducts.user l = user -> FavoriteProducts.product l = product ->
  FavoriteProducts_create user product now st = Raise IntegrityError.
Proof.
  intros Hl Hu Hp. unfold FavoriteProducts_create.
  destruct (existsb _ (favorites st)) eqn:Hex; [reflexivity|].
  exfalso. apply not_true_iff_false in Hex. apply Hex.
  apply existsb_exists. exists l. split; [assumption|].
  apply andb_true_iff. split; now apply Z.eqb_eq.
Qed.

(** The product is known locally and the user has no link to it yet. *)
Lemma add_favorite_known (client : Z -> result pyval) (now auth p_id : Z)
  (st : Store) (prod : Product.t) :
  Product_by_api_id st p_id = Some prod ->
  (forall l, In l (favorites st) ->
             ~ (FavoriteProducts.user l = auth
                /\ FavoriteProducts.product l = Product.id prod)) ->
  add_favorite client now auth p_id st
  = (Reply 201 (ProductOut (ProductObj_of_row prod)),
     mkStore (users st) (tokens st) (products st)
       (favorites st
        ++ [FavoriteProducts.mk (fresh (map FavoriteProducts.id (favorites st)))
              now auth (Product.id prod)])).
Proof.
  intros Hfound Hnew. unfold add_favorite. rewrite Hfound.
  unfold FavoriteProducts_create_for. cbn [ProductObj_of_row ProductObj.pk].
  now rewrite FavoriteProducts_create_new.
Qed.

(** The product is known locally and the user has it already. *)
Lemma add_favorite_duplicate (client : Z -> result pyval) (now auth p_id : Z)
  (st : Store) (prod : Product.t) (l : FavoriteProducts.t) :
  Product_by_api_id st p_id = Some prod ->
  In l (favorites st) ->
  FavoriteProducts.user l = auth -> FavoriteProducts.product l = Product.id prod ->
  add_favorite client now auth p_id st
  = (Reply 400 (ErrorDict already_favorited), st).
Proof.
  intros Hfound Hl Hu Hp. unfold add_favorite. rewrite Hfound.
  unfold FavoriteProducts_create_for. cbn [ProductObj_of_row ProductObj.pk].
  now rewrite (FavoriteProducts_create_duplicate _ _ _ _ l).
Qed.

(** The product is not known locally and fetching or creating it raises. *)
Lemma add_favorite_raises (client : Z -> result pyval) (now auth p_id : Z)
  (st : Store) (e : exn) :
  Product_by_api_id st p_id = None ->
  (product_data <- client p_id ;; create_product_from_api_data product_data now st)
  = Raise e ->
  add_favorite client now auth p_id st
  = (if add_favorite_catches e
     then Reply 400 (ErrorDict product_not_fetched)
     else Unhandled e, st).
Proof.
  intros Hnone Hraise. unfold add_favorite. rewrite Hnone, Hraise.
  now destruct (add_favorite_catches e).
Qed.

(** The product is not known locally, and is created from the answer. *)
Lemma add_favorite_fetched (client : Z -> result pyval) (now auth p_id : Z)
  (st : Store) (data : pyval) (prod : ProductObj.t) (k : Z) (st1 : Store) :
  Product_by_api_id st p_id = None ->
  client p_id = Ok data ->
  create_product_from_api_data data now st = Ok (prod, st1) ->
  ProductObj.pk prod = Some k ->
  (forall l, In l (favorites st1) ->
             ~ (FavoriteProducts.user l = auth /\ FavoriteProducts.product l = k)) ->
  add_favorite client now auth p_id st
  = (Reply 201 (ProductOut prod),
     mkStore (users st1) (tokens st1) (products st1)
       (favorites st1
        ++ [FavoriteProducts.mk (fresh (map FavoriteProducts.id (favorites st1)))
              now auth k])).
Proof.
  intros Hnone Hclient Hcreate Hpk Hnew. unfold add_favorite.
  rewrite Hnone, Hclient. cbn [bind]. rewrite Hcreate.
  unfold FavoriteProducts_create_for. rewrite Hpk.
  now rewrite FavoriteProducts_create_new.
Qed.

(** C5, where the code departs from it. With no local product for the
    id, an answer of the catalog that cannot be turned into a product is
    not always answered with the 400: the handler lists
    [RequestException], [KeyError] and [ValueError] only.  An answer that
    is a JSON array raises [TypeError] at [data["id"]], and an item whose
    price is null raises [decimal.InvalidOperation]; both leave the
    endpoint unhandled, with the store as it was. *)
Theorem add_favorite_unhandled_payload (client : Z -> result pyval)
  (now auth p_id : Z) (st : Store) :
  Product_by_api_id st p_id = None ->
  (client p_id = Ok (PyList []) ->
     add_favorite client now auth p_id st = (Unhandled TypeError, st)) /\
  (client p_id = Ok (priceless_item p_id) ->
     add_favorite client now auth p_id st = (Unhandled InvalidOperation, st)).
Proof.
  intros Hnone. split; intros Hclient.
  - rewrite (add_favorite_raises client now auth p_id st TypeError Hnone);
      [reflexivity|]. now rewrite Hclient.
  - rewrite (add_favorite_raises client now auth p_id st InvalidOperation Hnone);
      [reflexivity|]. now rewrite Hclient.
Qed.

Lemma find_app_None {A : Type} (f : A -> bool) (l : list A) (x : A) :
  find f l = None -> find f (l ++ [x]) = if f x then Some x else None.
Proof.
  induction l as [|a l IH]; simpl; [reflexivity|].
  destruct (f a); [discriminate|exact IH].
Qed.

(** C4. From a store without a product for catalog id [p_id], two users
    favoriting [p_id] one after the other, with the catalog answering the
    first request by an item of that id from which a product can be
    created, both get 201 with the same product (the first the instance
    that was created, the second the row it was stored as); afterwards the
    product table has exactly one row with [api_id = p_id] and that row has
    exactly two favorite links, one of each user. *)
Theorem favorite_twice_one_product (client : Z -> result pyval)
  (now1 now2 u1 u2 p_id : Z) (st : Store) (data : pyval)
  (prod : ProductObj.t) (st1 : Store) :
  constraints st ->
  Product_by_api_id st p_id = None ->
  u1 <> u2 ->
  client p_id = Ok data ->
  getitem data "id" = Ok (PyInt p_id) ->
  create_product_from_api_data data now1 st = Ok (prod, st1) ->
  forall r1 s1 r2 s2,
    add_favorite client now1 u1 p_id st = (r1, s1) ->
    add_favorite client now2 u2 p_id s1 = (r2, s2) ->
    exists row,
      ProductObj.pk prod = Some (Product.id row) /\
      r1 = Reply 201 (ProductOut prod) /\
      r2 = Reply 201 (ProductOut (ProductObj_of_row row)) /\
      filter (fun q => Product.api_id q =? p_id) (products s2) = [row] /\
      map FavoriteProducts.user
        (filter (fun l => FavoriteProducts.product l =? Product.id row) (favorites s2))
      = [u1; u2].
Proof.
  intros C Hnone Hne Hclient Hid Hcreate r1 s1 r2 s2 H1 H2.
  destruct (create_product_Ok _ _ _ _ _ Hcreate)
    as (row & Hst1 & Hfresh & Hpk & _ & _ & Hoid & Hapi & _).
  assert (Hp : Product.api_id row = p_id).
  { rewrite Hid in Hoid. injection Hoid as Hoid. rewrite <- Hoid in Hapi.
    simpl in Hapi. congruence. }
  assert (Hold : forall l, In l (favorites st) ->
                           FavoriteProducts.product l <> Product.id row).
  { intros l Hl Heq.
    pose proof (favorite_product_fk st C) as Hfk.
    rewrite Forall_forall in Hfk. specialize (Hfk l Hl).
    rewrite Heq, Hfresh in Hfk. now apply fresh_not_in in Hfk. }
  subst st1.
  rewrite (add_favorite_fetched client now1 u1 p_id st data prod (Product.id row) _
             Hnone Hclient Hcreate Hpk)
    in H1.
  2:{ simpl. intros l Hl [_ Hlp]. now apply (Hold l Hl). }
  injection H1 as <- <-. simpl in H2.
  assert (Hfound : Product_by_api_id
            (mkStore (users st) (tokens st) (products st ++ [row])
               (favorites st ++ [FavoriteProducts.mk
                                   (fresh (map FavoriteProducts.id (favorites st)))
                                   now1 u1 (Product.id row)])) p_id = Some row).
  { unfold Product_by_api_id in *. simpl. rewrite (find_app_None _ _ _ Hnone).
    rewrite Hp. now rewrite Z.eqb_refl. }
  rewrite (add_favorite_known client now2 u2 p_id _ row Hfound) in H2.
  2:{ simpl. intros l Hl [Hu Hlp]. apply in_app_or in Hl. destruct Hl as [Hl|[<-|[]]].
      - now apply (Hold l Hl).
      - simpl in Hu. congruence. }
  injection H2 as <- <-. simpl. exists row.
  split; [assumption|]. split; [reflexivity|]. split; [reflexivity|]. split.
  - rewrite filter_app. unfold Product_by_api_id in Hnone.
    rewrite (find_None_filter _ _ Hnone). simpl.
    rewrite Hp. now rewrite Z.eqb_refl.
  - rewrite !filter_app.
    assert (Hnil : filter (fun l => FavoriteProducts.product l =? Product.id row)
                     (favorites st) = []).
    { apply find_None_filter. apply existsb_false_find.
      apply not_true_is_false. intros Hex. apply existsb_exists in Hex.
      destruct Hex as (l & Hl & Hb). apply Z.eqb_eq in Hb. now apply (Hold l Hl). }
    rewrite Hnil. simpl. rewrite Z.eqb_refl. reflexivity.
Qed.

(** *** The sync command *)

Lemma Product_by_api_id_Some (st : Store) (a : Z) (p : Product.t) :
  Product_by_api_id st a = Some p -> In p (products st) /\ Product.api_id p = a.
Proof.
  unfold Product_by_api_id. intros H. apply find_some in H.
  destruct H as [Hin Hb]. apply Z.eqb_eq in Hb. now split.
Qed.

Lemma get_truthy_getitem (v : pyval) (k : string) (r : pyval) :
  get v k = Ok r -> truthy r = true -> getitem v k = Ok r.
Proof.
  destruct v as [| | | | | |kvs]; try discriminate. simpl.
  destruct (dict_get kvs k) as [x|]; [trivial|].
  intros H. injection H as <-. discriminate.
Qed.

Lemma IntegerField_of_row (c : option Z) :
  IntegerField (match c with Some z => PyInt z | None => PyNone end) = Ok c.
Proof. now destruct c. Qed.

(** What the assignments of the update branch leave in the instance. *)
Lemma assign_from_Ok (local : Product.t) (product_data : pyval) (o : ProductObj.t) :
  assign_from local product_data = Ok o ->
  ProductObj.pk o = Some (Product.id local) /\
  ProductObj.date_created o = Product.date_created local /\
  ProductObj.api_id o = PyInt (Product.api_id local) /\
  getitem product_data "title" = Ok (ProductObj.title o) /\
  (exists v, getitem product_data "price" = Ok v /\ Decimal_str v = Ok (ProductObj.price o)) /\
  getitem product_data "description" = Ok (ProductObj.description o) /\
  getitem product_data "category" = Ok (ProductObj.category o) /\
  getitem product_data "image" = Ok (ProductObj.image o) /\
  (exists rating,
     get product_data "rating" = Ok rating /\
     if truthy rating then
       (exists v d, getitem rating "rate" = Ok v /\ Decimal_str v = Ok d
                    /\ ProductObj.rating_rate o = Some d) /\
       getitem rating "count" = Ok (ProductObj.rating_count o)
     else
       ProductObj.rating_rate o = Product.rating_rate local /\
       IntegerField (ProductObj.rating_count o) = Ok (Product.rating_count local)).
Proof.
  unfold assign_from. intros H.
  unbind H as title Htitle. unbind H as price Hprice.
  unbind H as description Hdescription. unbind H as category Hcategory.
  unbind H as image Himage. unbind H as rating Hrating.
  unbind Hprice as pv Hpv.
  destruct (truthy rating) eqn:Ht.
  - unbind H as rating_rate Hrate. unbind H as rating_count Hcount.
    injection H as <-. simpl.
    unbind Hrate as r1 Hr1. unbind Hrate as rv Hrv. unbind Hcount as r2 Hr2.
    rewrite (get_truthy_getitem _ _ _ Hrating Ht) in Hr1, Hr2.
    injection Hr1 as <-. injection Hr2 as <-.
    repeat (split; [eauto|]). exists rating. rewrite Ht. eauto 8.
  - injection H as <-. simpl.
    repeat (split; [eauto|]). exists rating. rewrite Ht.
    split; [assumption|]. split; [reflexivity|]. apply IntegerField_of_row.
Qed.

(** What a successful UPDATE by [Product_save] leaves. *)
Lemma Product_save_update (o : ProductObj.t) (now : Z) (st : Store) (k : Z)
  (inst : ProductObj.t) (st' : Store) :
  ProductObj.pk o = Some k ->
  Product_save o now st = Ok (inst, st') ->
  exists row,
    Product_row k (ProductObj.date_created o) o = Ok row /\
    inst = o /\
    st' = mkStore (users st) (tokens st) (replace_product row (products st))
            (favorites st).
Proof.
  intros Hpk H. unfold Product_save in H. rewrite Hpk in H.
  unbind H as row Hrow.
  destruct (existsb _ (products st)); [discriminate|].
  injection H as <- <-. exists row. repeat split. assumption.
Qed.

(** The update branch, when it does not raise, writes the fetched values. *)
Lemma update_branch_Ok (local : Product.t) (product_data : pyval) (st : Store)
  (o inst : ProductObj.t) (st' : Store) :
  assign_from local product_data = Ok o ->
  Product_save o (ProductObj.date_created o) st = Ok (inst, st') ->
  exists row,
    st' = mkStore (users st) (tokens st) (replace_product row (products st))
            (favorites st) /\
    overwritten_with product_data local row.
Proof.
  intros Ha Hs. apply assign_from_Ok in Ha.
  destruct Ha as (Hpk & Hdate & Hapi & Ht & (pv & Hpv & Hp) & Hd & Hc & Hi
                  & rating & Hrating & Hr).
  apply (Product_save_update _ _ _ _ _ _ Hpk) in Hs.
  destruct Hs as (row & Hrow & _ & ->). apply Product_row_Ok in Hrow.
  destruct Hrow as (Hid & Hdc & Hsapi & Hst & Hsp & Hsd & Hsc & Hsi & Hsr & Hscnt & _).
  exists row. split; [reflexivity|]. unfold overwritten_with.
  split; [assumption|]. split.
  { rewrite Hapi in Hsapi. simpl in Hsapi. congruence. }
  split; [congruence|].
  split; [eauto|]. split; [exists pv, (ProductObj.price o); auto|].
  split; [eauto|]. split; [eauto|]. split; [eauto|].
  exists rating. split; [assumption|].
  destruct (truthy rating).
  - destruct Hr as [(v & d & Hv & Hdv & Ho) Hcnt]. split.
    + exists v, d. split; [assumption|]. split; [assumption|]. now rewrite <- Ho.
    + eauto.
  - destruct Hr as [Ho Hcnt]. split; [now rewrite <- Ho|congruence].
Qed.

(** The update branch does not raise on an item whose five fields are
    there, with no null among the texts, a price that the column takes and
    a rating that can be stored, for a local row whose catalog id is one an
    integer column takes. *)
Lemma update_branch_total (local : Product.t) (product_data : pyval) (st : Store)
  (t pv d c i : pyval) (pr p : Decimal) (ts ds cs ims : string) :
  constraints st -> In local (products st) ->
  getitem product_data "title" = Ok t -> CharField t = Some ts ->
  getitem product_data "price" = Ok pv -> Decimal_str pv = Ok pr ->
  DecimalField 10 2 pr = Ok p ->
  getitem product_data "description" = Ok d -> CharField d = Some ds ->
  getitem product_data "category" = Ok c -> CharField c = Some cs ->
  getitem product_data "image" = Ok i -> CharField i = Some ims ->
  integer_in_range (Some (Product.api_id local)) = true ->
  rating_storable product_data local ->
  exists o saved,
    assign_from local product_data = Ok o /\
    Product_save o (ProductObj.date_created o) st = Ok saved.
Proof.
  intros C Hin Ht Hts Hpv Hpr Hp Hd Hds Hc Hcs Hi His Hrange (rating & Hrating & Hr).
  assert (Hex : existsb (fun q => (Product.api_id q =? Product.api_id local)
                                  && negb (Product.id q =? Product.id local))
                  (products st) = false).
  { apply not_true_is_false. intros Hex. apply existsb_exists in Hex.
    destruct Hex as (q & Hq & Hb). apply andb_true_iff in Hb.
    destruct Hb as [Ha Hne]. apply Z.eqb_eq in Ha.
    apply negb_true_iff, Z.eqb_neq in Hne. apply Hne. f_equal.
    apply (NoDup_map_eq Product.api_id (products st)); try assumption.
    apply (api_id_unique st C). }
  unfold assign_from. rewrite Ht, Hpv, Hd, Hc, Hi, Hrating. cbn [bind].
  rewrite Hpr. cbn [bind].
  destruct (truthy rating) eqn:Htruthy.
  - destruct Hr as (rv & rd & r & cv & cnt & Hrv & Hrd & Hr3 & Hcv & Hcnt & Hcr).
    rewrite (get_truthy_getitem _ _ _ Hrating Htruthy). cbn [bind].
    rewrite Hrv, Hcv. cbn [bind]. rewrite Hrd. cbn [bind].
    eexists. eexists. split; [reflexivity|].
    unfold Product_save, Product_row.
    cbn [ProductObj.pk ProductObj.api_id ProductObj.price ProductObj.rating_rate
         ProductObj.rating_count ProductObj.title ProductObj.description
         ProductObj.category ProductObj.image ProductObj.date_created
         ProductObj_of_row IntegerField DecimalField_null bind].
    rewrite Hp. cbn [bind]. rewrite Hr3. cbn [bind]. rewrite Hcnt. cbn [bind].
    rewrite Hrange, Hcr. cbn [andb negb].
    rewrite Hts, Hds, Hcs, His. cbn [bind Product.api_id]. rewrite Hex.
    reflexivity.
  - destruct Hr as [[r Hr3] Hcr].
    eexists. eexists. split; [reflexivity|].
    unfold Product_save, Product_row.
    cbn [ProductObj.pk ProductObj.api_id ProductObj.price ProductObj.rating_rate
         ProductObj.rating_count ProductObj.title ProductObj.description
         ProductObj.category ProductObj.image ProductObj.date_created
         ProductObj_of_row IntegerField bind].
    rewrite Hp. cbn [bind]. rewrite Hr3. cbn [bind].
    rewrite IntegerField_of_row. cbn [bind].
    rewrite Hrange, Hcr. cbn [andb negb].
    rewrite Hts, Hds, Hcs, His. cbn [bind Product.api_id]. rewrite Hex.
    reflexivity.
Qed.

(** With the five fields readable, [has_changes] is their comparison. *)
Lemma has_changes_five (local : Product.t) (product_data : pyval)
  (t pv d c i : pyval) (pr : Decimal) :
  getitem product_data "title" = Ok t ->
  getitem product_data "price" = Ok pv -> Decimal_str pv = Ok pr ->
  getitem product_data "description" = Ok d ->
  getitem product_data "category" = Ok c ->
  getitem product_data "image" = Ok i ->
  has_changes local product_data
  = Ok (str_ne (Product.title local) t || Decimal_ne (Product.price local) pr
        || str_ne (Product.description local) d
        || str_ne (Product.category local) c
        || str_ne (Product.image local) i).
Proof.
  intros Ht Hpv Hpr Hd Hc Hi. unfold has_changes.
  rewrite Ht, Hpv, Hd, Hc, Hi. cbn [bind]. rewrite Hpr. cbn [bind].
  destruct (str_ne (Product.title local) t); [reflexivity|].
  destruct (Decimal_ne (Product.price local) pr); [reflexivity|].
  destruct (str_ne (Product.description local) d); [reflexivity|].
  destruct (str_ne (Product.category local) c); reflexivity.
Qed.

Lemma replace_product_keys (row local : Product.t) (l : list Product.t) :
  NoDup (map Product.id l) -> In local l ->
  Product.id row = Product.id local ->
  Product.api_id row = Product.api_id local ->
  map Product.id (replace_product row l) = map Product.id l /\
  map Product.api_id (replace_product row l) = map Product.api_id l.
Proof.
  intros Hnd Hin Hid Hapi. unfold replace_product. rewrite !map_map.
  split; apply map_ext_in; intros p Hp;
    destruct (Product.id p =? Product.id row) eqn:Hb; try reflexivity;
    apply Z.eqb_eq in Hb.
  - congruence.
  - assert (p = local)
      by (apply (NoDup_map_eq Product.id l); try assumption; congruence).
    congruence.
Qed.

(** The constraints only look at the keys of the products. *)
Lemma constraints_same_keys (st st' : Store) :
  constraints st ->
  users st' = users st -> tokens st' = tokens st -> favorites st' = favorites st ->
  map Product.id (products st') = map Product.id (products st) ->
  map Product.api_id (products st') = map Product.api_id (products st) ->
  constraints st'.
Proof.
  intros C Hu Ht Hf Hid Hapi. destruct C.
  constructor; rewrite ?Hu, ?Ht, ?Hf, ?Hid, ?Hapi; assumption.
Qed.

(** One turn of the loop keeps every row's key and catalog id, and the
    other tables. *)
Lemma sync_product_keys (product_data : pyval) (st st' : Store) (b : bool) :
  constraints st ->
  sync_product product_data st = Ok (st', b) ->
  users st' = users st /\ tokens st' = tokens st /\ favorites st' = favorites st /\
  map Product.id (products st') = map Product.id (products st) /\
  map Product.api_id (products st') = map Product.api_id (products st).
Proof.
  intros C H. unfold sync_product in H.
  unbind H as api_id Hget. unbind H as found Hfound.
  destruct found as [local|].
  2:{ injection H as <- _. repeat split. }
  unbind H as changed Hchanged. destruct changed.
  2:{ injection H as <- _. repeat split. }
  unbind H as o Ho. unbind H as saved Hsave.
  destruct saved as [inst st1]. injection H as <- _. simpl.
  destruct (update_branch_Ok _ _ _ _ _ _ Ho Hsave) as (row & -> & Hov). simpl.
  destruct Hov as (Hid & Hapi & _).
  unfold Product_get in Hfound. unbind Hfound as key Hkey.
  destruct key as [a|]; [|discriminate].
  injection Hfound as Hfound. apply Product_by_api_id_Some in Hfound.
  destruct Hfound as [Hin _].
  destruct (replace_product_keys row local (products st) (product_pk st C) Hin Hid Hapi).
  repeat split; assumption.
Qed.

Lemma sync_loop_keys (api_products : list pyval) :
  forall (st st' : Store) (updated skipped : nat) (r : result (nat * nat)),
  constraints st ->
  sync_loop api_products st updated skipped = (st', r) ->
  constraints st' /\
  map Product.id (products st') = map Product.id (products st) /\
  map Product.api_id (products st') = map Product.api_id (products st).
Proof.
  induction api_products as [|product_data rest IH];
    intros st st' updated skipped r C H; cbn [sync_loop] in H.
  - injection H as <- _. split; [assumption|split; reflexivity].
  - destruct (sync_product product_data st) as [[st1 b]|e] eqn:Hstep.
    2:{ injection H as <- _. split; [assumption|split; reflexivity]. }
    destruct (sync_product_keys _ _ _ _ C Hstep) as (Hu & Ht & Hf & Hid & Hapi).
    assert (C1 : constraints st1) by now apply (constraints_same_keys st).
    destruct b; apply IH in H; try assumption;
      destruct H as (C' & Hid' & Hapi');
      (split; [assumption|split; congruence]).
Qed.

(** C1, where the code departs from it. The comparison that decides
    whether a local product is overwritten looks at the title, the price,
    the description, the category and the image, and at nothing else.  For
    an item that agrees with its local product in these five and carries a
    rating of another value, the turn leaves the row as it is and counts
    the item as skipped, although a field of the local product differs from
    the fetched item and although the update branch, when it is taken,
    does write the rating. *)
Theorem sync_ignores_rating_difference (st : Store) (product_data v : pyval)
  (local : Product.t) (t pv d c i : pyval) (pr : Decimal) :
  getitem product_data "id" = Ok v ->
  Product_get st v = Ok (Some local) ->
  getitem product_data "title" = Ok t ->
  str_ne (Product.title local) t = false ->
  getitem product_data "price" = Ok pv -> Decimal_str pv = Ok pr ->
  Decimal_ne (Product.price local) pr = false ->
  getitem product_data "description" = Ok d ->
  str_ne (Product.description local) d = false ->
  getitem product_data "category" = Ok c ->
  str_ne (Product.category local) c = false ->
  getitem product_data "image" = Ok i ->
  str_ne (Product.image local) i = false ->
  rating_differs product_data local ->
  sync_product product_data st = Ok (st, false) /\
  (forall rest updated skipped,
     sync_loop (product_data :: rest) st updated skipped
     = sync_loop rest st updated (S skipped)) /\
  handle (Ok (PyList [product_data])) st = (st, Ok (SyncComplete 0 1)).
Proof.
  intros Hid Hget Ht Hte Hpv Hpr Hpe Hd Hde Hc Hce Hi Hie _.
  assert (Hturn : sync_product product_data st = Ok (st, false)).
  { unfold sync_product. rewrite Hid. cbn [bind]. rewrite Hget. cbn [bind].
    rewrite (has_changes_five local product_data t pv d c i pr Ht Hpv Hpr Hd Hc Hi).
    rewrite Hte, Hpe, Hde, Hce, Hie. reflexivity. }
  split; [exact Hturn|]. split.
  - intros rest updated skipped. cbn [sync_loop]. now rewrite Hturn.
  - unfold handle. cbn [iterate sync_loop]. now rewrite Hturn.
Qed.

(** X23. What the sync loop does with an item, turn by turn. For an item
    whose catalog id has a local product: when the title, the price, the
    description, the category or the image of the local product differs
    from the item, the turn writes the fetched values over the local row,
    each as its column keeps it, and counts the item as updated.  It does
    so whenever none of the item's texts is null, the price is one that its
    column takes, the rating can be stored and the catalog id of the row is
    one that an integer column takes; otherwise it may raise, which ends
    the run.  When these five fields agree the row is left alone and the
    item is counted as skipped.  An item without a local product is counted
    as skipped and the store stays as it is.  A whole run, however it ends,
    leaves the product table with the same keys and the same catalog ids:
    nothing is created. *)
Theorem sync_overwrites_changed_products (st : Store) :
  constraints st ->
  (forall product_data v,
     getitem product_data "id" = Ok v ->
     (Product_get st v = Ok None ->
        forall rest updated skipped,
          sync_loop (product_data :: rest) st updated skipped
          = sync_loop rest st updated (S skipped)) /\
     (forall local t pv pr d c i,
        Product_get st v = Ok (Some local) ->
        getitem product_data "title" = Ok t ->
        getitem product_data "price" = Ok pv -> Decimal_str pv = Ok pr ->
        getitem product_data "description" = Ok d ->
        getitem product_data "category" = Ok c ->
        getitem product_data "image" = Ok i ->
        if str_ne (Product.title local) t || Decimal_ne (Product.price local) pr
           || str_ne (Product.description local) d
           || str_ne (Product.category local) c
           || str_ne (Product.image local) i
        then
          (CharField t <> None -> CharField d <> None -> CharField c <> None ->
           CharField i <> None ->
           (exists p, DecimalField 10 2 pr = Ok p) ->
           integer_in_range (Some (Product.api_id local)) = true ->
           rating_storable product_data local ->
           exists st', sync_product product_data st = Ok (st', true)) /\
          (forall st' b,
             sync_product product_data st = Ok (st', b) ->
             b = true /\
             (exists row,
                overwritten_with product_data local row /\
                st' = mkStore (users st) (tokens st)
                        (map (fun q => if Product.id q =? Product.id local
                                       then row else q) (products st))
                        (favorites st)) /\
             (forall rest updated skipped,
                sync_loop (product_data :: rest) st updated skipped
                = sync_loop rest st' (S updated) skipped))
        else
          forall rest updated skipped,
            sync_loop (product_data :: rest) st updated skipped
            = sync_loop rest st updated (S skipped))) /\
  (forall response st' r,
     handle response st = (st', r) ->
     map Product.id (products st') = map Product.id (products st) /\
     map Product.api_id (products st') = map Product.api_id (products st)).
Proof.
  intros C. split.
  - intros product_data v Hid. split.
    + intros Hget rest updated skipped. cbn [sync_loop].
      unfold sync_product. rewrite Hid. cbn [bind]. rewrite Hget. reflexivity.
    + intros local t pv pr d c i Hget Ht Hpv Hpr Hd Hc Hi.
      pose proof (has_changes_five local product_data t pv d c i pr
                    Ht Hpv Hpr Hd Hc Hi) as Hch.
      destruct (str_ne (Product.title local) t || Decimal_ne (Product.price local) pr
                || str_ne (Product.description local) d
                || str_ne (Product.category local) c
                || str_ne (Product.image local) i).
      * split.
        { intros Hnt Hnd Hnc Hni [p Hp] Hrange Hrating.
          destruct (CharField t) as [ts|] eqn:Hts; [|contradiction].
          destruct (CharField d) as [ds|] eqn:Hds; [|contradiction].
          destruct (CharField c) as [cs|] eqn:Hcs; [|contradiction].
          destruct (CharField i) as [ims|] eqn:His; [|contradiction].
          assert (Hin : In local (products st)).
          { unfold Product_get in Hget. unbind Hget as key Hkey.
            destruct key as [a|]; [|discriminate]. injection Hget as Hget.
            now apply Product_by_api_id_Some in Hget. }
          destruct (update_branch_total local product_data st t pv d c i pr p
                      ts ds cs ims C Hin Ht Hts Hpv Hpr Hp Hd Hds Hc Hcs Hi His
                      Hrange Hrating)
            as (o & saved & Ho & Hsave).
          exists (snd saved). unfold sync_product.
          rewrite Hid. cbn [bind]. rewrite Hget. cbn [bind].
          rewrite Hch. cbn [bind]. rewrite Ho. cbn [bind]. rewrite Hsave.
          reflexivity. }
        intros st' b Hs. pose proof Hs as Hs0. unfold sync_product in Hs.
        rewrite Hid in Hs. cbn [bind] in Hs. rewrite Hget in Hs. cbn [bind] in Hs.
        rewrite Hch in Hs. cbn [bind] in Hs.
        unbind Hs as o Ho. unbind Hs as saved Hsave. destruct saved as [inst st1].
        injection Hs as <- <-. simpl in Hs0 |- *.
        destruct (update_branch_Ok _ _ _ _ _ _ Ho Hsave) as (row & -> & Hov).
        split; [reflexivity|]. split.
        -- exists row. split; [assumption|]. unfold replace_product.
           destruct Hov as (-> & _). reflexivity.
        -- intros rest updated skipped. cbn [sync_loop]. now rewrite Hs0.
      * intros rest updated skipped. cbn [sync_loop].
        unfold sync_product. rewrite Hid. cbn [bind]. rewrite Hget. cbn [bind].
        rewrite Hch. reflexivity.
  - intros response st' r H. unfold handle in H.
    destruct response as [api_products|e].
    2:{ destruct e; injection H as <- _; split; reflexivity. }
    destruct (iterate api_products) as [items|e].
    2:{ injection H as <- _; split; reflexivity. }
    destruct (sync_loop items st 0 0) as [st1 r1] eqn:Hloop.
    apply sync_loop_keys in Hloop; [|assumption].
    destruct Hloop as (_ & Hid & Hapi).
    destruct r1 as [[u s]|e]; injection H as <- _; split; assumption.
Qed.

(** *** Checking the constraints *)

Lemma distinct_NoDup {A : Type} (eqb : A -> A -> bool) (l : list A) :
  (forall x y, eqb x y = true <-> x = y) ->
  distinct eqb l = true -> NoDup l.
Proof.
  intros Heqb. induction l as [|x l IH]; simpl; intros H; [constructor|].
  apply andb_true_iff in H. destruct H as [Hx Hl].
  constructor; [|now apply IH].
  intros Hin. apply negb_true_iff in Hx.
  apply not_true_iff_false in Hx. apply Hx.
  apply existsb_exists. exists x. split; [assumption|]. now apply Heqb.
Qed.

Lemma pair_eqb_eq (a b : Z * Z) : pair_eqb a b = true <-> a = b.
Proof.
  destruct a as [a1 a2], b as [b1 b2]. unfold pair_eqb. simpl.
  rewrite andb_true_iff, !Z.eqb_eq. split.
  - now intros [-> ->].
  - intros H. injection H as -> ->. now split.
Qed.

Lemma forallb_member {A : Type} (f : A -> Z) (ids : list Z) (l : list A) :
  forallb (fun x => existsb (Z.eqb (f x)) ids) l = true ->
  Forall (fun x => In (f x) ids) l.
Proof.
  intros H. apply Forall_forall. intros x Hx.
  rewrite forallb_forall in H. specialize (H x Hx).
  apply existsb_exists in H. destruct H as (y & Hy & Heq).
  apply Z.eqb_eq in Heq. now subst.
Qed.

Lemma check_constraints_sound (st : Store) :
  check_constraints st = true -> constraints st.
Proof.
  unfold check_constraints. rewrite !andb_true_iff.
  intros [[[[[[[[H1 H2] H3] H4] H5] H6] H7] H8] H9].
  constructor.
  - apply (distinct_NoDup Z.eqb); [apply Z.eqb_eq|assumption].
  - apply (distinct_NoDup String.eqb); [apply String.eqb_eq|assumption].
  - apply (distinct_NoDup Z.eqb); [apply Z.eqb_eq|assumption].
  - apply (distinct_NoDup Z.eqb); [apply Z.eqb_eq|assumption].
  - apply (distinct_NoDup Z.eqb); [apply Z.eqb_eq|assumption].
  - apply (distinct_NoDup pair_eqb); [apply pair_eqb_eq|assumption].
  - now apply forallb_member.
  - now apply forallb_member.
  - now apply forallb_member.
Qed.

(** *** The requests keep the constraints *)

Lemma NoDup_map_filter {A B : Type} (f : A -> B) (g : A -> bool) (l : list A) :
  NoDup (map f l) -> NoDup (map f (filter g l)).
Proof.
  induction l as [|a l IH]; simpl; intros Hnd; [constructor|].
  inversion Hnd as [|? ? Hnotin Hnd']; subst.
  destruct (g a); simpl; [|now apply IH].
  constructor; [|now apply IH].
  intros Hin. apply Hnotin. apply in_map_iff in Hin.
  destruct Hin as (x & Hx & Hin). apply filter_In in Hin.
  apply in_map_iff. exists x. tauto.
Qed.

Lemma NoDup_map_snoc {A B : Type} (f : A -> B) (l : list A) (x : A) :
  NoDup (map f l) -> ~ In (f x) (map f l) -> NoDup (map f (l ++ [x])).
Proof.
  intros Hnd Hnotin. rewrite map_app. simpl.
  apply NoDup_app; [assumption|repeat constructor; intros []|].
  intros y Hy [<-|[]]. contradiction.
Qed.

Lemma Forall_In_filter {A : Type} (f : A -> Z) (g : A -> bool) (ids : list Z)
  (l : list A) :
  Forall (fun x => In (f x) ids) l -> Forall (fun x => In (f x) ids) (filter g l).
Proof.
  rewrite !Forall_forall. intros H x Hx. apply filter_In in Hx. now apply H.
Qed.

Lemma delete_favorite_constraints (auth p_id : Z) (st st' : Store) (resp : Response) :
  constraints st -> delete_favorite auth p_id st = (resp, st') -> constraints st'.
Proof.
  intros C H. unfold delete_favorite in H.
  destruct (favorite_of st auth p_id); injection H as <- <-; [|assumption].
  destruct C. constructor; simpl; try assumption.
  - now apply NoDup_map_filter.
  - now apply NoDup_map_filter.
  - now apply Forall_In_filter.
  - now apply Forall_In_filter.
Qed.

Lemma delete_user_constraints (user_id : Z) (st st' : Store) (resp : Response) :
  constraints st -> delete_user user_id st = (resp, st') -> constraints st'.
Proof.
  intros C H. unfold delete_user in H.
  destruct (User_get st user_id) as [user|]; injection H as <- <-; [|assumption].
  assert (Hkeep : forall k, In k (map User.id (users st)) -> k <> User.id user ->
            In k (map User.id (filter (fun u => negb (User.id u =? User.id user))
                                 (users st)))).
  { intros k Hk Hne. apply in_map_iff in Hk. destruct Hk as (u & <- & Hu).
    apply in_map. apply filter_In. split; [assumption|].
    apply negb_true_iff. now apply Z.eqb_neq. }
  destruct C. constructor; simpl; try assumption;
    try (now apply NoDup_map_filter).
  - apply Forall_forall. intros t Ht. apply filter_In in Ht. destruct Ht as [Ht Hb].
    apply negb_true_iff, Z.eqb_neq in Hb. apply Hkeep; [|assumption].
    rewrite Forall_forall in token_user_fk0. now apply token_user_fk0.
  - apply Forall_forall. intros l Hl. apply filter_In in Hl. destruct Hl as [Hl Hb].
    apply negb_true_iff, Z.eqb_neq in Hb. apply Hkeep; [|assumption].
    rewrite Forall_forall in favorite_user_fk0. now apply favorite_user_fk0.
  - now apply Forall_In_filter.
Qed.

Lemma FavoriteProducts_create_Ok (user product now : Z) (st : Store)
  (row : FavoriteProducts.t) (st' : Store) :
  FavoriteProducts_create user product now st = Ok (row, st') ->
  st' = mkStore (users st) (tokens st) (products st) (favorites st ++ [row]) /\
  FavoriteProducts.id row = fresh (map FavoriteProducts.id (favorites st)) /\
  FavoriteProducts.user row = user /\ FavoriteProducts.product row = product /\
  ~ In (user, product)
      (map (fun l => (FavoriteProducts.user l, FavoriteProducts.product l))
         (favorites st)).
Proof.
  unfold FavoriteProducts_create.
  destruct (existsb _ (favorites st)) eqn:Hex; [discriminate|].
  intros H. injection H as <- <-. simpl. repeat split.
  intros Hin. apply in_map_iff in Hin. destruct Hin as (l & Heq & Hl).
  injection Heq as Hu Hp. apply not_true_iff_false in Hex. apply Hex.
  apply existsb_exists. exists l. split; [assumption|].
  apply andb_true_iff. split; now apply Z.eqb_eq.
Qed.

(** A new link to an existing product, by an existing user. *)
Lemma link_constraints (user product now : Z) (st st' : Store)
  (row : FavoriteProducts.t) :
  constraints st ->
  In user (map User.id (users st)) -> In product (map Product.id (products st)) ->
  FavoriteProducts_create user product now st = Ok (row, st') ->
  constraints st'.
Proof.
  intros C Hu Hp H. apply FavoriteProducts_create_Ok in H.
  destruct H as (-> & Hid & Hru & Hrp & Hnew).
  destruct C. constructor; simpl; try assumption.
  - apply NoDup_map_snoc; [assumption|]. rewrite Hid. apply fresh_not_in.
  - apply NoDup_map_snoc; [assumption|]. now rewrite Hru, Hrp.
  - apply Forall_app. split; [assumption|]. constructor; [|constructor].
    now rewrite Hru.
  - apply Forall_app. split; [assumption|]. constructor; [|constructor].
    now rewrite Hrp.
Qed.

Lemma create_product_constraints (data : pyval) (now : Z) (st st' : Store)
  (prod : ProductObj.t) :
  constraints st ->
  create_product_from_api_data data now st = Ok (prod, st') ->
  constraints st' /\ users st' = users st /\
  exists row, In row (products st') /\ ProductObj.pk prod = Some (Product.id row).
Proof.
  intros C H. apply create_product_Ok in H.
  destruct H as (row & -> & Hid & Hpk & _ & Hnone & _). simpl.
  split; [|split; [reflexivity|]].
  2:{ exists row. split; [apply in_or_app; right; now left|assumption]. }
  destruct C. constructor; simpl; try assumption.
  - apply NoDup_map_snoc; [assumption|]. rewrite Hid. apply fresh_not_in.
  - apply NoDup_map_snoc; [assumption|]. intros Hin.
    apply in_map_iff in Hin. destruct Hin as (q & Hq & Hin).
    unfold Product_by_api_id in Hnone. apply (find_none _ _ Hnone) in Hin.
    apply Z.eqb_neq in Hin. contradiction.
  - eapply Forall_impl; [|exact favorite_product_fk0].
    intros l Hl. rewrite map_app. apply in_or_app. now left.
Qed.

Lemma add_favorite_constraints (client : Z -> result pyval) (now auth p_id : Z)
  (st st' : Store) (resp : Response) :
  constraints st ->
  In auth (map User.id (users st)) ->
  add_favorite client now auth p_id st = (resp, st') ->
  constraints st'.
Proof.
  intros C Hauth H. unfold add_favorite in H.
  destruct (Product_by_api_id st p_id) as [prod|] eqn:Hfound.
  - apply Product_by_api_id_Some in Hfound. destruct Hfound as [Hin _].
    unfold FavoriteProducts_create_for in H.
    cbn [ProductObj_of_row ProductObj.pk] in H.
    destruct (FavoriteProducts_create auth (Product.id prod) now st)
      as [[row st1]|e] eqn:Hlink.
    + injection H as _ <-.
      apply (link_constraints auth (Product.id prod) now st st1 row); try assumption.
      now apply in_map.
    + destruct e; injection H as _ <-; assumption.
  - destruct (product_data <- client p_id ;;
              create_product_from_api_data product_data now st)
      as [[prod st1]|e] eqn:Hcreate.
    + unbind Hcreate as data Hdata.
      destruct (create_product_constraints _ _ _ _ _ C Hcreate)
        as (C1 & Hu & stored & Hin & Hpk).
      unfold FavoriteProducts_create_for in H. rewrite Hpk in H.
      destruct (FavoriteProducts_create auth (Product.id stored) now st1)
        as [[row st2]|e] eqn:Hlink.
      * injection H as _ <-.
        apply (link_constraints auth (Product.id stored) now st1 st2 row);
          try assumption.
        -- now rewrite Hu.
        -- now apply in_map.
      * destruct e; injection H as _ <-; assumption.
    + destruct (add_favorite_catches e); injection H as _ <-; assumption.
Qed.

Lemma replace_user_ids (row : User.t) (us : list User.t) :
  map User.id (replace_user row us) = map User.id us.
Proof.
  unfold replace_user. rewrite map_map. apply map_ext. intros u.
  destruct (User.id u =? User.id row) eqn:Hb; [|reflexivity].
  apply Z.eqb_eq in Hb. now symmetry.
Qed.

Lemma replace_user_emails (row : User.t) (us : list User.t) :
  NoDup (map User.id us) -> NoDup (map User.email us) ->
  existsb (fun u => String.eqb (User.email u) (User.email row)
                    && negb (User.id u =? User.id row)) us = false ->
  NoDup (map User.email (replace_user row us)).
Proof.
  induction us as [|u us IH]; simpl; intros Hpk Hem Hex; [constructor|].
  inversion Hpk as [|? ? Hnotin_id Hpk']; subst.
  inversion Hem as [|? ? Hnotin_em Hem']; subst.
  apply orb_false_iff in Hex. destruct Hex as [Hu Hex].
  constructor; [|now apply IH].
  intros Hin. apply in_map_iff in Hin. destruct Hin as (x & Hx & Hin).
  unfold replace_user in Hin. apply in_map_iff in Hin.
  destruct Hin as (y & Hy & Hin).
  destruct (User.id u =? User.id row) eqn:Hbu;
    destruct (User.id y =? User.id row) eqn:Hby; subst x.
  - apply Z.eqb_eq in Hbu, Hby. apply Hnotin_id. rewrite Hbu, <- Hby.
    now apply in_map.
  - apply not_true_iff_false in Hex. apply Hex.
    apply existsb_exists. exists y. split; [assumption|].
    apply andb_true_iff. split.
    + now apply String.eqb_eq.
    + now apply negb_true_iff.
  - apply andb_false_iff in Hu. destruct Hu as [Hu|Hu].
    + apply String.eqb_neq in Hu. congruence.
    + apply negb_false_iff in Hu. congruence.
  - apply Hnotin_em. rewrite <- Hx. now apply in_map.
Qed.

Lemma update_user_constraints (salt : string) (user_id : Z)
  (payload : UserSchemaUpdate.t) (st st' : Store) (resp : Response) :
  constraints st -> update_user salt user_id payload st = (resp, st') ->
  constraints st'.
Proof.
  intros C H. unfold update_user in H.
  destruct (User_get st user_id) as [old|] eqn:Hget;
    [|injection H as _ <-; assumption].
  destruct (User_by_email st _); [injection H as _ <-; assumption|].
  destruct (User_save _ st) as [[saved st1]|e] eqn:Hsave;
    [|injection H as _ <-; assumption].
  injection H as _ <-.
  unfold User_save in Hsave.
  destruct (UserObj.name _) as [n|]; [|discriminate].
  destruct (UserObj.email _) as [e|]; [|discriminate].
  destruct (existsb _ (users st)) eqn:Hex; [discriminate|].
  injection Hsave as <- <-.
  destruct C. constructor; simpl; rewrite ?replace_user_ids; try assumption.
  now apply replace_user_emails.
Qed.

Lemma handle_constraints (response : result pyval) (st st' : Store)
  (r : result SyncReport) :
  constraints st -> handle response st = (st', r) -> constraints st'.
Proof.
  intros C H. unfold handle in H.
  destruct response as [api_products|e].
  2:{ destruct e; injection H as <- _; assumption. }
  destruct (iterate api_products) as [items|e].
  2:{ injection H as <- _; assumption. }
  destruct (sync_loop items st 0 0) as [st1 r1] eqn:Hloop.
  apply sync_loop_keys in Hloop; [|assumption]. destruct Hloop as (C1 & _).
  destruct r1 as [[u s]|e]; injection H as <- _; assumption.
Qed.

(* ------------------------------------------------------------------ *)
(** ** Further properties of the code *)

(** *** The authentication gates *)

Lemma flat_map_nil_in {A B : Type} (f : A -> list B) (l : list A) :
  (forall x, In x l -> f x = []) -> flat_map f l = [].
Proof.
  induction l as [|a l IH]; simpl; intros Hf; [reflexivity|].
  rewrite (Hf a (or_introl eq_refl)). apply IH. intros x Hx. apply Hf. now right.
Qed.

Lemma flat_map_single {A B : Type} (f : A -> list B) (l : list A) (a : A) :
  NoDup l -> In a l ->
  (forall x, In x l -> x <> a -> f x = []) ->
  flat_map f l = f a.
Proof.
  induction l as [|y l IH]; simpl; intros Hnd Hin Hf; [contradiction|].
  inversion Hnd as [|? ? Hnotin Hnd']; subst.
  destruct Hin as [->|Hin].
  - rewrite (flat_map_nil_in f l); [apply app_nil_r|].
    intros x Hx. apply Hf; [now right|]. intros ->. contradiction.
  - rewrite (Hf y (or_introl eq_refl)); [|intros ->; contradiction].
    apply IH; try assumption. intros x Hx. apply Hf. now right.
Qed.

Lemma filter_key_single {A : Type} (f : A -> Z) (l : list A) (a : A) :
  NoDup (map f l) -> In a l -> filter (fun x => f x =? f a) l = [a].
Proof.
  induction l as [|y l IH]; simpl; intros Hnd Hin; [contradiction|].
  inversion Hnd as [|? ? Hnotin Hnd']; subst.
  destruct Hin as [->|Hin].
  - rewrite Z.eqb_refl. f_equal. apply find_None_filter. apply existsb_false_find.
    apply not_true_is_false. intros Hex. apply existsb_exists in Hex.
    destruct Hex as (x & Hx & Hb). apply Z.eqb_eq in Hb.
    apply Hnotin. rewrite <- Hb. now apply in_map.
  - destruct (f y =? f a) eqn:Hb; [|now apply IH].
    apply Z.eqb_eq in Hb. exfalso. apply Hnotin. rewrite Hb. now apply in_map.
Qed.

Lemma tokens_with_key_In (st : Store) (key : string) (t : AuthToken.t) (u : User.t) :
  In (t, u) (tokens_with_key st key) <->
  In t (tokens st) /\ AuthToken.key t = key /\
  In u (users st) /\ User.id u = AuthToken.user t.
Proof.
  unfold tokens_with_key. rewrite in_flat_map. split.
  - intros (t' & Ht' & Hin).
    destruct (String.eqb (AuthToken.key t') key) eqn:Hk; [|contradiction].
    apply String.eqb_eq in Hk. apply in_map_iff in Hin.
    destruct Hin as (u' & Heq & Hu'). injection Heq as -> ->.
    apply filter_In in Hu'. destruct Hu' as [Hu' Hb]. apply Z.eqb_eq in Hb.
    split; [assumption|split; [assumption|split; assumption]].
  - intros (Ht & Hk & Hu & Hid). exists t. split; [assumption|].
    rewrite Hk, String.eqb_refl. apply in_map. apply filter_In.
    split; [assumption|]. now apply Z.eqb_eq.
Qed.

Lemma tokens_with_key_one (st : Store) (t : AuthToken.t) :
  constraints st -> unique_keys st -> In t (tokens st) ->
  exists u, In u (users st) /\ User.id u = AuthToken.user t /\
            tokens_with_key st (AuthToken.key t) = [(t, u)].
Proof.
  intros C K Ht.
  pose proof (token_user_fk st C) as Hfk. rewrite Forall_forall in Hfk.
  specialize (Hfk t Ht). apply in_map_iff in Hfk. destruct Hfk as (u & Hid & Hu).
  exists u. split; [assumption|]. split; [assumption|].
  unfold tokens_with_key.
  rewrite (flat_map_single _ (tokens st) t).
  - rewrite String.eqb_refl, <- Hid.
    rewrite (filter_key_single User.id (users st) u); [reflexivity| |assumption].
    apply (user_pk st C).
  - apply (NoDup_map_inv AuthToken.key). exact K.
  - assumption.
  - intros x Hx Hne. destruct (String.eqb (AuthToken.key x) (AuthToken.key t)) eqn:Hk;
      [|reflexivity].
    apply String.eqb_eq in Hk. exfalso. apply Hne.
    now apply (NoDup_map_eq AuthToken.key (tokens st)).
Qed.

(** X1. Under the schema constraints and with no two tokens of the same
    key, the standard gate resolves a key to exactly the owner of the token
    with that key: whoever it authenticates is a stored user owning a stored
    token with the key, every stored token's key authenticates as the
    token's user, a key that no token has is denied, and [get] never finds
    several rows. *)
Theorem ApiKey_authenticate_owner (st : Store) :
  constraints st -> unique_keys st ->
  (forall key u,
     ApiKey_authenticate st key = Authenticated u ->
     In u (users st) /\ In (AuthToken.mk key (User.id u)) (tokens st)) /\
  (forall t, In t (tokens st) ->
     exists u, In u (users st) /\ User.id u = AuthToken.user t /\
               ApiKey_authenticate st (AuthToken.key t) = Authenticated u) /\
  (forall key, ~ In key (map AuthToken.key (tokens st)) ->
     ApiKey_authenticate st key = Denied) /\
  (forall key, ApiKey_authenticate st key <> MultipleObjectsReturned).
Proof.
  intros C K.
  assert (Hnone : forall key, ~ In key (map AuthToken.key (tokens st)) ->
                              tokens_with_key st key = []).
  { intros key Hkey. unfold tokens_with_key. apply flat_map_nil_in.
    intros t Ht. destruct (String.eqb (AuthToken.key t) key) eqn:Hk; [|reflexivity].
    apply String.eqb_eq in Hk. exfalso. apply Hkey. rewrite <- Hk. now apply in_map. }
  split; [|split; [|split]].
  - intros key u H. unfold ApiKey_authenticate in H.
    destruct (tokens_with_key st key) as [|[t u'] [|r rs]] eqn:Hrows; try discriminate.
    injection H as ->.
    assert (Hin : In (t, u) (tokens_with_key st key)) by (rewrite Hrows; now left).
    apply tokens_with_key_In in Hin. destruct Hin as (Ht & Hk & Hu & Hid).
    split; [assumption|]. rewrite Hid, <- Hk. now destruct t.
  - intros t Ht. destruct (tokens_with_key_one st t C K Ht) as (u & Hu & Hid & Hrows).
    exists u. split; [assumption|]. split; [assumption|].
    unfold ApiKey_authenticate. now rewrite Hrows.
  - intros key Hkey. unfold ApiKey_authenticate. now rewrite (Hnone key Hkey).
  - intros key H. unfold ApiKey_authenticate in H.
    destruct (in_dec string_dec key (map AuthToken.key (tokens st))) as [Hin|Hout].
    + apply in_map_iff in Hin. destruct Hin as (t & <- & Ht).
      destruct (tokens_with_key_one st t C K Ht) as (u & _ & _ & Hrows).
      rewrite Hrows in H. discriminate.
    + rewrite (Hnone key Hout) in H. discriminate.
Qed.

(** X2. The admin gate is the standard gate followed by the role check:
    it authenticates a user exactly when the standard gate authenticates
    that user and the user is an admin; the key of a customer is denied,
    and the admin gate fails on several rows exactly when the standard gate
    does. *)
Theorem AdminApiKey_authenticate_role (st : Store) (key : string) :
  (forall u, AdminApiKey_authenticate st key = Authenticated u <->
             ApiKey_authenticate st key = Authenticated u /\ is_admin u = true) /\
  (forall u, ApiKey_authenticate st key = Authenticated u -> is_customer u = true ->
             AdminApiKey_authenticate st key = Denied) /\
  (AdminApiKey_authenticate st key = MultipleObjectsReturned <->
   ApiKey_authenticate st key = MultipleObjectsReturned).
Proof.
  unfold AdminApiKey_authenticate, ApiKey_authenticate, is_admin, is_customer.
  destruct (tokens_with_key st key) as [|[t u'] [|r rs]].
  - split; [|split].
    + intros u. split; [discriminate|]. intros [H _]. discriminate.
    + discriminate.
    + split; discriminate.
  - split; [|split].
    + intros u. destruct (User.role u') eqn:Hr; split.
      * intros H. injection H as <-. now rewrite Hr.
      * intros [H _]. exact H.
      * discriminate.
      * intros [H Ha]. injection H as <-. rewrite Hr in Ha. discriminate.
    + intros u H Hc. injection H as <-. destruct (User.role u'); [discriminate|reflexivity].
    + destruct (User.role u'); split; discriminate.
  - split; [|split].
    + intros u. split; [discriminate|]. intros [H _]. discriminate.
    + discriminate.
    + split; reflexivity.
Qed.

Lemma filter_pairs (t : AuthToken.t) (k : Z) (l : list User.t) :
  filter (fun tu : AuthToken.t * User.t => negb (User.id (snd tu) =? k))
    (map (fun u => (t, u)) l)
  = map (fun u => (t, u)) (filter (fun u => negb (User.id u =? k)) l).
Proof.
  induction l as [|u l IH]; simpl; [reflexivity|].
  destruct (negb (User.id u =? k)); simpl; now rewrite IH.
Qed.

Lemma filter_comm {A : Type} (f g : A -> bool) (l : list A) :
  filter f (filter g l) = filter g (filter f l).
Proof.
  induction l as [|a l IH]; simpl; [reflexivity|].
  destruct (f a) eqn:Hf, (g a) eqn:Hg; simpl; rewrite ?Hf, ?Hg, IH; reflexivity.
Qed.

Lemma filter_nil_in {A : Type} (f : A -> bool) (l : list A) :
  (forall x, In x l -> f x = false) -> filter f l = [].
Proof.
  induction l as [|a l IH]; simpl; intros Hf; [reflexivity|].
  rewrite (Hf a (or_introl eq_refl)). apply IH. intros x Hx. apply Hf. now right.
Qed.

(** The rows of a key after a user is deleted: those of before whose user
    is another one. *)
Lemma tokens_with_key_delete (user : User.t) (st : Store) (key : string) :
  tokens_with_key (User_delete user st) key
  = filter (fun tu => negb (User.id (snd tu) =? User.id user))
      (tokens_with_key st key).
Proof.
  unfold tokens_with_key, User_delete. simpl.
  induction (tokens st) as [|t ts IH]; simpl; [reflexivity|].
  rewrite filter_app, <- IH.
  destruct (AuthToken.user t =? User.id user) eqn:Hu; simpl.
  - apply Z.eqb_eq in Hu.
    destruct (String.eqb (AuthToken.key t) key); simpl; [|reflexivity].
    rewrite filter_pairs.
    rewrite (filter_nil_in (fun u => negb (User.id u =? User.id user))
               (filter (fun u => User.id u =? AuthToken.user t) (users st)));
      [reflexivity|].
    intros u Hin. apply filter_In in Hin. destruct Hin as [_ Hb].
    apply Z.eqb_eq in Hb. apply negb_false_iff, Z.eqb_eq. congruence.
  - destruct (String.eqb (AuthToken.key t) key); simpl; [|reflexivity].
    rewrite filter_pairs. f_equal. f_equal. apply filter_comm.
Qed.

(** X3. Deleting a user revokes that user's keys and no others: in the
    store after a 204, no key authenticates as the deleted user, and a key
    that authenticated as another user before still authenticates as that
    user. *)
Theorem delete_user_revokes_keys (user_id : Z) (st st' : Store) :
  delete_user user_id st = (Reply 204 NoContent, st') ->
  (forall key u, ApiKey_authenticate st' key = Authenticated u -> User.id u <> user_id) /\
  (forall key v, ApiKey_authenticate st key = Authenticated v -> User.id v <> user_id ->
                 ApiKey_authenticate st' key = Authenticated v).
Proof.
  unfold delete_user. intros H.
  destruct (User_get st user_id) as [user|] eqn:Hget; [|discriminate].
  injection H as <-. apply User_get_Some in Hget. destruct Hget as [_ Hid].
  unfold ApiKey_authenticate. split.
  - intros key u H.
    destruct (tokens_with_key (User_delete user st) key) as [|[t u'] [|r rs]] eqn:Hrows;
      try discriminate.
    injection H as ->.
    assert (Hin : In (t, u) (tokens_with_key (User_delete user st) key))
      by (rewrite Hrows; now left).
    rewrite tokens_with_key_delete in Hin. apply filter_In in Hin.
    destruct Hin as [_ Hb]. simpl in Hb. apply negb_true_iff, Z.eqb_neq in Hb.
    congruence.
  - intros key v H Hne. rewrite tokens_with_key_delete.
    destruct (tokens_with_key st key) as [|[t u'] [|r rs]]; try discriminate.
    injection H as ->. simpl.
    assert (Hb : (User.id v =? User.id user) = false) by (apply Z.eqb_neq; congruence).
    now rewrite Hb.
Qed.

(** *** Creating and reading users *)

Lemma UserManager_create_user_Ok (salt email name password : string) (role : Role)
  (st : Store) (user : User.t) (st1 : Store) :
  UserManager_create_user salt email name password role st = Ok (user, st1) ->
  email <> EmptyString /\
  user = User.mk (fresh (map User.id (users st))) name (normalize_email email)
           (make_password salt password) role /\
  st1 = mkStore (users st ++ [user]) (tokens st) (products st) (favorites st) /\
  (forall u, In u (users st) -> User.email u <> normalize_email email).
Proof.
  unfold UserManager_create_user.
  destruct (String.eqb email EmptyString) eqn:He; [discriminate|].
  destruct (existsb _ (users st)) eqn:Hex; [discriminate|].
  intros H. injection H as <- <-. apply String.eqb_neq in He.
  repeat split; try assumption.
  intros u Hu Heq. apply not_true_iff_false in Hex. apply Hex.
  apply existsb_exists. exists u. split; [assumption|]. now apply String.eqb_eq.
Qed.

(** X4. [create_user] answers 400 "email in use" and stores nothing when a
    user already has the normalised email of the payload; an empty email
    is not answered at all: the [ValueError] of [UserManager.create_user]
    is not caught, and nothing is stored either. *)
Theorem create_user_refusals (salt key : string) (payload : UserSchemaIn.t) (st : Store) :
  (UserSchemaIn.email payload = EmptyString ->
     create_user salt key payload st = (Unhandled ValueError, st)) /\
  (UserSchemaIn.email payload <> EmptyString ->
   (exists u, In u (users st)
              /\ User.email u = normalize_email (UserSchemaIn.email payload)) ->
     create_user salt key payload st = (Reply 400 (Message EmailInUse), st)).
Proof.
  unfold create_user, UserManager_create_user. split.
  - intros ->. reflexivity.
  - intros Hne (u & Hu & He). apply String.eqb_neq in Hne. rewrite Hne.
    assert (Hex : existsb (fun v => String.eqb (User.email v)
                                      (normalize_email (UserSchemaIn.email payload)))
                    (users st) = true).
    { apply existsb_exists. exists u. split; [assumption|]. now apply String.eqb_eq. }
    now rewrite Hex.
Qed.

Lemma find_app_Some {A : Type} (f : A -> bool) (l l' : list A) (v : A) :
  find f l = Some v -> find f (l ++ l') = Some v.
Proof.
  induction l as [|a l IH]; simpl; [discriminate|].
  destruct (f a); [trivial|exact IH].
Qed.

Lemma User_get_snoc (st : Store) (user : User.t) (ts : list AuthToken.t)
  (ps : list Product.t) (fs : list FavoriteProducts.t) :
  User.id user = fresh (map User.id (users st)) ->
  User_get (mkStore (users st ++ [user]) ts ps fs) (User.id user) = Some user /\
  (forall k v, User_get st k = Some v ->
               User_get (mkStore (users st ++ [user]) ts ps fs) k = Some v).
Proof.
  intros Hid. unfold User_get. simpl. split.
  - rewrite find_app_None; [now rewrite Z.eqb_refl|].
    apply existsb_false_find. apply not_true_is_false. intros Hex.
    apply existsb_exists in Hex. destruct Hex as (u & Hu & Hb).
    apply Z.eqb_eq in Hb. apply (fresh_not_in (map User.id (users st))).
    rewrite <- Hid, <- Hb. now apply in_map.
  - intros k v Hv. now apply find_app_Some.
Qed.

(** X5. What [create_user] stores can be read back: after a 201, [get_user]
    on the new user's id answers 200 with the very user of the 201, whose
    name is the payload's, whose email is the normalised one, whose
    password is the hash of the payload's and whose role is [CUSTOMER];
    every user that could be read before reads the same, and products and
    favorite links are untouched. *)
Theorem create_user_then_get_user (salt key : string) (payload : UserSchemaIn.t)
  (st st' : Store) (user : User.t) :
  create_user salt key payload st = (Reply 201 (UserOut user), st') ->
  get_user (User.id user) st' = Reply 200 (UserOut user) /\
  User.name user = UserSchemaIn.name payload /\
  User.email user = normalize_email (UserSchemaIn.email payload) /\
  User.password user = make_password salt (UserSchemaIn.password payload) /\
  User.role user = CUSTOMER /\
  (forall k v, get_user k st = Reply 200 (UserOut v) ->
               get_user k st' = Reply 200 (UserOut v)) /\
  products st' = products st /\ favorites st' = favorites st.
Proof.
  unfold create_user. intros H.
  destruct (UserManager_create_user _ _ _ _ _ st) as [[user1 st1]|e] eqn:Hc.
  2:{ destruct e; discriminate. }
  injection H as -> <-.
  apply UserManager_create_user_Ok in Hc. destruct Hc as (_ & Hu & -> & _).
  assert (Hid : User.id user = fresh (map User.id (users st))) by now rewrite Hu.
  destruct (User_get_snoc st user (tokens st) (products st) (favorites st) Hid)
    as [Hnew Hold].
  unfold get_user, AuthToken_create, User_get in *. simpl in *.
  split; [now rewrite Hnew|].
  rewrite Hu at 1 2 3 4. simpl. repeat (split; [reflexivity|]).
  split; [|split; reflexivity].
  intros k v Hk.
  destruct (find (fun u => User.id u =? k) (users st)) as [w|] eqn:Hw; [|discriminate].
  injection Hk as ->. now rewrite (Hold k v Hw).
Qed.

Lemma flat_map_ext_in {A B : Type} (f g : A -> list B) (l : list A) :
  (forall x, In x l -> f x = g x) -> flat_map f l = flat_map g l.
Proof.
  induction l as [|a l IH]; simpl; intros H; [reflexivity|].
  rewrite (H a (or_introl eq_refl)), IH; [reflexivity|].
  intros x Hx. apply H. now right.
Qed.

(** The rows of a key once a new user has been stored and given a token. *)
Lemma tokens_with_key_issue (st : Store) (user : User.t) (key k : string) :
  constraints st -> User.id user = fresh (map User.id (users st)) ->
  tokens_with_key
    (AuthToken_create key (User.id user)
       (mkStore (users st ++ [user]) (tokens st) (products st) (favorites st))) k
  = tokens_with_key st k
    ++ (if String.eqb key k then [(AuthToken.mk key (User.id user), user)] else []).
Proof.
  intros C Hid. unfold tokens_with_key, AuthToken_create. simpl.
  assert (Hfresh : forall u, In u (users st) -> (User.id u =? User.id user) = false).
  { intros u Hu. apply Z.eqb_neq. intros Heq.
    apply (fresh_not_in (map User.id (users st))). rewrite <- Hid, <- Heq.
    now apply in_map. }
  rewrite flat_map_app. f_equal.
  - apply flat_map_ext_in. intros t Ht.
    destruct (String.eqb (AuthToken.key t) k); [|reflexivity].
    rewrite filter_app. simpl.
    pose proof (token_user_fk st C) as Hfk. rewrite Forall_forall in Hfk.
    specialize (Hfk t Ht). apply in_map_iff in Hfk. destruct Hfk as (u & Hu & Hin).
    rewrite <- Hu. rewrite Z.eqb_sym, (Hfresh u Hin). now rewrite app_nil_r.
  - simpl. destruct (String.eqb key k); [|reflexivity].
    rewrite filter_app. simpl. rewrite Z.eqb_refl.
    rewrite (filter_nil_in _ (users st)); [reflexivity|].
    intros u Hu. now apply Hfresh.
Qed.

Lemma tokens_with_key_unused (st : Store) (key : string) :
  ~ In key (map AuthToken.key (tokens st)) -> tokens_with_key st key = [].
Proof.
  intros Hkey. unfold tokens_with_key. apply flat_map_nil_in.
  intros t Ht. destruct (String.eqb (AuthToken.key t) key) eqn:Hk; [|reflexivity].
  apply String.eqb_eq in Hk. exfalso. apply Hkey. rewrite <- Hk. now apply in_map.
Qed.

Lemma token_issue (st : Store) (user : User.t) (key : string) :
  constraints st -> User.id user = fresh (map User.id (users st)) ->
  token
    (AuthToken_create key (User.id user)
       (mkStore (users st ++ [user]) (tokens st) (products st) (favorites st))) user
  = Some key.
Proof.
  intros C Hid. unfold token, AuthToken_create. simpl.
  rewrite find_app_None; [simpl; now rewrite Z.eqb_refl|].
  apply existsb_false_find. apply not_true_is_false. intros Hex.
  apply existsb_exists in Hex. destruct Hex as (t & Ht & Hb). apply Z.eqb_eq in Hb.
  pose proof (token_user_fk st C) as Hfk. rewrite Forall_forall in Hfk.
  specialize (Hfk t Ht). rewrite Hb, Hid in Hfk. now apply fresh_not_in in Hfk.
Qed.

(** X6. The token issued by [create_user] works at once, for the standard
    routes only: with a key that no token has yet, the key of the 201
    authenticates as the new user at the standard gate and is denied at the
    admin gate, [User.token] of the new user is that key, and every other
    key resolves as it did before. *)
Theorem create_user_key_authenticates (salt key : string) (payload : UserSchemaIn.t)
  (st st' : Store) (user : User.t) :
  constraints st ->
  ~ In key (map AuthToken.key (tokens st)) ->
  create_user salt key payload st = (Reply 201 (UserOut user), st') ->
  ApiKey_authenticate st' key = Authenticated user /\
  AdminApiKey_authenticate st' key = Denied /\
  token st' user = Some key /\
  (forall k, k <> key -> ApiKey_authenticate st' k = ApiKey_authenticate st k).
Proof.
  intros C Hkey H. unfold create_user in H.
  destruct (UserManager_create_user _ _ _ _ _ st) as [[user1 st1]|e] eqn:Hc.
  2:{ destruct e; discriminate. }
  injection H as -> <-.
  apply UserManager_create_user_Ok in Hc. destruct Hc as (_ & Hu & -> & _).
  assert (Hid : User.id user = fresh (map User.id (users st))) by now rewrite Hu.
  assert (Hrole : User.role user = CUSTOMER) by now rewrite Hu.
  unfold ApiKey_authenticate, AdminApiKey_authenticate.
  split; [|split; [|split]].
  - rewrite (tokens_with_key_issue st user key key C Hid).
    now rewrite (tokens_with_key_unused st key Hkey), String.eqb_refl.
  - rewrite (tokens_with_key_issue st user key key C Hid).
    rewrite (tokens_with_key_unused st key Hkey), String.eqb_refl. simpl.
    now rewrite Hrole.
  - now apply token_issue.
  - intros k Hk. rewrite (tokens_with_key_issue st user key k C Hid).
    assert (Hb : String.eqb key k = false) by (apply String.eqb_neq; congruence).
    now rewrite Hb, app_nil_r.
Qed.

(** X7. [create_superuser] makes an admin unless told otherwise: called
    without a role, with a key that no token has yet, it stores a user with
    the role [ADMIN] whose key passes the admin gate. *)
Theorem create_superuser_passes_admin_gate (salt key email name password : string)
  (st st' : Store) (user : User.t) :
  constraints st ->
  ~ In key (map AuthToken.key (tokens st)) ->
  UserManager_create_superuser salt key email name password None st = Ok (user, st') ->
  is_admin user = true /\
  AdminApiKey_authenticate st' key = Authenticated user /\
  token st' user = Some key.
Proof.
  intros C Hkey H. unfold UserManager_create_superuser in H.
  unbind H as saved Hc. destruct saved as [user1 st1]. simpl in H.
  injection H as -> <-.
  apply UserManager_create_user_Ok in Hc. destruct Hc as (_ & Hu & -> & _).
  assert (Hid : User.id user = fresh (map User.id (users st))) by now rewrite Hu.
  assert (Hrole : User.role user = ADMIN) by now rewrite Hu.
  split; [unfold is_admin; now rewrite Hrole|]. split.
  - unfold AdminApiKey_authenticate.
    rewrite (tokens_with_key_issue st user key key C Hid).
    rewrite (tokens_with_key_unused st key Hkey), String.eqb_refl. simpl.
    now rewrite Hrole.
  - now apply token_issue.
Qed.

(** X8. [create_user] keeps the schema constraints, and with a key that no
    token has yet it keeps the keys of the tokens distinct. *)
Theorem create_user_constraints (salt key : string) (payload : UserSchemaIn.t)
  (st st' : Store) (resp : Response) :
  constraints st ->
  create_user salt key payload st = (resp, st') ->
  constraints st' /\
  (unique_keys st -> ~ In key (map AuthToken.key (tokens st)) -> unique_keys st').
Proof.
  intros C H. unfold create_user in H.
  destruct (UserManager_create_user _ _ _ _ _ st) as [[user st1]|e] eqn:Hc.
  2:{ destruct e; injection H as _ <-; split; trivial. }
  injection H as _ <-.
  apply UserManager_create_user_Ok in Hc. destruct Hc as (_ & Hu & -> & Hnew).
  assert (Hid : User.id user = fresh (map User.id (users st))) by now rewrite Hu.
  assert (Hem : User.email user = normalize_email (UserSchemaIn.email payload))
    by now rewrite Hu.
  assert (Hsub : forall k, In k (map User.id (users st)) ->
                           In k (map User.id (users st ++ [user]))).
  { intros k Hk. rewrite map_app. apply in_or_app. now left. }
  split.
  - destruct C. constructor; simpl; try assumption.
    + apply NoDup_map_snoc; [assumption|]. rewrite Hid. apply fresh_not_in.
    + apply NoDup_map_snoc; [assumption|]. intros Hin.
      apply in_map_iff in Hin. destruct Hin as (u & He & Hin).
      apply (Hnew u Hin). congruence.
    + apply Forall_app. split.
      * eapply Forall_impl; [|exact token_user_fk0]. intros t Ht. now apply Hsub.
      * constructor; [|constructor]. simpl. rewrite map_app. apply in_or_app.
        right. now left.
    + eapply Forall_impl; [|exact favorite_user_fk0]. intros l Hl. now apply Hsub.
  - intros K Hkey. unfold unique_keys, AuthToken_create. simpl.
    now apply NoDup_map_snoc.
Qed.

Lemma find_replace_user (row : User.t) (l : list User.t) :
  (exists u, In u l /\ User.id u = User.id row) ->
  find (fun u => User.id u =? User.id row) (replace_user row l) = Some row.
Proof.
  unfold replace_user.
  induction l as [|a l IH]; simpl; intros (u & Hu & Hid); [contradiction|].
  destruct (User.id a =? User.id row) eqn:Hb.
  - now rewrite Z.eqb_refl.
  - rewrite Hb. apply IH. destruct Hu as [->|Hu].
    + apply Z.eqb_neq in Hb. contradiction.
    + eauto.
Qed.

Lemma find_replace_user_other (row : User.t) (l : list User.t) (k : Z) :
  k <> User.id row ->
  find (fun u => User.id u =? k) (replace_user row l)
  = find (fun u => User.id u =? k) l.
Proof.
  intros Hk. unfold replace_user.
  induction l as [|a l IH]; simpl; [reflexivity|].
  destruct (User.id a =? User.id row) eqn:Hb.
  - apply Z.eqb_eq in Hb.
    assert (H1 : (User.id row =? k) = false) by (apply Z.eqb_neq; congruence).
    assert (H2 : (User.id a =? k) = false) by (apply Z.eqb_neq; congruence).
    now rewrite H1, H2.
  - now rewrite IH.
Qed.

Lemma find_filter_other (k k' : Z) (l : list User.t) :
  find (fun u => User.id u =? k')
    (filter (fun u => negb (User.id u =? k)) l)
  = if k' =? k then None else find (fun u => User.id u =? k') l.
Proof.
  induction l as [|a l IH]; simpl; [now destruct (k' =? k)|].
  destruct (User.id a =? k) eqn:Hb; simpl.
  - rewrite IH. destruct (k' =? k) eqn:Hk; [reflexivity|].
    apply Z.eqb_eq in Hb. apply Z.eqb_neq in Hk.
    assert (H : (User.id a =? k') = false) by (apply Z.eqb_neq; congruence).
    now rewrite H.
  - rewrite IH. destruct (k' =? k) eqn:Hk; [|reflexivity].
    apply Z.eqb_eq in Hk. subst k'. now rewrite Hb.
Qed.

(** X9. [get_user] reads back what the two writing endpoints left: after an
    update answered 200, [get_user] on that id answers 200 with the user of
    the update's reply; after a delete answered 204, [get_user] on that id
    answers 400 "not found"; in both cases every other id reads as before. *)
Theorem get_user_after_write (user_id : Z) (st st' : Store) :
  (forall salt payload saved,
     update_user salt user_id payload st = (Reply 200 (UserOut saved), st') ->
     get_user user_id st' = Reply 200 (UserOut saved) /\
     (forall k, k <> user_id -> get_user k st' = get_user k st)) /\
  (delete_user user_id st = (Reply 204 NoContent, st') ->
     get_user user_id st' = Reply 400 (Message UserNotFound) /\
     (forall k, k <> user_id -> get_user k st' = get_user k st)).
Proof.
  split.
  - intros salt payload saved H. unfold update_user in H.
    destruct (User_get st user_id) as [old|] eqn:Hget; [|discriminate].
    destruct (User_by_email st _); [discriminate|].
    destruct (User_save _ st) as [[saved1 st1]|e] eqn:Hsave; [|discriminate].
    injection H as -> <-.
    apply User_save_Ok in Hsave. destruct Hsave as (_ & _ & Hpk & _ & _ & ->).
    apply User_get_Some in Hget. destruct Hget as [Hin Hid].
    assert (Hsid : User.id saved = user_id).
    { rewrite Hpk. destruct (password_given _); simpl; exact Hid. }
    unfold get_user, User_get. simpl. split.
    + rewrite <- Hsid. rewrite find_replace_user; [reflexivity|].
      exists old. split; [assumption|congruence].
    + intros k Hk. rewrite find_replace_user_other; [reflexivity|congruence].
  - intros H. unfold delete_user in H.
    destruct (User_get st user_id) as [user|] eqn:Hget; [|discriminate].
    injection H as <-. apply User_get_Some in Hget. destruct Hget as [_ Hid].
    unfold get_user, User_get, User_delete. simpl. rewrite Hid. split.
    + now rewrite find_filter_other, Z.eqb_refl.
    + intros k Hk. rewrite find_filter_other.
      assert (Hb : (k =? user_id) = false) by now apply Z.eqb_neq.
      now rewrite Hb.
Qed.

(** X10. A null for a NOT NULL column is not answered: on an existing
    user, a payload whose email is null, or whose name is null while its
    email is held by nobody, ends in an unhandled [IntegrityError] of
    [user.save()], with the store as it was. *)
Theorem update_user_null_field (salt : string) (user_id : Z)
  (payload : UserSchemaUpdate.t) (st : Store) (u : User.t) :
  User_get st user_id = Some u ->
  UserSchemaUpdate.email payload = Some None \/
  (UserSchemaUpdate.name payload = Some None /\
   User_by_email st (attr (UserSchemaUpdate.email payload)) = None) ->
  update_user salt user_id payload st = (Unhandled IntegrityError, st).
Proof.
  intros Hget H. unfold update_user. rewrite Hget.
  destruct H as [He|[Hn Hcheck]].
  - rewrite He. simpl.
    assert (Hnone : User_by_email st None = None).
    { unfold User_by_email. apply existsb_false_find.
      apply not_true_is_false. intros Hex. apply existsb_exists in Hex.
      destruct Hex as (x & _ & Hb). discriminate. }
    rewrite Hnone. unfold User_save.
    destruct (password_given _); simpl; rewrite He;
      destruct (UserSchemaUpdate.name payload) as [[n|]|]; reflexivity.
  - rewrite Hcheck. unfold User_save.
    destruct (password_given _); simpl; rewrite Hn; reflexivity.
Qed.

(** X11. [update_user] answers 400 "email in use" exactly when the id
    exists and some stored user, whoever it is, has the email of the
    payload. *)
Theorem update_user_email_in_use_iff (salt : string) (user_id : Z)
  (payload : UserSchemaUpdate.t) (st : Store) :
  fst (update_user salt user_id payload st) = Reply 400 (Message EmailInUse) <->
  (exists u, In u (users st) /\ User.id u = user_id) /\
  (exists v, In v (users st)
             /\ UserSchemaUpdate.email payload = Some (Some (User.email v))).
Proof.
  unfold update_user.
  destruct (User_get st user_id) as [old|] eqn:Hget.
  - apply User_get_Some in Hget. destruct Hget as [Hin Hid].
    destruct (User_by_email st (attr (UserSchemaUpdate.email payload)))
      as [v|] eqn:Hcheck.
    + simpl. split; [intros _|reflexivity].
      split; [eauto|]. unfold User_by_email in Hcheck.
      apply find_some in Hcheck. destruct Hcheck as [Hv Hb].
      exists v. split; [assumption|].
      destruct (UserSchemaUpdate.email payload) as [[e|]|]; simpl in Hb;
        try discriminate.
      apply String.eqb_eq in Hb. now subst.
    + split.
      * destruct (User_save _ st) as [[saved st1]|e]; simpl; discriminate.
      * intros (_ & v & Hv & He). exfalso. rewrite He in Hcheck. simpl in Hcheck.
        unfold User_by_email in Hcheck. apply (find_none _ _ Hcheck) in Hv.
        simpl in Hv. now rewrite String.eqb_refl in Hv.
  - simpl. split; [discriminate|].
    intros ((u & Hu & Hid) & _). exfalso.
    now apply (User_get_None _ _ Hget u Hu).
Qed.


(** *** The favorites endpoints, seen from the store *)

(** The two ways [add_favorite] ends under the constraints: a 201 with one
    new link (and the row of the fetched product, when it was not stored
    yet), or any other reply with the store as it was. *)
Lemma add_favorite_cases (client : Z -> result pyval) (now auth p_id : Z)
  (st st' : Store) (resp : Response) :
  constraints st ->
  add_favorite client now auth p_id st = (resp, st') ->
  (exists prod row new_products,
     resp = Reply 201 (ProductOut prod) /\
     ProductObj.pk prod = Some (Product.id row) /\
     IntegerField (ProductObj.api_id prod) = Ok (Some (Product.api_id row)) /\
     ((new_products = [] /\ Product_by_api_id st p_id = Some row) \/
      (new_products = [row] /\ Product_by_api_id st p_id = None /\
       Product.id row = fresh (map Product.id (products st)))) /\
     (forall l, In l (favorites st) ->
                ~ (FavoriteProducts.user l = auth
                   /\ FavoriteProducts.product l = Product.id row)) /\
     st' = mkStore (users st) (tokens st) (products st ++ new_products)
             (favorites st
              ++ [FavoriteProducts.mk (fresh (map FavoriteProducts.id (favorites st)))
                    now auth (Product.id row)]))
  \/ ((forall body, resp <> Reply 201 body) /\ st' = st).
Proof.
  intros C H. unfold add_favorite in H.
  destruct (Product_by_api_id st p_id) as [product|] eqn:Hfind.
  - unfold FavoriteProducts_create_for, FavoriteProducts_create in H.
    cbn [ProductObj_of_row ProductObj.pk] in H.
    destruct (existsb _ (favorites st)) eqn:Hex; injection H as <- <-.
    + right. split; [intros body; discriminate|reflexivity].
    + left. exists (ProductObj_of_row product), product, [].
      split; [reflexivity|]. split; [reflexivity|]. split; [reflexivity|].
      split; [left; split; reflexivity|]. split.
      * intros l Hl [Hu Hp].
        assert (Ht : existsb
                       (fun l => (FavoriteProducts.user l =? auth)
                                 && (FavoriteProducts.product l =? Product.id product))
                       (favorites st) = true).
        { apply existsb_exists. exists l. split; [assumption|].
          now rewrite Hu, Hp, !Z.eqb_refl. }
        congruence.
      * now rewrite app_nil_r.
  - destruct (client p_id) as [data|e] eqn:Hcl; cbn [bind] in H.
    2:{ destruct (add_favorite_catches e); injection H as <- <-;
        right; (split; [intros body; discriminate|reflexivity]). }
    destruct (create_product_from_api_data data now st) as [[prod st1]|e] eqn:Hcr.
    2:{ destruct (add_favorite_catches e); injection H as <- <-;
        right; (split; [intros body; discriminate|reflexivity]). }
    destruct (create_product_Ok _ _ _ _ _ Hcr)
      as (row & -> & Hid & Hpk & _ & _ & _ & Hapi & _).
    assert (Hnew : forall l, In l (favorites st) ->
                     ~ (FavoriteProducts.user l = auth
                        /\ FavoriteProducts.product l = Product.id row)).
    { intros l Hl [_ Hp].
      pose proof (favorite_product_fk st C) as Hfk. rewrite Forall_forall in Hfk.
      specialize (Hfk l Hl). rewrite Hp, Hid in Hfk.
      now apply fresh_not_in in Hfk. }
    unfold FavoriteProducts_create_for in H. rewrite Hpk in H.
    rewrite FavoriteProducts_create_new in H by exact Hnew.
    injection H as <- <-. left. exists prod, row, [row].
    split; [reflexivity|]. split; [assumption|]. split; [assumption|].
    split; [right; repeat split; assumption|].
    split; [exact Hnew|reflexivity].
Qed.

Lemma filter_all_in {A : Type} (f : A -> bool) (l : list A) :
  (forall x, In x l -> f x = true) -> filter f l = l.
Proof.
  induction l as [|a l IH]; simpl; intros H; [reflexivity|].
  rewrite (H a (or_introl eq_refl)), IH; [reflexivity|].
  intros x Hx. apply H. now right.
Qed.

Lemma filter_filter_weaker {A : Type} (f g : A -> bool) (l : list A) :
  (forall x, In x l -> f x = true -> g x = true) ->
  filter f (filter g l) = filter f l.
Proof.
  induction l as [|a l IH]; simpl; intros H; [reflexivity|].
  assert (IH' : filter f (filter g l) = filter f l).
  { apply IH. intros x Hx. apply H. now right. }
  destruct (g a) eqn:Hg; simpl.
  - now rewrite IH'.
  - destruct (f a) eqn:Hf; [|assumption].
    rewrite (H a (or_introl eq_refl) Hf) in Hg. discriminate.
Qed.

Lemma no_link_not_favorite (st : Store) (auth : Z) (prod : Product.t) :
  (forall l, In l (favorites st) ->
             ~ (FavoriteProducts.user l = auth
                /\ FavoriteProducts.product l = Product.id prod)) ->
  ~ In prod (get_favorites auth st).
Proof.
  intros Hnew Hin. unfold get_favorites in Hin.
  apply (Permutation_in _ (order_by_date_created_perm _)) in Hin.
  apply favorited_by_In in Hin. destruct Hin as [_ (l & Hl & Hu & Hp)].
  now apply (Hnew l Hl).
Qed.

(** X12. What [add_favorite] does to the store, under the constraints and
    for a user that exists: users and tokens are never touched and no
    product is removed; a 201 puts the row of the product of the reply,
    which was not among the user's favorites, into them, and the list grows
    by exactly one; any other reply leaves the whole store as it was. *)
Theorem add_favorite_effect (client : Z -> result pyval) (now auth p_id : Z)
  (st st' : Store) (resp : Response) :
  constraints st ->
  In auth (map User.id (users st)) ->
  add_favorite client now auth p_id st = (resp, st') ->
  users st' = users st /\ tokens st' = tokens st /\
  (forall q, In q (products st) -> In q (products st')) /\
  (forall prod, resp = Reply 201 (ProductOut prod) ->
     exists row,
       ProductObj.pk prod = Some (Product.id row) /\
       ~ In row (get_favorites auth st) /\
       In row (get_favorites auth st') /\
       List.length (get_favorites auth st')
       = S (List.length (get_favorites auth st))) /\
  ((forall body, resp <> Reply 201 body) -> st' = st).
Proof.
  intros C Hauth H.
  pose proof (add_favorite_constraints _ _ _ _ _ _ _ C Hauth H) as C'.
  destruct (add_favorite_cases _ _ _ _ _ _ _ C H)
    as [(prod & row & new_products & -> & Hpk & _ & Hprod & Hnew & Hst)|[Hresp ->]].
  2:{ split; [reflexivity|]. split; [reflexivity|].
      split; [intros q Hq; exact Hq|]. split; [|intros _; reflexivity].
      intros prod ->. now destruct (Hresp (ProductOut prod)). }
  split; [now rewrite Hst|]. split; [now rewrite Hst|]. split.
  { intros q Hq. rewrite Hst. simpl. apply in_or_app. now left. }
  split; [|intros Hno; now destruct (Hno (ProductOut prod))].
  intros prod' Heq. injection Heq as <-. exists row.
  split; [assumption|].
  split; [now apply no_link_not_favorite|]. split.
  - unfold get_favorites.
    apply (Permutation_in _ (Permutation_sym (order_by_date_created_perm _))).
    apply favorited_by_In. split.
    + rewrite Hst. simpl. apply in_or_app.
      destruct Hprod as [[-> Hfind]|(-> & _ & _)].
      * left. now apply Product_by_api_id_Some in Hfind.
      * right. now left.
    + exists (FavoriteProducts.mk (fresh (map FavoriteProducts.id (favorites st)))
                now auth (Product.id row)).
      rewrite Hst. simpl. split; [|split; reflexivity].
      apply in_or_app. right. now left.
  - rewrite (get_favorites_length auth st' C'), (get_favorites_length auth st C).
    rewrite Hst. simpl. rewrite filter_app, length_app. simpl.
    rewrite Z.eqb_refl. simpl. now rewrite Nat.add_1_r.
Qed.

(** X13. The favorites of one user are out of reach of another: whatever
    [add_favorite] or [delete_favorite] does for [auth], the list that
    [get_favorites] gives any other user stays the same. *)
Theorem favorites_of_others_untouched (auth other : Z) (st : Store) :
  constraints st ->
  other <> auth ->
  (forall client now p_id,
     get_favorites other (snd (add_favorite client now auth p_id st))
     = get_favorites other st) /\
  (forall p_id,
     get_favorites other (snd (delete_favorite auth p_id st))
     = get_favorites other st).
Proof.
  intros C Hother.
  assert (Hb : (auth =? other) = false) by (apply Z.eqb_neq; congruence).
  split.
  - intros client now p_id.
    destruct (add_favorite client now auth p_id st) as [resp st'] eqn:H.
    destruct (add_favorite_cases _ _ _ _ _ _ _ C H)
      as [(o & prod & new_products & _ & _ & _ & Hprod & _ & ->)|[_ ->]];
      [|reflexivity].
    simpl. unfold get_favorites, favorited_by. simpl. f_equal.
    rewrite flat_map_app.
    assert (Hold : forall p : Product.t,
              filter (fun l => (FavoriteProducts.product l =? Product.id p)
                               && (FavoriteProducts.user l =? other))
                (favorites st
                 ++ [FavoriteProducts.mk (fresh (map FavoriteProducts.id (favorites st)))
                       now auth (Product.id prod)])
              = filter (fun l => (FavoriteProducts.product l =? Product.id p)
                                 && (FavoriteProducts.user l =? other))
                  (favorites st)).
    { intros p. rewrite filter_app. simpl. rewrite Hb, andb_false_r.
      now rewrite app_nil_r. }
    rewrite (flat_map_ext_in _
               (fun p => map (fun _ : FavoriteProducts.t => p)
                  (filter (fun l => (FavoriteProducts.product l =? Product.id p)
                                    && (FavoriteProducts.user l =? other))
                     (favorites st))) (products st))
      by (intros p _; now rewrite Hold).
    destruct Hprod as [[-> _]|(-> & _ & Hid)]; simpl; [now rewrite app_nil_r|].
    rewrite Hold, app_nil_r.
    rewrite (filter_nil_in _ (favorites st)); [simpl; now rewrite app_nil_r|].
    intros l Hl.
    pose proof (favorite_product_fk st C) as Hfk. rewrite Forall_forall in Hfk.
    specialize (Hfk l Hl).
    destruct (FavoriteProducts.product l =? Product.id prod) eqn:Hp; [|reflexivity].
    apply Z.eqb_eq in Hp. rewrite Hp, Hid in Hfk. now apply fresh_not_in in Hfk.
  - intros p_id. unfold delete_favorite.
    destruct (favorite_of st auth p_id) as [l0|] eqn:Hfav; [|reflexivity].
    apply favorite_of_Some in Hfav. destruct Hfav as (Hl0 & Hu0 & _).
    simpl. unfold get_favorites, favorited_by. simpl. f_equal.
    apply flat_map_ext_in. intros p _. f_equal.
    apply filter_filter_weaker. intros l Hl Hf.
    apply andb_true_iff in Hf. destruct Hf as [_ Hu]. apply Z.eqb_eq in Hu.
    apply negb_true_iff. apply Z.eqb_neq. intros Hid.
    assert (l = l0)
      by (apply (NoDup_map_eq FavoriteProducts.id (favorites st));
          [apply (favorite_pk st C)|assumption|assumption|assumption]).
    subst l. congruence.
Qed.

(** X14. [delete_favorite] undoes [add_favorite], up to the product that
    the add may have fetched: after a 201 for a product that carries the
    requested catalog id, the delete of the same id by the same user
    answers 204 and gives back the favorites table, the users and the
    tokens of before the add; the product table is the one after the add. *)
Theorem add_then_delete_favorite (client : Z -> result pyval) (now auth p_id : Z)
  (st st1 : Store) (prod : ProductObj.t) :
  constraints st ->
  In auth (map User.id (users st)) ->
  add_favorite client now auth p_id st = (Reply 201 (ProductOut prod), st1) ->
  IntegerField (ProductObj.api_id prod) = Ok (Some p_id) ->
  delete_favorite auth p_id st1
  = (Reply 204 NoContent,
     mkStore (users st) (tokens st) (products st1) (favorites st)).
Proof.
  intros C Hauth H Hapi.
  pose proof (add_favorite_constraints _ _ _ _ _ _ _ C Hauth H) as C1.
  destruct (add_favorite_cases _ _ _ _ _ _ _ C H)
    as [(prod' & row & new_products & Heq & _ & Hrapi & Hprod & Hnew & Hst)
       |[Hresp _]].
  2:{ now destruct (Hresp (ProductOut prod)). }
  injection Heq as <-.
  assert (Hrow : Product.api_id row = p_id) by congruence.
  set (new := FavoriteProducts.mk (fresh (map FavoriteProducts.id (favorites st)))
                now auth (Product.id row)) in *.
  assert (Hin : In row (products st1)).
  { rewrite Hst. simpl. apply in_or_app.
    destruct Hprod as [[-> Hfind]|(-> & _ & _)].
    - left. now apply Product_by_api_id_Some in Hfind.
    - right. now left. }
  assert (Hnewin : In new (favorites st1)).
  { rewrite Hst. simpl. apply in_or_app. right. now left. }
  unfold delete_favorite.
  destruct (favorite_of st1 auth p_id) as [l|] eqn:Hfav.
  2:{ apply favorite_of_None in Hfav. exfalso. apply Hfav.
      exists new, row. repeat split; assumption. }
  apply favorite_of_Some in Hfav.
  destruct Hfav as (Hl & Hu & q & Hq & Hlq & Hqapi).
  assert (l = new).
  { apply (link_unique st1 auth p_id l new q row); try assumption; reflexivity. }
  subst l. f_equal. rewrite Hst. simpl. f_equal.
  rewrite filter_app. simpl. rewrite Z.eqb_refl. simpl. rewrite app_nil_r.
  apply filter_all_in. intros x Hx. apply negb_true_iff. apply Z.eqb_neq.
  intros Hid. apply (fresh_not_in (map FavoriteProducts.id (favorites st))).
  rewrite <- Hid. now apply in_map.
Qed.

(** X15. Asking twice is refused the second time: after a 201 for a
    product that carries the requested catalog id, the same request by the
    same user answers 400 "already on user's favorites" and changes
    nothing, whatever the catalog would answer now. *)
Theorem add_favorite_again (client : Z -> result pyval) (now auth p_id : Z)
  (st st1 : Store) (prod : ProductObj.t) :
  constraints st ->
  add_favorite client now auth p_id st = (Reply 201 (ProductOut prod), st1) ->
  IntegerField (ProductObj.api_id prod) = Ok (Some p_id) ->
  forall client' now',
    add_favorite client' now' auth p_id st1
    = (Reply 400 (ErrorDict already_favorited), st1).
Proof.
  intros C H Hapi client' now'.
  destruct (add_favorite_cases _ _ _ _ _ _ _ C H)
    as [(prod' & row & new_products & Heq & _ & Hrapi & Hprod & Hnew & Hst)
       |[Hresp _]].
  2:{ now destruct (Hresp (ProductOut prod)). }
  injection Heq as <-.
  assert (Hrow : Product.api_id row = p_id) by congruence.
  apply (add_favorite_duplicate client' now' auth p_id st1 row
           (FavoriteProducts.mk (fresh (map FavoriteProducts.id (favorites st)))
              now auth (Product.id row))).
  - rewrite Hst. unfold Product_by_api_id. simpl.
    destruct Hprod as [[-> Hfind]|(-> & Hfind & _)].
    + now rewrite app_nil_r.
    + unfold Product_by_api_id in Hfind. rewrite (find_app_None _ _ _ Hfind).
      now rewrite Hrow, Z.eqb_refl.
  - rewrite Hst. simpl. apply in_or_app. right. now left.
  - reflexivity.
  - reflexivity.
Qed.

(** X16. A catalog answer that is an object without one of the six
    required keys is answered 400 "could not be fetched" with the store
    unchanged, as long as its price, when it has one, is a numeral: the
    lookup raises the [KeyError] that the handler catches. *)
Theorem add_favorite_missing_key (client : Z -> result pyval) (now auth p_id : Z)
  (st : Store) (kvs : list (string * pyval)) (k : string) :
  Product_by_api_id st p_id = None ->
  client p_id = Ok (PyDict kvs) ->
  In k ["id"%string; "title"%string; "price"%string; "description"%string;
        "category"%string; "image"%string] ->
  dict_get kvs k = None ->
  (forall v, dict_get kvs "price" = Some v -> exists d, Decimal_str v = Ok d) ->
  add_favorite client now auth p_id st
  = (Reply 400 (ErrorDict product_not_fetched), st).
Proof.
  intros Hfind Hcl Hk Hmiss Hprice.
  apply (add_favorite_raises client now auth p_id st KeyError Hfind).
  rewrite Hcl. cbn [bind]. unfold create_product_from_api_data, getitem.
  destruct (dict_get kvs "id") as [vid|] eqn:Hid; [|reflexivity]. cbn [bind].
  destruct (dict_get kvs "title") as [vt|] eqn:Ht; [|reflexivity]. cbn [bind].
  destruct (dict_get kvs "price") as [vp|] eqn:Hp; [|reflexivity]. cbn [bind].
  destruct (Hprice vp eq_refl) as [d ->]. cbn [bind].
  destruct (dict_get kvs "description") as [vd|] eqn:Hd; [|reflexivity]. cbn [bind].
  destruct (dict_get kvs "category") as [vc|] eqn:Hc; [|reflexivity]. cbn [bind].
  destruct (dict_get kvs "image") as [vi|] eqn:Hi; [|reflexivity]. exfalso.
  simpl in Hk.
  destruct Hk as [<-|[<-|[<-|[<-|[<-|[<-|[]]]]]]]; congruence.
Qed.


(** X17. The schema constraints are an invariant of every writing
    operation: [add_favorite] (for a user that exists), [delete_favorite],
    [update_user], [delete_user] and the sync job lead from a store that
    satisfies them to one that does, whatever they answer. *)
Theorem writes_keep_constraints (st : Store) :
  constraints st ->
  (forall client now auth p_id,
     In auth (map User.id (users st)) ->
     constraints (snd (add_favorite client now auth p_id st))) /\
  (forall auth p_id, constraints (snd (delete_favorite auth p_id st))) /\
  (forall salt user_id payload, constraints (snd (update_user salt user_id payload st))) /\
  (forall user_id, constraints (snd (delete_user user_id st))) /\
  (forall response, constraints (fst (handle response st))).
Proof.
  intros C. split; [|split; [|split; [|split]]].
  - intros client now auth p_id Hauth.
    destruct (add_favorite client now auth p_id st) as [resp st'] eqn:H.
    exact (add_favorite_constraints _ _ _ _ _ _ _ C Hauth H).
  - intros auth p_id.
    destruct (delete_favorite auth p_id st) as [resp st'] eqn:H.
    exact (delete_favorite_constraints _ _ _ _ _ C H).
  - intros salt user_id payload.
    destruct (update_user salt user_id payload st) as [resp st'] eqn:H.
    exact (update_user_constraints _ _ _ _ _ _ C H).
  - intros user_id.
    destruct (delete_user user_id st) as [resp st'] eqn:H.
    exact (delete_user_constraints _ _ _ _ C H).
  - intros response.
    destruct (handle response st) as [st' r] eqn:H.
    exact (handle_constraints _ _ _ _ C H).
Qed.

(** *** [create_product_from_api_data] and the catalog id *)

Ltac parse_step :=
  match goal with
  | |- context [bind ?r _] =>
      lazymatch r with
      | bind _ _ => fail
      | _ => let e := fresh "e" in
             destruct r as [?|e]; cbn [bind]; [|exists (Raise e); reflexivity]
      end
  | |- context [if ?c then _ else _] => is_var c; destruct c; cbn [bind]
  end.

(** The function reads the item first and saves second: what it reads does
    not depend on the store or on the time. *)
Lemma create_product_factor (data : pyval) :
  exists r : result (pyval * pyval * Decimal * pyval * pyval * pyval
                     * option Decimal * pyval),
    forall now st,
      create_product_from_api_data data now st
      = (x <- r ;;
         let '(a, t, p, d, c, i, rr, rc) := x in
         Product_save (ProductObj.mk None now a t p d c i rr rc) now st).
Proof.
  unfold create_product_from_api_data.
  repeat parse_step;
    (eexists (Ok (_, _, _, _, _, _, _, _)); intros now st; reflexivity).
Qed.

(** What the function reads does not change, so a second creation from
    the same data runs into the row of the first. *)
Lemma create_product_again (data : pyval) (now : Z) (st st1 : Store)
  (prod : ProductObj.t) (a : Z) :
  create_product_from_api_data data now st = Ok (prod, st1) ->
  IntegerField (ProductObj.api_id prod) = Ok (Some a) ->
  forall now' st',
    In a (map Product.api_id (products st')) ->
    create_product_from_api_data data now' st' = Raise IntegrityError.
Proof.
  intros H Ha now' st' Hin.
  destruct (create_product_factor data) as [r Hr].
  rewrite Hr in H. rewrite Hr. clear Hr.
  destruct r as [[[[[[[[v t] p] d] c] i] rr] rc]|e]; [|discriminate].
  cbn [bind] in H |- *. unfold Product_save, Product_row in H |- *.
  cbn [ProductObj.api_id ProductObj.rating_count ProductObj.title
       ProductObj.description ProductObj.category ProductObj.image ProductObj.pk
       ProductObj.price ProductObj.rating_rate] in H |- *.
  destruct (IntegerField v) as [api|] eqn:Hv; cbn [bind] in H |- *;
    [|discriminate].
  destruct (DecimalField 10 2 p) as [price|]; cbn [bind] in H |- *;
    [|discriminate].
  destruct (DecimalField_null 3 1 rr) as [rate|]; cbn [bind] in H |- *;
    [|discriminate].
  destruct (IntegerField rc) as [cnt|]; cbn [bind] in H |- *; [|discriminate].
  destruct (negb (integer_in_range api && integer_in_range cnt));
    [discriminate|].
  destruct api as [z|]; [|discriminate].
  destruct (CharField t), (CharField d), (CharField c), (CharField i);
    try discriminate.
  cbn [bind Product.api_id] in H |- *.
  destruct (existsb _ (products st)); [discriminate|].
  injection H as <- _. cbn [saved_as ProductObj.api_id] in Ha.
  rewrite Hv in Ha. injection Ha as <-.
  assert (Hex : existsb (fun q => Product.api_id q =? z) (products st') = true).
  { apply in_map_iff in Hin. destruct Hin as (q & Hq & Hin).
    apply existsb_exists. exists q. split; [assumption|]. now apply Z.eqb_eq. }
  now rewrite Hex.
Qed.

(** X18. [add_favorite] does not compare the id of the fetched item with
    the id it asked for.  When the catalog answers a request for [p_id]
    with an item of another id from which a product can be created, the
    reply is 201 with that product, stored under the other id; the same
    request made again fetches again, and the second creation ends in an
    unhandled [IntegrityError] with nothing changed. *)
Theorem add_favorite_other_catalog_id (client : Z -> result pyval)
  (now auth p_id : Z) (st st1 : Store) (data : pyval) (prod : ProductObj.t) :
  constraints st ->
  Product_by_api_id st p_id = None ->
  client p_id = Ok data ->
  create_product_from_api_data data now st = Ok (prod, st1) ->
  IntegerField (ProductObj.api_id prod) <> Ok (Some p_id) ->
  exists st2,
    add_favorite client now auth p_id st = (Reply 201 (ProductOut prod), st2) /\
    (exists row, In row (products st2) /\
                 ProductObj.pk prod = Some (Product.id row) /\
                 Product.api_id row <> p_id) /\
    forall now',
      add_favorite client now' auth p_id st2 = (Unhandled IntegrityError, st2).
Proof.
  intros C Hfind Hcl Hcr Hapi.
  destruct (create_product_Ok _ _ _ _ _ Hcr)
    as (row & Hst & Hid & Hpk & _ & _ & _ & Hrapi & _).
  assert (Hrow : Product.api_id row <> p_id) by congruence.
  assert (Hnew : forall l, In l (favorites st1) ->
                   ~ (FavoriteProducts.user l = auth
                      /\ FavoriteProducts.product l = Product.id row)).
  { rewrite Hst. simpl. intros l Hl [_ Hp].
    pose proof (favorite_product_fk st C) as Hfk. rewrite Forall_forall in Hfk.
    specialize (Hfk l Hl). rewrite Hp, Hid in Hfk.
    now apply fresh_not_in in Hfk. }
  eexists.
  split; [exact (add_favorite_fetched _ _ _ _ _ _ _ _ _ Hfind Hcl Hcr Hpk Hnew)|].
  rewrite Hst. simpl. split.
  { exists row. split; [apply in_or_app; right; now left|]. now split. }
  intros now'.
  match goal with
  | |- add_favorite _ _ _ _ ?s = _ =>
      apply (add_favorite_raises client now' auth p_id s IntegrityError)
  end.
  - unfold Product_by_api_id in Hfind |- *. simpl.
    rewrite (find_app_None _ _ _ Hfind).
    assert (Hb : (Product.api_id row =? p_id) = false) by now apply Z.eqb_neq.
    now rewrite Hb.
  - rewrite Hcl. cbn [bind].
    apply (create_product_again _ _ _ _ _ (Product.api_id row) Hcr Hrapi).
    simpl. rewrite map_app. apply in_or_app. right. now left.
Qed.

(** *** The sync job: what a run reports and what it leaves alone *)

Lemma sync_product_frame (product_data : pyval) (st st' : Store) (b : bool) :
  sync_product product_data st = Ok (st', b) ->
  users st' = users st /\ tokens st' = tokens st /\ favorites st' = favorites st /\
  List.length (products st') = List.length (products st) /\
  (b = false -> st' = st).
Proof.
  intros H. unfold sync_product in H.
  unbind H as v Hid. unbind H as found Hget.
  destruct found as [local|].
  2:{ injection H as <- <-. repeat split; reflexivity. }
  unbind H as changed Hch. destruct changed.
  2:{ injection H as <- <-. repeat split; reflexivity. }
  unbind H as o Ho. unbind H as saved Hsave. destruct saved as [inst st1].
  injection H as <- <-. simpl.
  destruct (update_branch_Ok _ _ _ _ _ _ Ho Hsave) as (row & -> & _). simpl.
  unfold replace_product. rewrite length_map.
  repeat split; try reflexivity. discriminate.
Qed.

Lemma sync_loop_report (api_products : list pyval) :
  forall (st st' : Store) (updated skipped : nat) (r : result (nat * nat)),
  sync_loop api_products st updated skipped = (st', r) ->
  users st' = users st /\ tokens st' = tokens st /\ favorites st' = favorites st /\
  List.length (products st') = List.length (products st) /\
  (forall u s, r = Ok (u, s) ->
     Nat.add u s = Nat.add (Nat.add updated skipped) (List.length api_products) /\
     Nat.le updated u /\ (u = updated -> st' = st)).
Proof.
  induction api_products as [|product_data rest IH];
    intros st st' updated skipped r H; cbn [sync_loop] in H.
  - injection H as <- <-. repeat split; try reflexivity.
    + injection H as <- <-. simpl. lia.
    + injection H as <- <-. apply Nat.le_refl.
  - destruct (sync_product product_data st) as [[st1 b]|e] eqn:Hstep.
    2:{ injection H as <- <-. repeat split; try reflexivity; discriminate. }
    destruct (sync_product_frame _ _ _ _ Hstep) as (Hu & Ht & Hf & Hlen & Hsame).
    destruct b; apply IH in H; destruct H as (Hu' & Ht' & Hf' & Hlen' & Hr);
      (split; [congruence|]); (split; [congruence|]); (split; [congruence|]);
      (split; [congruence|]); intros u s Heq;
      destruct (Hr u s Heq) as (Hsum & Hle & Hst); simpl.
    + split; [cbn [List.length]; lia|].
      split; [unfold Nat.le in Hle |- *; lia|]. intros ->. unfold Nat.le in Hle. lia.
    + split; [cbn [List.length]; lia|]. split; [assumption|].
      intros Hu0. rewrite (Hst Hu0). now apply Hsame.
Qed.

(** X19. What a run of the sync job reports and what it leaves alone.
    Users, tokens and favorite links are never touched and the product
    table keeps its length.  A report "complete" means the answer was
    iterable and the two counters add up to the number of its items; with
    no item counted as updated the store is exactly as before.  The report
    "failed to fetch" is given for a [RequestException] and for nothing
    else, and any exception of the request leaves the store as it was. *)
Theorem handle_report (response : result pyval) (st st' : Store)
  (r : result SyncReport) :
  handle response st = (st', r) ->
  users st' = users st /\ tokens st' = tokens st /\ favorites st' = favorites st /\
  List.length (products st') = List.length (products st) /\
  (forall u s, r = Ok (SyncComplete u s) ->
     (exists v items,
        response = Ok v /\ iterate v = Ok items /\
        Nat.add u s = List.length items) /\
     (u = 0%nat -> st' = st)) /\
  (r = Ok FetchFailed <-> response = Raise RequestException) /\
  (forall e, response = Raise e -> st' = st).
Proof.
  intros H. unfold handle in H.
  destruct response as [v|e].
  2:{ destruct e; injection H as <- <-;
        (repeat split; try reflexivity; try discriminate; try congruence). }
  destruct (iterate v) as [items|e] eqn:Hit.
  2:{ injection H as <- <-.
      repeat split; try reflexivity; try discriminate; try congruence. }
  destruct (sync_loop items st 0 0) as [st1 r1] eqn:Hloop.
  destruct (sync_loop_report _ _ _ _ _ _ Hloop) as (Hu & Ht & Hf & Hlen & Hr).
  destruct r1 as [[u s]|e]; injection H as <- <-.
  - split; [assumption|]. split; [assumption|]. split; [assumption|].
    split; [assumption|]. split.
    + intros u' s' Heq. injection Heq as <- <-.
      destruct (Hr u s eq_refl) as (Hsum & _ & Hst). split.
      * exists v, items. split; [reflexivity|]. split; [assumption|]. exact Hsum.
      * exact Hst.
    + split; [split; discriminate|discriminate].
  - split; [assumption|]. split; [assumption|]. split; [assumption|].
    split; [assumption|]. split; [discriminate|].
    split; [split; discriminate|discriminate].
Qed.

Lemma find_replace_product (row local : Product.t) (a : Z) (l : list Product.t) :
  NoDup (map Product.id l) ->
  Product.id row = Product.id local -> Product.api_id row = Product.api_id local ->
  find (fun p => Product.api_id p =? a) l = Some local ->
  find (fun p => Product.api_id p =? a) (replace_product row l) = Some row.
Proof.
  intros Hnd Hid Hapi. unfold replace_product.
  induction l as [|p l IH]; simpl; intros Hfind; [discriminate|].
  inversion Hnd as [|x xs Hnotin Hnd']; subst.
  destruct (Product.api_id p =? a) eqn:Hpa.
  - injection Hfind as ->. rewrite Hid, Z.eqb_refl, Hapi. now rewrite Hpa.
  - destruct (Product.id p =? Product.id row) eqn:Hpid.
    + exfalso. apply Hnotin. apply Z.eqb_eq in Hpid. rewrite Hpid, Hid.
      apply in_map. now apply find_some in Hfind.
    + rewrite Hpa. now apply IH.
Qed.

(** A decimal with no more places than the column has is kept by value. *)
Lemma DecimalField_keeps (max_digits decimal_places m e : Z) (d : Decimal) :
  - decimal_places <= e ->
  DecimalField max_digits decimal_places (Dfin m e) = Ok d ->
  Decimal_eq d (Dfin m e) = true.
Proof.
  intros He H. unfold DecimalField, quantize in H.
  assert (Hle : (- decimal_places <=? e) = true) by now apply Z.leb_le.
  rewrite Hle in H.
  destruct (Z.abs (m * 10 ^ (e + decimal_places)) <? 10 ^ max_digits);
    [|discriminate].
  injection H as <-. unfold Decimal_eq.
  rewrite Z.min_l by assumption. rewrite Z.sub_diag, Z.pow_0_r, Z.mul_1_r.
  replace (e - - decimal_places) with (e + decimal_places) by lia.
  apply Z.eqb_refl.
Qed.

(** X20. The sync job settles: once a turn has written an item over its
    local product, the same item finds nothing to change and is skipped
    with the store as it is, when the item's four texts are JSON strings
    and its price is a finite decimal with at most two decimal places,
    which is what the [price] column keeps as it is.  (A NaN differs from
    itself, so an item with such a price would be written at every run.) *)
Theorem sync_product_settles (product_data : pyval) (st st' : Store) :
  constraints st ->
  sync_product product_data st = Ok (st', true) ->
  (forall k, In k ["title"%string; "description"%string; "category"%string;
                   "image"%string] ->
             exists s, getitem product_data k = Ok (PyStr s)) ->
  (forall v, getitem product_data "price" = Ok v ->
             exists m e, Decimal_str v = Ok (Dfin m e) /\ -2 <= e) ->
  sync_product product_data st' = Ok (st', false).
Proof.
  intros C H Hstr Hfin. unfold sync_product in H.
  unbind H as v Hid. unbind H as found Hget.
  destruct found as [local|]; [|discriminate].
  unbind H as changed Hch. destruct changed; [|discriminate].
  unbind H as o Ho. unbind H as saved Hsave. destruct saved as [inst st1].
  cbn [snd] in H. injection H as <-.
  destruct (update_branch_Ok _ _ _ _ _ _ Ho Hsave) as (row & Hst & Hov).
  destruct Hov as (Hrid & Hrapi & _ & (t & Ht & Hct) & (pv & pr & Hpv & Hpr & Hcol)
                   & (d & Hd & Hcd) & (c & Hc & Hcc) & (i & Hi & Hci) & _).
  destruct (Hstr "title"%string) as [ts Hts]; [now left|].
  destruct (Hstr "description"%string) as [ds Hds]; [right; now left|].
  destruct (Hstr "category"%string) as [cs Hcs]; [right; right; now left|].
  destruct (Hstr "image"%string) as [ims Hims]; [right; right; right; now left|].
  rewrite Hts in Ht. injection Ht as <-.
  rewrite Hds in Hd. injection Hd as <-.
  rewrite Hcs in Hc. injection Hc as <-.
  rewrite Hims in Hi. injection Hi as <-.
  simpl in Hct, Hcd, Hcc, Hci.
  injection Hct as Hct. injection Hcd as Hcd. injection Hcc as Hcc.
  injection Hci as Hci.
  unfold sync_product. rewrite Hid. cbn [bind].
  assert (Hget' : Product_get st1 v = Ok (Some row)).
  { unfold Product_get in Hget |- *. unbind Hget as key Hkey.
    rewrite Hkey. cbn [bind]. destruct key as [a|]; [|discriminate].
    injection Hget as Hget. f_equal. rewrite Hst.
    unfold Product_by_api_id in Hget |- *. simpl.
    apply (find_replace_product row local a); try assumption.
    apply (product_pk st C). }
  rewrite Hget'. cbn [bind].
  rewrite (has_changes_five row product_data (PyStr ts) pv (PyStr ds) (PyStr cs)
             (PyStr ims) pr Hts Hpv Hpr Hds Hcs Hims).
  cbn [str_ne]. rewrite <- Hct, <- Hcd, <- Hcc, <- Hci, !String.eqb_refl.
  destruct (Hfin pv Hpv) as (m & e & Hme & He). rewrite Hpr in Hme.
  injection Hme as ->. unfold Decimal_ne.
  rewrite (DecimalField_keeps 10 2 m e (Product.price row) He Hcol). reflexivity.
Qed.

(** *** Walking the pages *)










End Runtime.

(* ------------------------------------------------------------------ *)
(** ** The properties on sample requests *)

(** C9 on a sample: deleting Carol from the shop. *)
Lemma delete_user_cascades_witness :
  (exists u, In u (users shop) /\ User.id u = 3) /\
  fst (delete_user 3 shop) = Reply 204 NoContent /\
  products (snd (delete_user 3 shop)) = products shop /\
  (forall l, In l (favorites (snd (delete_user 3 shop))) <->
             In l (favorites shop) /\ FavoriteProducts.user l <> 3).
Proof.
  assert (Hex : exists u, In u (users shop) /\ User.id u = 3).
  { exists carol. simpl. auto. }
  split; [exact Hex|].
  destruct (delete_user_cascades 3 shop (snd (delete_user 3 shop))
              (fst (delete_user 3 shop)) eq_refl) as [H _].
  destruct (H Hex) as (H1 & _ & _ & H4 & H5).
  split; [exact H1|]. split; [exact H5|exact H4].
Defined.

(** C6 on a sample: Carol removes the T-shirt (catalog id 2). *)
Lemma delete_favorite_removes_link_witness :
  check_constraints shop = true /\
  linked shop 3 2 /\
  fst (delete_favorite 3 2 shop) = Reply 204 NoContent /\
  ~ linked (snd (delete_favorite 3 2 shop)) 3 2.
Proof.
  assert (Hl : linked shop 3 2).
  { exists (FavoriteProducts.mk 3 300 3 2), tshirt. simpl. auto 10. }
  split; [reflexivity|]. split; [exact Hl|].
  destruct (delete_favorite_removes_link 3 2 shop (snd (delete_favorite 3 2 shop))
              (fst (delete_favorite 3 2 shop))
              (check_constraints_sound shop eq_refl) eq_refl) as [_ H].
  destruct (H Hl) as (H1 & H2 & _).
  split; [exact H1|exact H2].
Defined.

(** C3 on a sample: Carol's list in the shop. *)
Lemma get_favorites_by_product_creation_witness :
  check_constraints shop = true /\
  NoDup (get_favorites 3 shop) /\
  StronglySorted by_date_created (get_favorites 3 shop).
Proof.
  split; [reflexivity|].
  destruct (get_favorites_by_product_creation 3 shop
              (check_constraints_sound shop eq_refl)) as (_ & H2 & _ & H4).
  split; [exact H2|exact H4].
Defined.

(** C3, the claim as stated, fails: Bob favorites catalog ids 1 and 2, which
    creates the two products in that order; Carol then favorites 2 first
    and 1 afterwards.  Her list comes back as 1, 2, the order in which the
    products were created, not 2, 1, the order in which she favorited them. *)
Lemma favorites_not_in_favoriting_order :
  let add := add_favorite demo_int_of_string demo_Decimal_of_string demo_py_str catalog in
  let s1 := snd (add 100 2 1 people) in
  let s2 := snd (add 200 2 2 s1) in
  let s3 := snd (add 300 3 2 s2) in
  let s4 := snd (add 400 3 1 s3) in
  map Product.api_id (get_favorites 3 s4) = [1; 2] /\
  map Product.api_id (favorites_in_link_order 3 s4) = [2; 1] /\
  get_favorites 3 s4 <> favorites_in_link_order 3 s4.
Proof.
  split; [reflexivity|]. split; [reflexivity|].
  intros H. apply (f_equal (map Product.api_id)) in H. discriminate H.
Qed.



(** C2 on a sample: Bob's name is changed in a request that repeats his
    own email; no other user has that email, and the answer is the 400. *)
Lemma update_user_rejects_own_email_witness :
  User_get people 2 = Some bob /\
  filter (fun u => String.eqb (User.email u) "bob@test.com") (users people) = [bob] /\
  update_user demo_make_password "s1" 2
    (UserSchemaUpdate.mk (Some (Some "Robert"%string))
       (Some (Some "bob@test.com"%string)) None) people
  = (Reply 400 (Message EmailInUse), people).
Proof.
  split; [reflexivity|]. split; [reflexivity|].
  apply (update_user_rejects_own_email demo_make_password "s1" 2 _ people bob);
    reflexivity.
Defined.

(** C8 on a sample: a payload with only a name. *)
Lemma update_user_partial_witness :
  check_constraints people = true /\
  User_get people 2 = Some bob /\
  fst (update_user demo_make_password "s1" 2
         (UserSchemaUpdate.mk (Some (Some "Robert"%string)) None None) people)
  = Reply 200 (UserOut (User.mk 2 "Robert" "bob@test.com"
                          "pbkdf2_sha256$s0$bob-secret" CUSTOMER)).
Proof.
  split; [reflexivity|]. split; [reflexivity|].
  destruct (update_user_partial demo_make_password "s1" 2
              (UserSchemaUpdate.mk (Some (Some "Robert"%string)) None None)
              people _ _ eq_refl) as (_ & H & _).
  exact (H bob "Robert"%string (check_constraints_sound people eq_refl)
           eq_refl eq_refl).
Defined.

(** C8, the claim as stated, fails: a payload whose password is the empty
    string is accepted with 200 and the stored password stays the old
    hash; the hash of the supplied password is not stored. *)
Lemma update_user_empty_password_kept :
  exists saved st',
    update_user demo_make_password "s1" 2
      (UserSchemaUpdate.mk None None (Some (Some ""%string))) people
    = (Reply 200 (UserOut saved), st') /\
    In saved (users st') /\
    User.password saved = User.password bob /\
    User.password saved <> demo_make_password "s1" "".
Proof.
  eexists. eexists. split; [reflexivity|]. simpl.
  split; [auto|]. split; [reflexivity|]. discriminate.
Qed.

(** C5 on a sample: Bob favorites catalog id 5, for which the catalog
    answers with an item whose price is null. *)
Lemma add_favorite_unhandled_payload_witness :
  Product_by_api_id people 5 = None /\
  add_favorite demo_int_of_string demo_Decimal_of_string demo_py_str
    (fun p_id => Ok (priceless_item p_id)) 500 2 5 people
  = (Unhandled InvalidOperation, people).
Proof.
  split; [reflexivity|].
  apply (add_favorite_unhandled_payload demo_int_of_string demo_Decimal_of_string
           demo_py_str (fun p_id => Ok (priceless_item p_id)) 500 2 5 people);
    reflexivity.
Defined.

(** C10 on a sample: an item rated 0 by 0 voters. *)
Lemma zero_rating_stored_as_null_witness :
  exists prod st',
    create_product_from_api_data demo_int_of_string demo_Decimal_of_string demo_py_str
      (catalog_item 7 "Mug" (PyFloat (Dfin 0 (-1))) (PyInt 0)) 500 people
    = Ok (prod, st') /\
    exists row,
      In row (products st') /\
      Product.rating_rate row = None /\ Product.rating_count row = None.
Proof.
  eexists. eexists. split; [reflexivity|].
  destruct (zero_rating_stored_as_null demo_int_of_string demo_Decimal_of_string
              demo_py_str (catalog_item 7 "Mug" (PyFloat (Dfin 0 (-1))) (PyInt 0))
              500 people _ _ eq_refl) as (row & H1 & _ & H2 & H3 & _).
  exists row. split; [exact H1|]. split.
  - destruct (H2 (PyFloat (Dfin 0 (-1))) eq_refl eq_refl) as [Hr _]. exact Hr.
  - destruct (H3 (PyInt 0) eq_refl eq_refl) as [Hc _]. exact Hc.
Defined.

(** C4 on a sample: Bob, then Carol, favorite catalog id 5. *)
Lemma favorite_twice_one_product_witness :
  let add := add_favorite demo_int_of_string demo_Decimal_of_string demo_py_str catalog in
  let s1 := snd (add 500 2 5 people) in
  let s2 := snd (add 600 3 5 s1) in
  check_constraints people = true /\
  Product_by_api_id people 5 = None /\
  exists prod row,
    ProductObj.pk prod = Some (Product.id row) /\
    fst (add 500 2 5 people) = Reply 201 (ProductOut prod) /\
    fst (add 600 3 5 s1) = Reply 201 (ProductOut (ProductObj_of_row row)) /\
    filter (fun q => Product.api_id q =? 5) (products s2) = [row] /\
    map FavoriteProducts.user
      (filter (fun l => FavoriteProducts.product l =? Product.id row) (favorites s2))
    = [2; 3].
Proof.
  intros add s1 s2. split; [reflexivity|]. split; [reflexivity|].
  eexists.
  apply (favorite_twice_one_product demo_int_of_string demo_Decimal_of_string
           demo_py_str catalog 500 600 2 3 5 people
           (catalog_item 5 "Backpack" (PyFloat (Dfin 39 (-1))) (PyInt 120))
           _ _
           (check_constraints_sound people eq_refl) eq_refl
           ltac:(discriminate) eq_refl eq_refl eq_refl
           (fst (add 500 2 5 people)) s1 (fst (add 600 3 5 s1)) s2
           eq_refl eq_refl).
Defined.

(** C1 on a sample: the catalog sends the backpack with a new rating and
    nothing else changed.  The rating fields of the local product differ
    from the item, yet the job leaves the store as it is and counts the
    item as skipped. *)
Lemma sync_ignores_rating_difference_witness :
  let item := catalog_item 1 "Backpack" (PyFloat (Dfin 21 (-1))) (PyInt 430) in
  Product_by_api_id shop 1 = Some backpack /\
  rating_field item "rate" = Some (PyFloat (Dfin 21 (-1))) /\
  Product.rating_rate backpack = Some (Dfin 39 (-1)) /\
  Decimal_ne (Dfin 39 (-1)) (Dfin 21 (-1)) = true /\
  handle demo_int_of_string demo_Decimal_of_string demo_py_str
    (Ok (PyList [item])) shop
  = (shop, Ok (SyncComplete 0 1)).
Proof.
  intros item. split; [reflexivity|]. split; [reflexivity|].
  split; [reflexivity|]. split; [reflexivity|].
  assert (Hdiff : rating_differs demo_int_of_string demo_Decimal_of_string
                    item backpack).
  { left. exists (PyFloat (Dfin 21 (-1))), (Dfin 21 (-1)).
    split; [reflexivity|]. split; [reflexivity|].
    intros r Hr. injection Hr as <-. reflexivity. }
  destruct (sync_ignores_rating_difference demo_int_of_string
              demo_Decimal_of_string demo_py_str shop item (PyInt 1) backpack
              (PyStr "Backpack") (PyFloat (Dfin 10995 (-2)))
              (PyStr "Your perfect pack for everyday use")
              (PyStr "men's clothing")
              (PyStr "https://fakestoreapi.com/img/81fPKd-2AYL.png")
              (Dfin 10995 (-2))
              eq_refl eq_refl eq_refl eq_refl eq_refl eq_refl eq_refl eq_refl
              eq_refl eq_refl eq_refl eq_refl eq_refl Hdiff) as (_ & _ & H).
  exact H.
Defined.

(* ------------------------------------------------------------------ *)
(** ** The further properties on sample requests *)

(** X1 on a sample: the three keys of [people]. *)
Lemma ApiKey_authenticate_owner_witness :
  check_constraints people = true /\
  unique_keys people /\
  ApiKey_authenticate people "key-dave" = Denied /\
  (exists u, In u (users people) /\ User.id u = 2 /\
             ApiKey_authenticate people "key-bob" = Authenticated u).
Proof.
  assert (K : unique_keys people).
  { unfold unique_keys.
    apply (distinct_NoDup String.eqb); [apply String.eqb_eq|reflexivity]. }
  destruct (ApiKey_authenticate_owner people
              (check_constraints_sound people eq_refl) K) as (_ & H2 & H3 & _).
  split; [reflexivity|]. split; [exact K|]. split.
  - apply H3. simpl. intros [H|[H|[H|[]]]]; discriminate H.
  - apply (H2 (AuthToken.mk "key-bob" 2)). simpl. right. now left.
Defined.

(** X2 on a sample: Bob is a customer, Alice an admin. *)
Lemma AdminApiKey_authenticate_role_witness :
  ApiKey_authenticate shop "key-bob" = Authenticated bob /\
  AdminApiKey_authenticate shop "key-bob" = Denied /\
  AdminApiKey_authenticate shop "key-alice" = Authenticated alice.
Proof.
  split; [reflexivity|]. split.
  - destruct (AdminApiKey_authenticate_role shop "key-bob") as (_ & H & _).
    apply (H bob); reflexivity.
  - destruct (AdminApiKey_authenticate_role shop "key-alice") as (H & _).
    apply (H alice). split; reflexivity.
Defined.

(** X3 on a sample: Carol is deleted from the shop. *)
Lemma delete_user_revokes_keys_witness :
  fst (delete_user 3 shop) = Reply 204 NoContent /\
  ApiKey_authenticate shop "key-carol" = Authenticated carol /\
  (forall key u,
     ApiKey_authenticate (snd (delete_user 3 shop)) key = Authenticated u ->
     User.id u <> 3) /\
  ApiKey_authenticate (snd (delete_user 3 shop)) "key-bob" = Authenticated bob.
Proof.
  destruct (delete_user_revokes_keys 3 shop _ eq_refl) as [H1 H2].
  split; [reflexivity|]. split; [reflexivity|]. split; [exact H1|].
  apply H2; [reflexivity|discriminate].
Defined.

(** X4 on a sample: a second user with Bob's email, and one without email. *)
Lemma create_user_refusals_witness :
  create_user demo_make_password (fun s => s) "s1" "key-bobby"
    (UserSchemaIn.mk "Bobby" "bob@test.com" "bobby-secret") people
  = (Reply 400 (Message EmailInUse), people) /\
  create_user demo_make_password (fun s => s) "s1" "key-nobody"
    (UserSchemaIn.mk "Nobody" "" "secret") people
  = (Unhandled ValueError, people).
Proof.
  split.
  - destruct (create_user_refusals demo_make_password (fun s => s) "s1" "key-bobby"
                (UserSchemaIn.mk "Bobby" "bob@test.com" "bobby-secret") people)
      as [_ H].
    apply H; [discriminate|]. exists bob. split; [|reflexivity].
    simpl. right. now left.
  - destruct (create_user_refusals demo_make_password (fun s => s) "s1" "key-nobody"
                (UserSchemaIn.mk "Nobody" "" "secret") people) as [H _].
    apply H. reflexivity.
Defined.

(** X5 on a sample: Dave is created and read back. *)
Lemma create_user_then_get_user_witness :
  let dave := User.mk 4 "Dave" "dave@test.com" "pbkdf2_sha256$s1$dave-secret"
                CUSTOMER in
  let created := create_user demo_make_password (fun s => s) "s1" "key-dave"
                   (UserSchemaIn.mk "Dave" "dave@test.com" "dave-secret") people in
  fst created = Reply 201 (UserOut dave) /\
  get_user 4 (snd created) = Reply 200 (UserOut dave) /\
  (forall k v, get_user k people = Reply 200 (UserOut v) ->
               get_user k (snd created) = Reply 200 (UserOut v)).
Proof.
  intros dave created. split; [reflexivity|].
  destruct (create_user_then_get_user demo_make_password (fun s => s) "s1" "key-dave"
              (UserSchemaIn.mk "Dave" "dave@test.com" "dave-secret") people
              (snd created) dave eq_refl) as (H1 & _ & _ & _ & _ & H6 & _).
  split; [exact H1|exact H6].
Defined.

(** X6 on a sample: Dave's key. *)
Lemma create_user_key_authenticates_witness :
  let dave := User.mk 4 "Dave" "dave@test.com" "pbkdf2_sha256$s1$dave-secret"
                CUSTOMER in
  let created := create_user demo_make_password (fun s => s) "s1" "key-dave"
                   (UserSchemaIn.mk "Dave" "dave@test.com" "dave-secret") people in
  check_constraints people = true /\
  ~ In "key-dave"%string (map AuthToken.key (tokens people)) /\
  ApiKey_authenticate (snd created) "key-dave" = Authenticated dave /\
  AdminApiKey_authenticate (snd created) "key-dave" = Denied /\
  token (snd created) dave = Some "key-dave"%string.
Proof.
  intros dave created.
  assert (Hkey : ~ In "key-dave"%string (map AuthToken.key (tokens people))).
  { simpl. intros [H|[H|[H|[]]]]; discriminate H. }
  split; [reflexivity|]. split; [exact Hkey|].
  destruct (create_user_key_authenticates demo_make_password (fun s => s) "s1"
              "key-dave" (UserSchemaIn.mk "Dave" "dave@test.com" "dave-secret")
              people (snd created) dave
              (check_constraints_sound people eq_refl) Hkey eq_refl)
    as (H1 & H2 & H3 & _).
  split; [exact H1|]. split; [exact H2|exact H3].
Defined.

(** X7 on a sample: a superuser is created in [people]. *)
Lemma create_superuser_passes_admin_gate_witness :
  let root := User.mk 4 "Root" "root@test.com" "pbkdf2_sha256$s1$root-secret"
                ADMIN in
  exists st',
    UserManager_create_superuser demo_make_password (fun s => s) "s1" "key-root"
      "root@test.com" "Root" "root-secret" None people = Ok (root, st') /\
    is_admin root = true /\
    AdminApiKey_authenticate st' "key-root" = Authenticated root.
Proof.
  intros root. eexists. split; [reflexivity|].
  assert (Hkey : ~ In "key-root"%string (map AuthToken.key (tokens people))).
  { simpl. intros [H|[H|[H|[]]]]; discriminate H. }
  destruct (create_superuser_passes_admin_gate demo_make_password (fun s => s) "s1"
              "key-root" "root@test.com" "Root" "root-secret" people _ root
              (check_constraints_sound people eq_refl) Hkey eq_refl)
    as (H1 & H2 & _).
  split; [exact H1|exact H2].
Defined.

(** X8 on a sample: the store after Dave is created. *)
Lemma create_user_constraints_witness :
  let created := create_user demo_make_password (fun s => s) "s1" "key-dave"
                   (UserSchemaIn.mk "Dave" "dave@test.com" "dave-secret") people in
  check_constraints people = true /\
  constraints (snd created) /\ unique_keys (snd created).
Proof.
  intros created. split; [reflexivity|].
  destruct (create_user_constraints demo_make_password (fun s => s) "s1" "key-dave"
              (UserSchemaIn.mk "Dave" "dave@test.com" "dave-secret") people
              (snd created) (fst created)
              (check_constraints_sound people eq_refl) eq_refl) as [H1 H2].
  split; [exact H1|]. apply H2.
  - unfold unique_keys.
    apply (distinct_NoDup String.eqb); [apply String.eqb_eq|reflexivity].
  - simpl. intros [H|[H|[H|[]]]]; discriminate H.
Defined.

(** X9 on a sample: Bob is renamed, or deleted, and then read. *)
Lemma get_user_after_write_witness :
  let renamed := update_user demo_make_password "s1" 2
                   (UserSchemaUpdate.mk (Some (Some "Robert"%string)) None None)
                   people in
  let robert := User.mk 2 "Robert" "bob@test.com" "pbkdf2_sha256$s0$bob-secret"
                  CUSTOMER in
  fst renamed = Reply 200 (UserOut robert) /\
  get_user 2 (snd renamed) = Reply 200 (UserOut robert) /\
  fst (delete_user 2 people) = Reply 204 NoContent /\
  get_user 2 (snd (delete_user 2 people)) = Reply 400 (Message UserNotFound) /\
  get_user 3 (snd (delete_user 2 people)) = get_user 3 people.
Proof.
  intros renamed robert. split; [reflexivity|]. split.
  - destruct (get_user_after_write demo_make_password 2 people (snd renamed))
      as [H _].
    destruct (H "s1"%string
                (UserSchemaUpdate.mk (Some (Some "Robert"%string)) None None)
                robert eq_refl) as [H1 _].
    exact H1.
  - split; [reflexivity|].
    destruct (get_user_after_write demo_make_password 2 people
                (snd (delete_user 2 people))) as [_ H].
    destruct (H eq_refl) as [H1 H2].
    split; [exact H1|]. apply H2. discriminate.
Defined.

(** X10 on a sample: Bob's email is set to null. *)
Lemma update_user_null_field_witness :
  User_get people 2 = Some bob /\
  update_user demo_make_password "s1" 2
    (UserSchemaUpdate.mk None (Some None) None) people
  = (Unhandled IntegrityError, people).
Proof.
  split; [reflexivity|].
  apply (update_user_null_field demo_make_password "s1" 2
           (UserSchemaUpdate.mk None (Some None) None) people bob eq_refl).
  left. reflexivity.
Defined.

(** X12 on a sample: Bob favorites catalog id 5, which is fetched. *)
Lemma add_favorite_effect_witness :
  let added := add_favorite demo_int_of_string demo_Decimal_of_string demo_py_str
                 catalog 500 2 5 people in
  check_constraints people = true /\
  In 2 (map User.id (users people)) /\
  users (snd added) = users people /\ tokens (snd added) = tokens people /\
  forall prod, fst added = Reply 201 (ProductOut prod) ->
    exists row,
      ProductObj.pk prod = Some (Product.id row) /\
      In row (get_favorites 2 (snd added)) /\
      List.length (get_favorites 2 (snd added))
      = S (List.length (get_favorites 2 people)).
Proof.
  intros added.
  assert (Hauth : In 2 (map User.id (users people))) by (simpl; right; now left).
  split; [reflexivity|]. split; [exact Hauth|].
  destruct (add_favorite_effect demo_int_of_string demo_Decimal_of_string demo_py_str
              catalog 500 2 5 people (snd added) (fst added)
              (check_constraints_sound people eq_refl) Hauth eq_refl)
    as (H1 & H2 & _ & H4 & _).
  split; [exact H1|]. split; [exact H2|].
  intros prod Hprod. destruct (H4 prod Hprod) as (row & Hpk & _ & Hin & Hlen).
  exists row. split; [exact Hpk|]. split; [exact Hin|exact Hlen].
Defined.

(** X13 on a sample: what Bob does in the shop does not show in Carol's
    list. *)
Lemma favorites_of_others_untouched_witness :
  check_constraints shop = true /\
  get_favorites 3
    (snd (add_favorite demo_int_of_string demo_Decimal_of_string demo_py_str
            catalog 500 2 5 shop))
  = get_favorites 3 shop /\
  get_favorites 3 (snd (delete_favorite 2 1 shop)) = get_favorites 3 shop.
Proof.
  split; [reflexivity|].
  destruct (favorites_of_others_untouched demo_int_of_string demo_Decimal_of_string
              demo_py_str 2 3 shop (check_constraints_sound shop eq_refl)
              ltac:(discriminate)) as [H1 H2].
  split; [apply H1|apply H2].
Defined.

(** X14 on a sample: Bob favorites catalog id 5 and removes it again. *)
Lemma add_then_delete_favorite_witness :
  let added := add_favorite demo_int_of_string demo_Decimal_of_string demo_py_str
                 catalog 500 2 5 people in
  exists prod,
    fst added = Reply 201 (ProductOut prod) /\
    IntegerField demo_int_of_string (ProductObj.api_id prod) = Ok (Some 5) /\
    delete_favorite 2 5 (snd added)
    = (Reply 204 NoContent,
       mkStore (users people) (tokens people) (products (snd added))
         (favorites people)).
Proof.
  intros added. eexists. split; [reflexivity|]. split; [reflexivity|].
  apply (add_then_delete_favorite demo_int_of_string demo_Decimal_of_string
           demo_py_str catalog 500 2 5 people (snd added) _
           (check_constraints_sound people eq_refl)
           ltac:(simpl; right; now left) eq_refl eq_refl).
Defined.

(** X15 on a sample: Bob favorites catalog id 5 twice. *)
Lemma add_favorite_again_witness :
  let add := add_favorite demo_int_of_string demo_Decimal_of_string demo_py_str in
  let added := add catalog 500 2 5 people in
  exists prod,
    fst added = Reply 201 (ProductOut prod) /\
    IntegerField demo_int_of_string (ProductObj.api_id prod) = Ok (Some 5) /\
    add (fun _ => Raise RequestException) 600 2 5 (snd added)
    = (Reply 400 (ErrorDict already_favorited), snd added).
Proof.
  intros add added. eexists. split; [reflexivity|]. split; [reflexivity|].
  apply (add_favorite_again demo_int_of_string demo_Decimal_of_string
           demo_py_str catalog 500 2 5 people (snd added) _
           (check_constraints_sound people eq_refl) eq_refl eq_refl).
Defined.

(** X16 on a sample: the answer of [test_add_favorite_api_key_error]. *)
Lemma add_favorite_missing_key_witness :
  Product_by_api_id people 6 = None /\
  add_favorite demo_int_of_string demo_Decimal_of_string demo_py_str
    (fun _ => Ok (PyDict [entry "incomplete" (PyStr "data")])) 500 2 6 people
  = (Reply 400 (ErrorDict product_not_fetched), people).
Proof.
  split; [reflexivity|].
  apply (add_favorite_missing_key demo_int_of_string demo_Decimal_of_string
           demo_py_str (fun _ => Ok (PyDict [entry "incomplete" (PyStr "data")]))
           500 2 6 people [entry "incomplete" (PyStr "data")] "id"
           eq_refl eq_refl (or_introl eq_refl) eq_refl).
  intros v H. discriminate H.
Defined.

(** X17 on a sample: the shop after Carol is deleted, and after a sync. *)
Lemma writes_keep_constraints_witness :
  check_constraints shop = true /\
  constraints (snd (delete_user 3 shop)) /\
  constraints (snd (delete_favorite 2 1 shop)).
Proof.
  split; [reflexivity|].
  destruct (writes_keep_constraints demo_int_of_string demo_Decimal_of_string
              demo_py_str demo_make_password shop
              (check_constraints_sound shop eq_refl)) as (_ & H2 & _ & H4 & _).
  split; [apply H4|apply H2].
Defined.

(** X18 on a sample: asked for id 5, the catalog answers with item 9. *)
Lemma add_favorite_other_catalog_id_witness :
  let item := catalog_item 9 "Backpack" (PyFloat (Dfin 39 (-1))) (PyInt 120) in
  let add := add_favorite demo_int_of_string demo_Decimal_of_string demo_py_str
               (fun _ => Ok item) in
  check_constraints people = true /\
  Product_by_api_id people 5 = None /\
  exists prod st2,
    add 500 2 5 people = (Reply 201 (ProductOut prod), st2) /\
    ProductObj.api_id prod = PyInt 9 /\
    map Product.api_id (products st2) = [9] /\
    add 600 2 5 st2 = (Unhandled IntegrityError, st2).
Proof.
  intros item add. split; [reflexivity|]. split; [reflexivity|].
  destruct (add_favorite_other_catalog_id demo_int_of_string demo_Decimal_of_string
              demo_py_str (fun _ => Ok item) 500 2 5 people _ item _
              (check_constraints_sound people eq_refl) eq_refl eq_refl eq_refl
              ltac:(discriminate)) as (st2 & H1 & _ & H3).
  eexists. exists st2. split; [exact H1|]. split; [reflexivity|].
  split; [|apply H3].
  unfold add in H1. injection H1 as <-. reflexivity.
Defined.

(** X19 on a sample: a run over one item that the shop has and one that
    it does not have. *)
Lemma handle_report_witness :
  let items := [catalog_item 2 "T-Shirt (new)" (PyFloat (Dfin 41 (-1))) (PyInt 260);
                catalog_item 7 "Mug" (PyFloat (Dfin 45 (-1))) (PyInt 12)] in
  let run := handle demo_int_of_string demo_Decimal_of_string demo_py_str
               (Ok (PyList items)) shop in
  snd run = Ok (SyncComplete 1 1) /\
  users (fst run) = users shop /\ tokens (fst run) = tokens shop /\
  favorites (fst run) = favorites shop /\
  List.length (products (fst run)) = List.length (products shop).
Proof.
  intros items run. split; [reflexivity|].
  destruct (handle_report demo_int_of_string demo_Decimal_of_string demo_py_str
              (Ok (PyList items)) shop (fst run) (snd run) eq_refl)
    as (H1 & H2 & H3 & H4 & _).
  split; [exact H1|]. split; [exact H2|]. split; [exact H3|exact H4].
Defined.

(** X20 on a sample: the new title of the T-shirt is written once. *)
Lemma sync_product_settles_witness :
  let item := catalog_item 2 "T-Shirt (new)" (PyFloat (Dfin 41 (-1))) (PyInt 260) in
  let sync := sync_product demo_int_of_string demo_Decimal_of_string demo_py_str in
  check_constraints shop = true /\
  exists st',
    sync item shop = Ok (st', true) /\ sync item st' = Ok (st', false).
Proof.
  intros item sync. split; [reflexivity|]. eexists. split; [reflexivity|].
  apply (sync_product_settles demo_int_of_string demo_Decimal_of_string demo_py_str
           item shop _ (check_constraints_sound shop eq_refl) eq_refl).
  - intros k [<-|[<-|[<-|[<-|[]]]]]; eexists; reflexivity.
  - intros v H. injection H as <-. exists 10995, (-2).
    split; [reflexivity|]. lia.
Defined.

(** X23 on a sample: the catalog has a new title for the T-shirt. *)
Lemma sync_overwrites_changed_products_witness :
  let item := catalog_item 2 "T-Shirt (new)" (PyFloat (Dfin 41 (-1))) (PyInt 260) in
  check_constraints shop = true /\
  str_ne (Product.title tshirt) (PyStr "T-Shirt (new)") = true /\
  (exists st',
     sync_product demo_int_of_string demo_Decimal_of_string demo_py_str item shop
     = Ok (st', true) /\
     exists row,
       overwritten_with demo_int_of_string demo_Decimal_of_string demo_py_str
         item tshirt row /\
       products st' = [backpack; row]) /\
  map Product.api_id
    (products (fst (handle demo_int_of_string demo_Decimal_of_string demo_py_str
                      (Ok (PyList [item])) shop)))
  = map Product.api_id (products shop).
Proof.
  intros item. split; [reflexivity|]. split; [reflexivity|].
  destruct (sync_overwrites_changed_products demo_int_of_string
              demo_Decimal_of_string demo_py_str shop
              (check_constraints_sound shop eq_refl)) as [Hturn Hrun].
  split.
  - destruct (Hturn item (PyInt 2) eq_refl) as [_ Hlocal].
    specialize (Hlocal tshirt (PyStr "T-Shirt (new)") (PyFloat (Dfin 10995 (-2)))
                  (Dfin 10995 (-2)) (PyStr "Your perfect pack for everyday use")
                  (PyStr "men's clothing")
                  (PyStr "https://fakestoreapi.com/img/81fPKd-2AYL.png")
                  eq_refl eq_refl eq_refl eq_refl eq_refl eq_refl eq_refl).
    cbn [str_ne Product.title tshirt String.eqb Ascii.eqb Bool.eqb negb orb]
      in Hlocal.
    destruct Hlocal as [_ Hlocal].
    destruct (Hlocal _ _ eq_refl) as (_ & (row & Hov & Hst) & _).
    eexists. split; [reflexivity|].
    exists row. split; [exact Hov|].
    injection Hst as Hp. simpl in Hp. rewrite <- Hp. reflexivity.
  - apply (Hrun (Ok (PyList [item])) _
             (snd (handle demo_int_of_string demo_Decimal_of_string demo_py_str
                     (Ok (PyList [item])) shop))).
    reflexivity.
Defined.



(* ------------------------------------------------------------------ *)
(** ** The repository's tests, replayed on the model

    Cases of [api/common/tests.py] and [api/management/tests.py], with the
    sample stores in the place of the test database. *)

(** [test_add_favorite_api_request_exception] *)
Example test_add_favorite_api_request_exception :
  add_favorite demo_int_of_string demo_Decimal_of_string demo_py_str
    (fun _ => Raise RequestException) 500 2 5 people
  = (Reply 400 (ErrorDict product_not_fetched), people).
Proof. reflexivity. Qed.

(** [test_add_favorite_api_key_error] *)
Example test_add_favorite_api_key_error :
  add_favorite demo_int_of_string demo_Decimal_of_string demo_py_str
    (fun _ => Ok (PyDict [entry "incomplete" (PyStr "data")])) 500 2 6 people
  = (Reply 400 (ErrorDict product_not_fetched), people).
Proof. reflexivity. Qed.

(** [test_add_favorite_invalid_product_id]: the catalog has no such item
    and its answer cannot be decoded. *)
Example test_add_favorite_invalid_product_id :
  let add_sample :=
    add_favorite demo_int_of_string demo_Decimal_of_string demo_py_str catalog in
  add_sample 500 2 999999 people
  = (Reply 400 (ErrorDict product_not_fetched), people).
Proof. reflexivity. Qed.

(** [test_add_favorite_duplicate] *)
Example test_add_favorite_duplicate :
  let add_sample :=
    add_favorite demo_int_of_string demo_Decimal_of_string demo_py_str catalog in
  let s1 := snd (add_sample 500 2 3 people) in
  fst (add_sample 500 2 3 people) <> fst (add_sample 600 2 3 s1) /\
  add_sample 600 2 3 s1 = (Reply 400 (ErrorDict already_favorited), s1).
Proof. split; [discriminate|reflexivity]. Qed.

(** [test_add_favorite_multiple_products] *)
Example test_add_favorite_multiple_products :
  let add_sample :=
    add_favorite demo_int_of_string demo_Decimal_of_string demo_py_str catalog in
  let s1 := snd (add_sample 500 2 7 people) in
  let s2 := snd (add_sample 600 2 8 s1) in
  let s3 := snd (add_sample 700 2 9 s2) in
  List.length (filter (fun l => FavoriteProducts.user l =? 2) (favorites s3)) = 3%nat.
Proof. reflexivity. Qed.

(** [test_delete_favorite_nonexistent_product] *)
Example test_delete_favorite_nonexistent_product :
  delete_favorite 2 999999 shop = (Reply 400 (Message not_on_favorites), shop).
Proof. reflexivity. Qed.

(** [test_delete_favorite_only_users_favorite], [test_delete_favorite_product_remains] *)
Example test_delete_favorite_only_users_favorite :
  let s1 := snd (delete_favorite 3 1 shop) in
  fst (delete_favorite 3 1 shop) = Reply 204 NoContent /\
  favorite_of s1 3 1 = None /\
  favorite_of s1 2 1 = Some (FavoriteProducts.mk 1 100 2 1) /\
  products s1 = products shop.
Proof. repeat split. Qed.

(** [test_delete_favorite_multiple_times] *)
Example test_delete_favorite_multiple_times :
  let s1 := snd (delete_favorite 3 1 shop) in
  delete_favorite 3 1 s1 = (Reply 400 (Message not_on_favorites), s1).
Proof. reflexivity. Qed.

(** [test_get_favorites_ordered_by_date_created] *)
Example test_get_favorites_ordered_by_date_created :
  map Product.api_id (get_favorites 2 (collector 3)) = [1; 2; 3].
Proof. reflexivity. Qed.

(** [test_get_favorites_pagination_first_page] *)
Example test_get_favorites_pagination_first_page :
  exists items,
    get_favorites_page 100 2 1 None (collector 25) = Reply 200 (Page items 25) /\
    List.length items = 20%nat.
Proof. eexists. split; vm_compute; reflexivity. Qed.

(** [test_get_favorites_pagination_page_out_of_range] *)
Example test_get_favorites_pagination_page_out_of_range :
  get_favorites_page 100 2 10 None (collector 5) = Reply 200 (Page [] 5).
Proof. reflexivity. Qed.

(** [test_get_favorites_only_user_favorites] *)
Example test_get_favorites_only_user_favorites :
  let s1 := snd (delete_favorite 3 1 shop) in
  map Product.api_id (get_favorites 3 s1) = [2] /\
  map Product.api_id (get_favorites 2 s1) = [1; 2].
Proof. split; reflexivity. Qed.

(** [test_update_user_email_success] *)
Example test_update_user_email_success :
  fst (update_user demo_make_password "s1" 2
         (UserSchemaUpdate.mk None (Some (Some "newemail@test.com"%string)) None) people)
  = Reply 200 (UserOut (User.mk 2 "Bob" "newemail@test.com"
                          "pbkdf2_sha256$s0$bob-secret" CUSTOMER)).
Proof. reflexivity. Qed.

(** [test_update_user_password_success] *)
Example test_update_user_password_success :
  exists saved st',
    update_user demo_make_password "s1" 2
      (UserSchemaUpdate.mk None None (Some (Some "newpassword123"%string))) people
    = (Reply 200 (UserOut saved), st') /\
    User.password saved <> User.password bob /\
    User.password saved <> "newpassword123"%string.
Proof. eexists. eexists. split; [reflexivity|]. split; discriminate. Qed.

(** [test_update_user_not_found] *)
Example test_update_user_not_found :
  update_user demo_make_password "s1" 99999
    (UserSchemaUpdate.mk (Some (Some "New Name"%string)) None None) people
  = (Reply 400 (Message UserNotFound), people).
Proof. reflexivity. Qed.

(** [test_update_user_duplicate_email] *)
Example test_update_user_duplicate_email :
  update_user demo_make_password "s1" 3
    (UserSchemaUpdate.mk None (Some (Some "bob@test.com"%string)) None) people
  = (Reply 400 (Message EmailInUse), people).
Proof. reflexivity. Qed.

(** [test_update_user_empty_payload] *)
Example test_update_user_empty_payload :
  update_user demo_make_password "s1" 2 (UserSchemaUpdate.mk None None None) people
  = (Reply 200 (UserOut bob), people).
Proof. reflexivity. Qed.

(** [test_delete_user_cascades_to_auth_token],
    [test_delete_user_cascades_to_favorites],
    [test_delete_user_does_not_delete_product] *)
Example test_delete_user_cascades :
  let s1 := snd (delete_user 3 shop) in
  fst (delete_user 3 shop) = Reply 204 NoContent /\
  User_get s1 3 = None /\
  filter (fun t => AuthToken.user t =? 3) (tokens s1) = [] /\
  filter (fun l => FavoriteProducts.user l =? 3) (favorites s1) = [] /\
  products s1 = [backpack; tshirt].
Proof. repeat split. Qed.

(** [test_delete_user_multiple_times] *)
Example test_delete_user_multiple_times :
  let s1 := snd (delete_user 3 shop) in
  delete_user 3 s1 = (Reply 400 (Message UserNotFound), s1).
Proof. reflexivity. Qed.

(* ------------------------------------------------------------------ *)
(** ** What the columns do to the values, on samples *)

(** A price with three decimal places is stored rounded to two; the next
    run finds the stored price different from the fetched one and writes
    the item again. *)
Example sync_rounds_the_price :
  let sync := sync_product demo_int_of_string demo_Decimal_of_string demo_py_str in
  let item := priced_item (PyFloat (Dfin 9999 (-3))) (PyFloat (Dfin 41 (-1)))
                (PyInt 259) in
  exists st',
    sync item shop = Ok (st', true) /\
    map Product.price (products st') = [Dfin 10995 (-2); Dfin 1000 (-2)] /\
    sync item st' = Ok (st', true).
Proof. eexists. split; [reflexivity|]. split; reflexivity. Qed.

(** A price that is not finite, a rate of 100.0 and a count of 2^63 are
    refused by their columns: the run ends with the exception and the store
    as it was. *)
Example sync_refused_by_the_columns :
  let run item := handle demo_int_of_string demo_Decimal_of_string demo_py_str
                    (Ok (PyList [item])) shop in
  run (priced_item (PyFloat (Dinf false)) (PyFloat (Dfin 41 (-1))) (PyInt 259))
  = (shop, Raise ValidationError) /\
  run (priced_item (PyFloat (Dfin 2500 (-2))) (PyFloat (Dfin 1000 (-1))) (PyInt 259))
  = (shop, Raise InvalidOperation) /\
  run (priced_item (PyFloat (Dfin 2500 (-2))) (PyFloat (Dfin 41 (-1)))
         (PyInt (2 ^ 63)))
  = (shop, Raise OverflowError).
Proof. split; [reflexivity|]. split; reflexivity. Qed.

(** The reply to the request that creates a product carries the instance
    as it was built, the table the row as the columns keep it. *)
Example add_favorite_replies_with_the_instance :
  let item := priced_item (PyFloat (Dfin 9999 (-3))) (PyFloat (Dfin 41 (-1)))
                (PyInt 259) in
  exists prod st',
    add_favorite demo_int_of_string demo_Decimal_of_string demo_py_str
      (fun _ => Ok item) 500 2 2 people
    = (Reply 201 (ProductOut prod), st') /\
    ProductObj.price prod = Dfin 9999 (-3) /\
    map Product.price (products st') = [Dfin 1000 (-2)].
Proof. eexists. eexists. split; [reflexivity|]. split; reflexivity. Qed.
